(** * Templated catalog and endpoint filter of keystone: a shallow embedding

    The development follows three source files:
    - [keystone/catalog/backends/templated.py]: [parse_templates] and the
      [Catalog] backend ([get_catalog], [list_endpoints], [get_endpoint],
      [list_services], [get_service]);
    - [keystone/contrib/endpoint_filter/core.py]: the [Manager] of the
      endpoint filter extension and the abstract driver it talks to;
    - [keystone/contrib/endpoint_filter/backends/catalog_templated.py]:
      [EndpointFilterCatalog.get_v3_catalog].

    Python dictionaries are modelled as association lists that keep the
    insertion order: several properties below depend on the order in which
    [items()] enumerates a dictionary (which filter key is looked up first,
    which region is processed last).  Exceptions are values of [exn] carried
    by the [result] monad; code that talks to the endpoint filter driver
    additionally threads the driver's store and the log of removal calls. *)

From Stdlib Require Import String Ascii.
From stdpp Require Import base option list strings.

Local Open Scope string_scope.
Local Open Scope list_scope.

(** ** Python strings *)

Module PyStr.

(** [s.startswith(p)] *)
Fixpoint startswith (p s : string) : bool :=
  match p, s with
  | EmptyString, _ => true
  | String _ _, EmptyString => false
  | String a p', String b s' =>
      if decide (a = b) then startswith p' s' else false
  end.

(** [sub in s] *)
Fixpoint contains (sub s : string) : bool :=
  startswith sub s ||
  match s with
  | EmptyString => false
  | String _ s' => contains sub s'
  end.

(** [s.split(sep)] for a non-empty separator: the occurrences of [sep] are
    found from the left and do not overlap.  [skip] counts the characters
    of an occurrence that are still to be dropped. *)
Fixpoint split_go (sep : string) (skip : nat) (s : string) : list string :=
  match s with
  | EmptyString => [EmptyString]
  | String c s' =>
      match skip with
      | S n => split_go sep n s'
      | O =>
          if startswith sep s
          then EmptyString :: split_go sep (String.length sep - 1) s'
          else match split_go sep 0 s' with
               | h :: t => String c h :: t
               | [] => [String c EmptyString]
               end
      end
  end.

Definition split (sep s : string) : list string := split_go sep 0 s.

(** The characters removed by [strip()] and [rstrip()] on a byte string:
    space, tab, line feed, vertical tab, form feed, carriage return. *)
Definition is_space (c : ascii) : bool :=
  let n := nat_of_ascii c in
  (bool_decide (n = 32) || (bool_decide (9 ≤ n) && bool_decide (n ≤ 13)))%nat.

Fixpoint lstrip (s : string) : string :=
  match s with
  | EmptyString => EmptyString
  | String c s' => if is_space c then lstrip s' else s
  end.

Fixpoint rstrip (s : string) : string :=
  match s with
  | EmptyString => EmptyString
  | String c s' =>
      match rstrip s' with
      | EmptyString => if is_space c then EmptyString else String c EmptyString
      | r => String c r
      end
  end.

Definition strip (s : string) : string := lstrip (rstrip s).

(** [s.replace(a, b)] for one-character [a] and [b]. *)
Fixpoint replace (a b : ascii) (s : string) : string :=
  match s with
  | EmptyString => EmptyString
  | String c s' => String (if decide (c = a) then b else c) (replace a b s')
  end.

End PyStr.

(** ** Python dictionaries, in insertion order *)

Abbreviation dict K V := (list (K * V)).

Section dict.
Context {K V : Type} `{EqDecision K}.

(** [d.get(k)] *)
Fixpoint dict_get (k : K) (d : dict K V) : option V :=
  match d with
  | [] => None
  | (k', v) :: d' => if decide (k = k') then Some v else dict_get k d'
  end.

(** [k in d] *)
Definition dict_mem (k : K) (d : dict K V) : bool :=
  match dict_get k d with Some _ => true | None => false end.

(** [d[k] = v]: an existing key keeps its position, a new key goes last. *)
Fixpoint dict_set (k : K) (v : V) (d : dict K V) : dict K V :=
  match d with
  | [] => [(k, v)]
  | (k', v') :: d' =>
      if decide (k = k') then (k, v) :: d' else (k', v') :: dict_set k v d'
  end.

(** [del d[k]] on a dictionary that holds [k]. *)
Fixpoint dict_del (k : K) (d : dict K V) : dict K V :=
  match d with
  | [] => []
  | (k', v') :: d' =>
      if decide (k = k') then d' else (k', v') :: dict_del k d'
  end.

Definition dict_keys (d : dict K V) : list K := d.*1.
Definition dict_values (d : dict K V) : list V := d.*2.

(** A dictionary holds each key once. *)
Definition dict_wf (d : dict K V) : Prop := NoDup (dict_keys d).
End dict.

(** ** Values and exceptions *)

(** The scalar values found in endpoint and service records and in the
    filters of an endpoint group. *)
Inductive pyval :=
| VStr (s : string)
| VBool (b : bool)
| VNone.

Global Instance pyval_eq_dec : EqDecision pyval.
Proof. solve_decision. Defined.

(** Truth value of an object, as tested by [if x:] and [not x]. *)
Definition truthy (v : pyval) : bool :=
  match v with
  | VStr s => negb (bool_decide (s = ""))
  | VBool b => b
  | VNone => false
  end.

Inductive exn :=
| KeyError (k : string)
| IndexError
| ValueError
| TypeError
| MalformedEndpoint
| NotFound
| EndpointNotFound (endpoint_id : pyval)
| ServiceNotFound (service_id : pyval)
| ProjectNotFound (project_id : string)
| EndpointGroupNotFound (endpoint_group_id : string)
| OtherError (msg : string).

Global Instance exn_eq_dec : EqDecision exn.
Proof. solve_decision. Defined.

Inductive result (A : Type) :=
| Ok (a : A)
| Raise (e : exn).
Arguments Ok {A} a.
Arguments Raise {A} e.

Global Instance result_ret : MRet result := @Ok.

Global Instance result_bind : MBind result := λ A B f m,
  match m with
  | Ok a => f a
  | Raise e => Raise e
  end.

(** [for x in l: acc = f(acc, x)], stopping at the first exception. *)
Fixpoint foldM {A B} (f : B → A → result B) (acc : B) (l : list A) : result B :=
  match l with
  | [] => Ok acc
  | x :: l' => acc' ← f acc x ; foldM f acc' l'
  end.

(** [d[k]] *)
Definition dict_item {V} (k : string) (d : dict string V) : result V :=
  match dict_get k d with
  | Some v => Ok v
  | None => Raise (KeyError k)
  end.

(** [l[i]] *)
Definition list_item {A} (i : nat) (l : list A) : result A :=
  match l !! i with
  | Some x => Ok x
  | None => Raise IndexError
  end.

(** ** [templated.py]: parsing the template file *)

(** region → service → attribute → raw value *)
Abbreviation service_template := (dict string string).
Abbreviation region_template := (dict string service_template).
Abbreviation templates := (dict string region_template).

(** The body of the loop of [parse_templates]. *)
Definition parse_line (o : templates) (line : string) : result templates :=
  if negb (PyStr.contains " = " line) then Ok o
  else
    match PyStr.split " = " (PyStr.strip line) with
    | [k; v] =>
        if negb (PyStr.startswith "catalog." k) then Ok o
        else
          let parts := PyStr.split "." k in
          region ← list_item 1 parts ;
          p2 ← list_item 2 parts ;
          let service := PyStr.rstrip (PyStr.replace "_"%char "-"%char p2) in
          p3 ← list_item 3 parts ;
          let key := PyStr.rstrip p3 in
          let region_ref := default [] (dict_get region o) in
          let service_ref := default [] (dict_get service region_ref) in
          let service_ref := dict_set key v service_ref in
          let region_ref := dict_set service service_ref region_ref in
          Ok (dict_set region region_ref o)
    | _ => Raise ValueError
    end.

Definition parse_templates (template_lines : list string) : result templates :=
  foldM parse_line [] template_lines.

(** The line feed that ends a line read from a file. *)
Definition nl : string := String (ascii_of_nat 10) EmptyString.

(** ** [templated.py]: the [Catalog] backend *)

(** Endpoint and service records: dictionaries from field names to values. *)
Abbreviation record := (dict string pyval).

(** [dict(items)] *)
Definition dict_of_items {V} (items : list (string * V)) : dict string V :=
  foldl (λ d kv, dict_set kv.1 kv.2 d) [] items.

(** The part of [CONF] that the catalog reads. *)
Record config := {
  conf_items : dict string pyval;
  eventlet_server_items : dict string pyval;
  return_all_endpoints_if_no_filter : bool
}.

Definition service_properties : list string :=
  ["id"; "enabled"; "type"; "name"; "description"].

Definition endpoint_properties : list string :=
  ["id"; "enabled"; "interface"; "region"; "service_id"; "url"].

(** [extract_interface_from_string]: what stands before the first ["URL"]. *)
Definition extract_interface_from_string (line : string) : option string :=
  if PyStr.contains "URL" line
  then Some (default "" (head (PyStr.split "URL" line)))
  else None.

(** Search loop shared by [get_endpoint] and [get_service]: the first record
    whose ['id'] equals the identifier, [not_found] when there is none. *)
Fixpoint first_with_id (id : pyval) (not_found : exn) (l : list record)
  : result record :=
  match l with
  | [] => Raise not_found
  | r :: l' =>
      rid ← dict_item "id" r;
      if decide (rid = id) then Ok r else first_with_id id not_found l'
  end.

Section Catalog.
(** [uuid.uuid5(uuid.NAMESPACE_DNS, name).hex], from the standard library. *)
Variable uuid5_hex : string → string.

(** [keystone.catalog.core.format_url(url, substitutions,
    silent_keyerror_failures)], which is not among the sources: it returns
    the interpolated string or [None], or raises. *)
Variable format_url : pyval → dict string pyval → list string → result pyval.

Variable CONF : config.

(** [self.templates] *)
Variable self_templates : templates.

(** The [try] block of [get_catalog]: the loop over the attributes of one
    service. *)
Definition format_service (substitutions : dict string pyval)
    (silent_keyerror_failures : list string)
    (service_ref : service_template) : result record :=
  foldM (λ service_data kv,
           formatted_value ←
             format_url (VStr kv.2) substitutions silent_keyerror_failures;
           if truthy formatted_value
           then Ok (dict_set kv.1 formatted_value service_data)
           else Ok service_data)
        [] service_ref.

(** The first statements of [get_catalog]: the substitutions and the keys
    whose absence is tolerated. *)
Definition get_catalog_substitutions (user_id tenant_id : pyval)
  : dict string pyval * list string :=
  let substitutions :=
    dict_of_items (conf_items CONF ++ eventlet_server_items CONF) in
  let substitutions := dict_set "user_id" user_id substitutions in
  if truthy tenant_id
  then (dict_set "tenant_id" tenant_id substitutions, [])
  else (substitutions, ["tenant_id"]).

(** The body of the loop of [get_catalog] over the services of a region:
    [MalformedEndpoint] leads to [continue]. *)
Definition add_service_data (substitutions : dict string pyval)
    (silent_keyerror_failures : list string) (region : string)
    (catalog : dict string (dict string record))
    (sr : string * service_template) : result (dict string (dict string record)) :=
  match format_service substitutions silent_keyerror_failures sr.2 with
  | Raise MalformedEndpoint => Ok catalog
  | Raise e => Raise e
  | Ok service_data =>
      region_catalog ← dict_item region catalog;
      Ok (dict_set region (dict_set sr.1 service_data region_catalog) catalog)
  end.

Definition get_catalog (user_id tenant_id : pyval)
  : result (dict string (dict string record)) :=
  let '(substitutions, silent_keyerror_failures) :=
    get_catalog_substitutions user_id tenant_id in
  foldM (λ catalog rr,
           let catalog := dict_set rr.1 [] catalog in
           foldM (add_service_data substitutions silent_keyerror_failures rr.1)
                 catalog rr.2)
        [] self_templates.

(** The first inner loop of [list_endpoints]: endpoint properties go to
    the record, keys that contain ["URL"] are kept as interfaces. *)
Definition classify_keys (dict0 : record) (service_ref : service_template)
  : record * dict string string :=
  foldl (λ acc kv,
           let '(dict, interfaces) := acc in
           if bool_decide (kv.1 ∈ endpoint_properties)
           then (dict_set kv.1 (VStr kv.2) dict, interfaces)
           else match extract_interface_from_string kv.1 with
                | Some _ => (dict, dict_set kv.1 kv.2 interfaces)
                | None => (dict, interfaces)
                end)
        (dict0, []) service_ref.

(** The second inner loop of [list_endpoints]: one copy of the record per
    interface. *)
Definition emit_endpoints (region service : string)
    (service_ref : service_template) (dict0 : record)
    (interfaces : dict string string) (endpoint_list : list record)
  : result (record * list record) :=
  foldM (λ acc kv,
           let '(dict, endpoint_list) := acc in
           name ← dict_item "name" service_ref;
           interface ← match extract_interface_from_string kv.1 with
                       | Some i => Ok i
                       | None => Raise TypeError
                       end;
           let endpoint_id :=
             uuid5_hex (region +:+ service +:+ name +:+ interface) in
           let dict := dict_set "id" (VStr endpoint_id) dict in
           let dict := dict_set "legacy_endpoint_id" (VStr endpoint_id) dict in
           let dict := dict_set "interface" (VStr interface) dict in
           let dict := dict_set "url" (VStr kv.2) dict in
           Ok (dict, endpoint_list ++ [dict]))
        (dict0, endpoint_list) interfaces.

(** The body of the loop of [list_endpoints] over the services of a
    region. *)
Definition add_service_endpoints (region : string) (endpoint_list : list record)
    (sr : string * service_template) : result (list record) :=
  let '(service, service_ref) := sr in
  let dict :=
    [("id", VStr "");
     ("region", VStr region);
     ("region_id", VStr region);
     ("enabled", VBool true);
     ("legacy_endpoint_id", VStr "");
     ("service_id", VStr (uuid5_hex service))] in
  let '(dict, interfaces) := classify_keys dict service_ref in
  acc ← emit_endpoints region service service_ref dict interfaces endpoint_list;
  Ok acc.2.

Definition list_endpoints : result (list record) :=
  foldM (λ endpoint_list rr, foldM (add_service_endpoints rr.1) endpoint_list rr.2)
        [] self_templates.

Definition get_endpoint (endpoint_id : pyval) : result record :=
  endpoint_list ← list_endpoints;
  first_with_id endpoint_id (EndpointNotFound endpoint_id) endpoint_list.

(** The record that [list_services] builds for one service entry. *)
Definition service_record (service : string) (service_ref : service_template)
  : record :=
  foldl (λ dict kv,
           if bool_decide (kv.1 ∈ service_properties)
           then dict_set kv.1 (VStr kv.2) dict
           else dict)
        [("id", VStr (uuid5_hex service));
         ("type", VStr service);
         ("enabled", VBool true);
         ("description", VStr "")]
        service_ref.

(** [service_dict] at the end of the loops of [list_services]. *)
Definition service_dict : dict string record :=
  foldl (λ service_dict rr,
           foldl (λ service_dict sr,
                    dict_set sr.1 (service_record sr.1 sr.2) service_dict)
                 service_dict rr.2)
        [] self_templates.

Definition list_services : list record := dict_values service_dict.

Definition get_service (service_id : pyval) : result record :=
  first_with_id service_id (ServiceNotFound service_id) list_services.

End Catalog.

(** ** [templated.py]: regions *)

(** [exception.RegionNotFound], carried as an [OtherError]. *)
Definition RegionNotFound : exn := OtherError "RegionNotFound".

(** [list_regions]: one record per region of the template. *)
Definition list_regions (self_templates : templates) : list record :=
  foldl (λ region_list rr,
           region_list ++ [[("id", VStr rr.1);
                            ("description", VStr "");
                            ("parent_region_id", VStr "")]])
        [] self_templates.

Definition get_region (self_templates : templates) (region_id : pyval)
  : result record :=
  first_with_id region_id RegionNotFound (list_regions self_templates).

(** The value that the template holds for an attribute of a service of a
    region, [templates[region][service][key]] when all three exist. *)
Definition template_value (region service key : string) (t : templates)
  : option string :=
  region_ref ← dict_get region t;
  service_ref ← dict_get service region_ref;
  dict_get key service_ref.

(** [str(v)], as interpolation writes a value. *)
Definition str_of_pyval (v : pyval) : string :=
  match v with
  | VStr s => s
  | VBool true => "True"
  | VBool false => "False"
  | VNone => "None"
  end.

(** Modelled from the spec: [keystone.catalog.core.format_url] is not among
    the sources.  Spec 4.2: named placeholders, written [{name}], are
    replaced by the values of the context; a name that the context lacks
    gives the absent result when it is tolerated and fails with the
    malformed-endpoint condition when it is not.  The first missing name
    decides.  [name] holds the placeholder that is being read. *)
Fixpoint interpolate (context : dict string pyval) (tolerated : list string)
    (name : option string) (s : string) : result (option string) :=
  match s with
  | EmptyString =>
      match name with
      | None => Ok (Some EmptyString)
      | Some _ => Raise MalformedEndpoint
      end
  | String c s' =>
      match name with
      | None =>
          if decide (c = "{"%char)
          then interpolate context tolerated (Some EmptyString) s'
          else r ← interpolate context tolerated None s';
               Ok (option_map (String c) r)
      | Some n =>
          if decide (c = "}"%char)
          then match dict_get n context with
               | Some v =>
                   r ← interpolate context tolerated None s';
                   Ok (option_map (String.append (str_of_pyval v)) r)
               | None =>
                   if bool_decide (n ∈ tolerated) then Ok None
                   else Raise MalformedEndpoint
               end
          else interpolate context tolerated
                 (Some (n +:+ String c EmptyString)) s'
      end
  end.

(** Modelled from the spec: [format_url] of spec 4.2 on a value; a value
    that is not a string cannot be interpolated. *)
Definition spec_format_url (url : pyval) (substitutions : dict string pyval)
    (silent_keyerror_failures : list string) : result pyval :=
  match url with
  | VStr s =>
      r ← interpolate substitutions silent_keyerror_failures None s;
      Ok (from_option VStr VNone r)
  | _ => Raise MalformedEndpoint
  end.

Definition ex_templates : templates :=
  [("RegionOne",
    [("identity", [("name", "Identity Service");
                   ("publicURL", "http://{host}:5000/v3")]);
     ("compute", [("name", "Compute");
                  ("publicURL", "http://c/{tenant_id}")])])].

Definition ex_conf (host : bool) : config :=
  {| conf_items := if host then [("host", VStr "10.0.0.1")] else [];
     eventlet_server_items := [];
     return_all_endpoints_if_no_filter := false |}.

(** ** [endpoint_filter/core.py]: the driver interface *)

(** The value of a filter: one accepted value or a list of them. *)
Inductive filter_value :=
| FScalar (v : pyval)
| FList (l : list pyval).

Record endpoint_group := {
  eg_id : string;
  eg_filters : dict string filter_value
}.

(** A project to endpoint association, as the driver lists it. *)
Record project_endpoint := {
  pe_endpoint_id : string;
  pe_project_id : string
}.

(** A project to endpoint group association. *)
Record project_endpoint_group := {
  peg_endpoint_group_id : string;
  peg_project_id : string
}.

(** The operations of [EndpointFilterDriverV8] that the manager calls, over
    a store of type [S].  The docstrings of the interface say which of them
    raise. *)
Class EndpointFilterDriver (S : Type) := {
  driver_list_endpoints_for_project : string → S → list project_endpoint;
  driver_remove_endpoint_from_project : pyval → string → S → result S;
  driver_list_endpoint_groups_for_project :
    string → S → result (list project_endpoint_group);
  driver_get_endpoint_group : string → S → result endpoint_group
}.

(** ** Computations of the manager

    They read and update the driver's store and record, in call order, the
    arguments of every [remove_endpoint_from_project] call. *)
Record world (S : Type) := World {
  store : S;
  removal_calls : list (pyval * string)
}.
Arguments World {S} _ _.
Arguments store {S} _.
Arguments removal_calls {S} _.

Definition M (S A : Type) : Type := world S → result A * world S.

Global Instance M_ret {S} : MRet (M S) := λ A a w, (Ok a, w).

Global Instance M_bind {S} : MBind (M S) := λ A B f m w,
  match m w with
  | (Ok a, w') => f a w'
  | (Raise e, w') => (Raise e, w')
  end.

(** A computation that does not touch the store. *)
Definition lift {S A} (r : result A) : M S A := λ w, (r, w).

(** A read of the store. *)
Definition reads {S A} (f : S → result A) : M S A := λ w, (f (store w), w).

(** [for x in l: acc = f(acc, x)] for computations of the manager. *)
Fixpoint foldM_M {S A B} (f : B → A → M S B) (acc : B) (l : list A) : M S B :=
  match l with
  | [] => mret acc
  | x :: l' => acc' ← f acc x; foldM_M f acc' l'
  end.

(** [[f(x) for x in l]] *)
Fixpoint mapM {A B} (f : A → result B) (l : list A) : result (list B) :=
  match l with
  | [] => Ok []
  | x :: l' => y ← f x; ys ← mapM f l'; Ok (y :: ys)
  end.

(** ** [endpoint_filter/core.py]: the [Manager] *)

(** The accepted values of a filter entry: a scalar is wrapped in a list. *)
Definition accepted (value : filter_value) : list pyval :=
  match value with
  | FList l => l
  | FScalar v => [v]
  end.

(** The loop over [filters.items()] in
    [_get_endpoints_filtered_by_endpoint_group]: the final value of
    [is_candidate] for one endpoint. *)
Fixpoint is_candidate (endpoint : record) (filters : dict string filter_value)
  : result bool :=
  match filters with
  | [] => Ok true
  | (key, value) :: filters' =>
      let value := accepted value in
      x ← dict_item key endpoint;
      if bool_decide (x ∈ value) then is_candidate endpoint filters'
      else Ok false
  end.

(** The loop over [endpoints] of the same method. *)
Definition filter_endpoints (filters : dict string filter_value)
    (endpoints : list record) : result (list record) :=
  foldM (λ filtered_endpoints endpoint,
           c ← is_candidate endpoint filters;
           if c : bool then Ok (filtered_endpoints ++ [endpoint])
           else Ok filtered_endpoints)
        [] endpoints.

(** The loop over [endpoint_refs] in [list_endpoints_for_project]: an
    endpoint of a group is added unless its id is already a key. *)
Definition add_group_endpoints (filtered_endpoints : dict pyval record)
    (endpoint_refs : list record) : result (dict pyval record) :=
  foldM (λ filtered_endpoints endpoint_ref,
           id ← dict_item "id" endpoint_ref;
           if dict_mem id filtered_endpoints then Ok filtered_endpoints
           else Ok (dict_set id endpoint_ref filtered_endpoints))
        filtered_endpoints endpoint_refs.

Section Manager.
Context {S : Type} `{!EndpointFilterDriver S}.

(** [self.catalog_api] hands [get_endpoint] and [list_endpoints] to the
    catalog backend, the templated [Catalog] over [self_templates]. *)
Variable uuid5_hex : string → string.
Variable self_templates : templates.

(** [self.resource_api.get_project], whose result is not used. *)
Variable get_project : string → result unit.

(** [self.remove_endpoint_from_project], handed to the driver. *)
Definition remove_endpoint_from_project (endpoint_id : pyval)
    (project_id : string) : M S unit := λ w,
  let calls := removal_calls w ++ [(endpoint_id, project_id)] in
  match driver_remove_endpoint_from_project endpoint_id project_id (store w) with
  | Ok s' => (Ok (), World s' calls)
  | Raise e => (Raise e, World (store w) calls)
  end.

Definition _get_endpoint_groups_for_project (project_id : string)
  : M S (list endpoint_group) :=
  if bool_decide (project_id = "") then mret []
  else
    _ ← lift (get_project project_id);
    reads (λ s,
      match
        refs ← driver_list_endpoint_groups_for_project project_id s;
        mapM (λ ref, driver_get_endpoint_group (peg_endpoint_group_id ref) s)
             refs
      with
      | Raise (EndpointGroupNotFound _) => Ok []
      | r => r
      end).

Definition _get_endpoints_filtered_by_endpoint_group
    (endpoint_group_id : string) : M S (list record) :=
  endpoints ← lift (list_endpoints uuid5_hex self_templates);
  endpoint_group ← reads (driver_get_endpoint_group endpoint_group_id);
  lift (filter_endpoints (eg_filters endpoint_group) endpoints).

(** The body of the loop over [refs] in [list_endpoints_for_project]. *)
Definition add_direct_endpoint (project_id : string)
    (filtered_endpoints : dict pyval record) (ref : project_endpoint)
  : M S (dict pyval record) :=
  match get_endpoint uuid5_hex self_templates (VStr (pe_endpoint_id ref)) with
  | Ok endpoint =>
      mret (dict_set (VStr (pe_endpoint_id ref)) endpoint filtered_endpoints)
  | Raise (EndpointNotFound _) =>
      _ ← remove_endpoint_from_project (VStr (pe_endpoint_id ref)) project_id;
      mret filtered_endpoints
  | Raise e => lift (Raise e)
  end.

(** The loop over [endpoint_groups] of the same method. *)
Definition add_groups (filtered_endpoints : dict pyval record)
    (endpoint_groups : list endpoint_group) : M S (dict pyval record) :=
  foldM_M (λ filtered_endpoints endpoint_group,
             endpoint_refs ←
               _get_endpoints_filtered_by_endpoint_group (eg_id endpoint_group);
             lift (add_group_endpoints filtered_endpoints endpoint_refs))
          filtered_endpoints endpoint_groups.

Definition list_endpoints_for_project (project_id : string)
  : M S (dict pyval record) :=
  refs ← reads (λ s, Ok (driver_list_endpoints_for_project project_id s));
  filtered_endpoints ← foldM_M (add_direct_endpoint project_id) [] refs;
  endpoint_groups ← _get_endpoint_groups_for_project project_id;
  add_groups filtered_endpoints endpoint_groups.

End Manager.

(** ** [catalog_templated.py]: [EndpointFilterCatalog] *)

(** The values of a service of the v3 catalog: scalars, and the list of
    endpoints under ['endpoints']. *)
Inductive v3_value :=
| V3Scalar (v : pyval)
| V3Endpoints (l : list record).

Abbreviation v3_service := (dict string v3_value).

(** [del d[k]] *)
Definition dict_delete {V} (k : string) (d : dict string V)
  : result (dict string V) :=
  if dict_mem k d then Ok (dict_del k d) else Raise (KeyError k).

(** [d.setdefault(k, v)] *)
Definition dict_setdefault {K V} `{EqDecision K} (k : K) (v : V) (d : dict K V)
  : dict K V :=
  if dict_mem k d then d else dict_set k v d.

(** An entry of [services]: the service record and, once an endpoint was
    added, the list under its ['endpoints'] key. *)
Abbreviation service_entry := (record * option (list record))%type.

(** The last loop of [get_v3_catalog]. *)
Definition format_services (services : dict pyval service_entry)
  : result (list v3_service) :=
  foldM (λ catalog entry,
           let service := entry.2.1 in
           type ← dict_item "type" service;
           name ← dict_item "name" service;
           description ← dict_item "description" service;
           endpoints ← match entry.2.2 with
                       | Some l => Ok l
                       | None => Raise (KeyError "endpoints")
                       end;
           Ok (catalog ++ [[("type", V3Scalar type);
                            ("name", V3Scalar name);
                            ("description", V3Scalar description);
                            ("endpoints", V3Endpoints endpoints)]]))
        [] services.

Section EndpointFilterCatalog.
Context {S : Type} `{!EndpointFilterDriver S}.

Variable uuid5_hex : string → string.
Variable format_url : pyval → dict string pyval → list string → result pyval.
Variable CONF : config.
Variable self_templates : templates.
Variable get_project : string → result unit.

(** [get_v3_catalog] of the parent classes, which is not among the sources. *)
Variable super_get_v3_catalog : string → string → result (list v3_service).

(** The [try] block up to [services.setdefault]: [None] stands for
    [continue] on a disabled endpoint. *)
Definition lookup_service (services : dict pyval service_entry)
    (endpoint : record) : result (option (pyval * dict pyval service_entry)) :=
  enabled ← dict_item "enabled" endpoint;
  if negb (truthy enabled) then Ok None
  else
    service_id ← dict_item "service_id" endpoint;
    service ← get_service uuid5_hex self_templates service_id;
    Ok (Some (service_id, dict_setdefault service_id (service, None) services)).

(** The rest of the [try] block. *)
Definition attach_endpoint (substitutions : dict string pyval)
    (service_id : pyval) (services : dict pyval service_entry)
    (endpoint : record) : result (dict pyval service_entry) :=
  service ← match dict_get service_id services with
            | Some e => Ok e
            | None => Raise (KeyError "service_id")
            end;
  endpoint ← dict_delete "service_id" endpoint;
  endpoint ← dict_delete "enabled" endpoint;
  endpoint ← dict_delete "legacy_endpoint_id" endpoint;
  endpoint ← dict_delete "region_id" endpoint;
  endpoint ← dict_delete "id" endpoint;
  url ← dict_item "url" endpoint;
  url ← format_url url substitutions [];
  let endpoint := dict_set "url" url endpoint in
  let endpoints := match service.2 with
                   | Some l => l ++ [endpoint]
                   | None => [endpoint]
                   end in
  Ok (dict_set service_id (service.1, Some endpoints) services).

(** The body of the loop over [dict_of_endpoint_refs.items()]. *)
Definition add_endpoint (substitutions : dict string pyval)
    (project_id : string) (services : dict pyval service_entry)
    (item : pyval * record) : M S (dict pyval service_entry) :=
  let handle (services : dict pyval service_entry) (e : exn) :=
    match e with
    | EndpointNotFound _ =>
        _ ← remove_endpoint_from_project item.1 project_id; mret services
    | _ => lift (Raise e)
    end in
  match lookup_service services item.2 with
  | Ok None => mret services
  | Ok (Some (service_id, services)) =>
      match attach_endpoint substitutions service_id services item.2 with
      | Ok services => mret services
      | Raise e => handle services e
      end
  | Raise e => handle services e
  end.

Definition get_v3_catalog (user_id project_id : string)
  : M S (list v3_service) :=
  let substitutions := dict_of_items (conf_items CONF) in
  let substitutions := dict_set "tenant_id" (VStr project_id) substitutions in
  let substitutions := dict_set "user_id" (VStr user_id) substitutions in
  dict_of_endpoint_refs ←
    list_endpoints_for_project uuid5_hex self_templates get_project project_id;
  if match dict_of_endpoint_refs with [] => true | _ => false end
     && return_all_endpoints_if_no_filter CONF
  then lift (super_get_v3_catalog user_id project_id)
  else
    services ← foldM_M (add_endpoint substitutions project_id) []
                 dict_of_endpoint_refs;
    lift (format_services services).

End EndpointFilterCatalog.

(** ** A driver that keeps its associations in memory

    It follows the docstrings of [EndpointFilterDriverV8]: removing an
    association that does not exist and reading an endpoint group that does
    not exist raise. *)
Record mem_store := MemStore {
  ms_project_endpoints : list project_endpoint;
  ms_endpoint_groups : list endpoint_group;
  ms_project_endpoint_groups : list project_endpoint_group
}.

Definition is_association (endpoint_id : pyval) (project_id : string)
    (a : project_endpoint) : bool :=
  bool_decide (VStr (pe_endpoint_id a) = endpoint_id)
  && bool_decide (pe_project_id a = project_id).

Definition mem_remove_endpoint_from_project (endpoint_id : pyval)
    (project_id : string) (s : mem_store) : result mem_store :=
  if existsb (is_association endpoint_id project_id) (ms_project_endpoints s)
  then Ok (MemStore
             (List.filter (λ a, negb (is_association endpoint_id project_id a))
                          (ms_project_endpoints s))
             (ms_endpoint_groups s) (ms_project_endpoint_groups s))
  else Raise NotFound.

Definition mem_get_endpoint_group (endpoint_group_id : string) (s : mem_store)
  : result endpoint_group :=
  match List.find (λ g, bool_decide (eg_id g = endpoint_group_id))
                  (ms_endpoint_groups s) with
  | Some g => Ok g
  | None => Raise (EndpointGroupNotFound endpoint_group_id)
  end.

Global Instance mem_driver : EndpointFilterDriver mem_store := {|
  driver_list_endpoints_for_project project_id s :=
    List.filter (λ a, bool_decide (pe_project_id a = project_id))
                (ms_project_endpoints s);
  driver_remove_endpoint_from_project := mem_remove_endpoint_from_project;
  driver_list_endpoint_groups_for_project project_id s :=
    Ok (List.filter (λ a, bool_decide (peg_project_id a = project_id))
                    (ms_project_endpoint_groups s));
  driver_get_endpoint_group := mem_get_endpoint_group
|}.

(** ** A store to run the manager on

    The examples tag a name where the catalog hashes it. *)
Definition ex_uuid (name : string) : string := "#" +:+ name.

Definition ex_public_group : endpoint_group :=
  {| eg_id := "g1"; eg_filters := [("interface", FScalar (VStr "public"))] |}.

(** Project [p1] is associated with the identity endpoint, with an endpoint
    that the catalog no longer has, and with the group of the public
    endpoints. *)
Definition ex_store : mem_store :=
  {| ms_project_endpoints :=
       [{| pe_endpoint_id := "#RegionOneidentityIdentity Servicepublic";
           pe_project_id := "p1" |};
        {| pe_endpoint_id := "gone"; pe_project_id := "p1" |}];
     ms_endpoint_groups := [ex_public_group];
     ms_project_endpoint_groups :=
       [{| peg_endpoint_group_id := "g1"; peg_project_id := "p1" |}] |}.

(** Projects [p1] and [p2] exist; [p2] has no association. *)
Definition ex_get_project (project_id : string) : result unit :=
  if bool_decide (project_id ∈ ["p1"; "p2"]) then Ok ()
  else Raise (ProjectNotFound project_id).

(** A configuration that asks for the whole catalog when a project has no
    endpoint. *)
Definition ex_conf_all : config :=
  {| conf_items := [("host", VStr "10.0.0.1")];
     eventlet_server_items := [];
     return_all_endpoints_if_no_filter := true |}.

(** A stand-in for the catalog of the parent class. *)
Definition ex_super_get_v3_catalog (user_id project_id : string)
  : result (list v3_service) :=
  Ok [[("type", V3Scalar (VStr "identity"));
       ("endpoints",
        V3Endpoints [[("interface", VStr "public");
                      ("region", VStr "RegionOne");
                      ("url", VStr "http://10.0.0.1:5000/v3")]])]].

(** A driver that lists the associations from a cache: it still lists an
    association that was removed from the store behind it, and the removal
    of such an association raises [NotFound], as the docstring of
    [remove_endpoint_from_project] announces. *)
Record cached_store := CachedStore {
  cs_listing : list project_endpoint;
  cs_store : mem_store
}.

Global Instance cached_driver : EndpointFilterDriver cached_store := {|
  driver_list_endpoints_for_project project_id s :=
    List.filter (λ a, bool_decide (pe_project_id a = project_id))
                (cs_listing s);
  driver_remove_endpoint_from_project endpoint_id project_id s :=
    s' ← mem_remove_endpoint_from_project endpoint_id project_id (cs_store s);
    Ok (CachedStore (cs_listing s) s');
  driver_list_endpoint_groups_for_project project_id s :=
    driver_list_endpoint_groups_for_project project_id (cs_store s);
  driver_get_endpoint_group endpoint_group_id s :=
    driver_get_endpoint_group endpoint_group_id (cs_store s)
|}.

(** The cache still holds the association of [p1] with the endpoint that is
    gone; the store has lost it. *)
Definition ex_cached_store : cached_store :=
  {| cs_listing := ms_project_endpoints ex_store;
     cs_store :=
       {| ms_project_endpoints :=
            [{| pe_endpoint_id := "#RegionOneidentityIdentity Servicepublic";
                pe_project_id := "p1" |}];
          ms_endpoint_groups := [ex_public_group];
          ms_project_endpoint_groups :=
            [{| peg_endpoint_group_id := "g1"; peg_project_id := "p1" |}] |} |}.

(** ** Auxiliary descriptions of the loops *)

(** A loop that stores one value per element, [d[key(x)] = val(x)]. *)
Definition store_loop {A V} (key : A → string) (val : A → V)
    (d : dict string V) (l : list A) : dict string V :=
  foldl (λ d x, dict_set (key x) (val x) d) d l.

(** The service entries of the template, in the order in which the loops
    over regions and services meet them. *)
Definition service_entries (t : templates) : list (string * service_template) :=
  mjoin (t.*2).

(** The services of a region that [get_catalog] keeps: those whose
    attributes all interpolate, each with its formatted attributes. *)
Definition emitted_services
    (format_url : pyval → dict string pyval → list string → result pyval)
    (substitutions : dict string pyval) (silent_keyerror_failures : list string)
    (region_ref : region_template) : dict string record :=
  omap (λ sr, match format_service format_url substitutions
                      silent_keyerror_failures sr.2 with
              | Ok service_data => Some (sr.1, service_data)
              | Raise _ => None
              end)
       region_ref.

Section resolution.
Context {S : Type} `{!EndpointFilterDriver S}.
Variable uuid5_hex : string → string.
Variable self_templates : templates.

(** An association is stale when the catalog reports its endpoint as not
    found. *)
Definition is_stale (ref : project_endpoint) : bool :=
  match get_endpoint uuid5_hex self_templates (VStr (pe_endpoint_id ref)) with
  | Raise (EndpointNotFound _) => true
  | _ => false
  end.

(** The removal calls for the stale associations among [refs], in order. *)
Fixpoint stale_calls (project_id : string) (refs : list project_endpoint)
  : list (pyval * string) :=
  match refs with
  | [] => []
  | ref :: refs' =>
      if is_stale ref
      then (VStr (pe_endpoint_id ref), project_id) :: stale_calls project_id refs'
      else stale_calls project_id refs'
  end.

(** The endpoints of the associations among [refs] that the catalog knows,
    stored under their ids. *)
Fixpoint direct_endpoints (filtered_endpoints : dict pyval record)
    (refs : list project_endpoint) : dict pyval record :=
  match refs with
  | [] => filtered_endpoints
  | ref :: refs' =>
      match get_endpoint uuid5_hex self_templates (VStr (pe_endpoint_id ref)) with
      | Ok endpoint =>
          direct_endpoints
            (dict_set (VStr (pe_endpoint_id ref)) endpoint filtered_endpoints)
            refs'
      | Raise _ => direct_endpoints filtered_endpoints refs'
      end
  end.



End resolution.

(** The lines that [parse_templates] accepts: a line without the separator;
    or a line that, once stripped, splits into exactly a key and a value,
    where a key that starts with ["catalog."] has at least four segments. *)
Definition well_formed_line (line : string) : bool :=
  negb (PyStr.contains " = " line)
  || match PyStr.split " = " (PyStr.strip line) with
     | [k; v] =>
         negb (PyStr.startswith "catalog." k)
         || bool_decide (4 ≤ length (PyStr.split "." k))%nat
     | _ => false
     end.

(** A template as [parse_templates] builds it: each region, each service of
    a region and each attribute of a service occurs once, and no region or
    service is empty. *)
Definition templates_wf (t : templates) : Prop :=
  dict_wf t
  ∧ ∀ region region_ref, (region, region_ref) ∈ t →
      dict_wf region_ref ∧ region_ref ≠ []
      ∧ ∀ service service_ref, (service, service_ref) ∈ region_ref →
          dict_wf service_ref ∧ service_ref ≠ [].

(** ** The endpoints of [list_endpoints], one per interface *)

(** The fields of an endpoint of [list_endpoints]. *)
Definition endpoint_fields : list string :=
  ["id"; "region"; "region_id"; "enabled"; "legacy_endpoint_id"; "service_id";
   "interface"; "url"].

(** The fields that the loop over the interfaces writes. *)
Definition interface_fields : list string :=
  ["id"; "legacy_endpoint_id"; "interface"; "url"].

(** The record that [list_endpoints] starts from for a service of a
    region. *)
Definition initial_endpoint (uuid5_hex : string → string)
    (region service : string) : record :=
  [("id", VStr "");
   ("region", VStr region);
   ("region_id", VStr region);
   ("enabled", VBool true);
   ("legacy_endpoint_id", VStr "");
   ("service_id", VStr (uuid5_hex service))].

(** The first inner loop of [list_endpoints], started from any record and
    any [interfaces]. *)
Definition classify_keys_from (acc : record * dict string string)
    (service_ref : service_template) : record * dict string string :=
  foldl (λ acc kv,
           let '(dict, interfaces) := acc in
           if bool_decide (kv.1 ∈ endpoint_properties)
           then (dict_set kv.1 (VStr kv.2) dict, interfaces)
           else match extract_interface_from_string kv.1 with
                | Some _ => (dict, dict_set kv.1 kv.2 interfaces)
                | None => (dict, interfaces)
                end)
        acc service_ref.

(** An interface of a service of a region: the record after the first
    inner loop, and the key and the value kept in [interfaces]. *)
Record interface_entry := {
  ie_region : string;
  ie_service : string;
  ie_service_ref : service_template;
  ie_dict : record;
  ie_key : string;
  ie_url : string
}.

(** The interfaces of the template, in the order of the loops. *)
Definition interface_entries (uuid5_hex : string → string) (t : templates)
  : list interface_entry :=
  rr ← t;
  sr ← rr.2;
  let c := classify_keys (initial_endpoint uuid5_hex rr.1 sr.1) sr.2 in
  kv ← c.2;
  [{| ie_region := rr.1; ie_service := sr.1; ie_service_ref := sr.2;
      ie_dict := c.1; ie_key := kv.1; ie_url := kv.2 |}].

(** What the endpoint appended for an interface holds: the derived id, the
    interface and the url of the entry, and the other fields as the first
    inner loop left them. *)
Definition endpoint_of_interface (uuid5_hex : string → string)
    (e : interface_entry) (endpoint : record) : Prop :=
  ∃ name interface,
    dict_get "name" (ie_service_ref e) = Some name
    ∧ extract_interface_from_string (ie_key e) = Some interface
    ∧ dict_get "id" endpoint
      = Some (VStr (uuid5_hex (ie_region e +:+ ie_service e +:+ name
                               +:+ interface)))
    ∧ dict_get "legacy_endpoint_id" endpoint = dict_get "id" endpoint
    ∧ dict_get "interface" endpoint = Some (VStr interface)
    ∧ dict_get "url" endpoint = Some (VStr (ie_url e))
    ∧ (∀ f, f ∉ interface_fields →
            dict_get f endpoint = dict_get f (ie_dict e))
    ∧ (∀ f, f ∈ dict_keys endpoint ↔
            f ∈ interface_fields ∨ f ∈ dict_keys (ie_dict e))
    ∧ (dict_wf (ie_dict e) → dict_wf endpoint).

(** An attribute of a service of a region whose key contains ["URL"]. *)
Record url_attribute := {
  ua_region : string;
  ua_service : string;
  ua_service_ref : service_template;
  ua_key : string;
  ua_url : string
}.

(** The attributes of the template whose key contains ["URL"]: region by
    region, service by service, attribute by attribute, as the template
    has them. *)
Definition url_attributes (t : templates) : list url_attribute :=
  rr ← t;
  sr ← rr.2;
  kv ← List.filter (λ kv : string * string, PyStr.contains "URL" kv.1) sr.2;
  [{| ua_region := rr.1; ua_service := sr.1; ua_service_ref := sr.2;
      ua_key := kv.1; ua_url := kv.2 |}].

(** The endpoint of such an attribute: the id is the hash of region,
    service, name of the service and interface, the interface is what the
    key yields, the url is the value, the region id is the region, and
    region, enabled and service id are the region, [True] and the hash of
    the service unless the service has an attribute of that name. *)
Definition endpoint_of_attribute (uuid5_hex : string → string)
    (a : url_attribute) (endpoint : record) : Prop :=
  ∃ name interface,
    dict_get "name" (ua_service_ref a) = Some name
    ∧ extract_interface_from_string (ua_key a) = Some interface
    ∧ dict_get "id" endpoint
      = Some (VStr (uuid5_hex (ua_region a +:+ ua_service a +:+ name
                               +:+ interface)))
    ∧ dict_get "legacy_endpoint_id" endpoint = dict_get "id" endpoint
    ∧ dict_get "interface" endpoint = Some (VStr interface)
    ∧ dict_get "url" endpoint = Some (VStr (ua_url a))
    ∧ dict_get "region_id" endpoint = Some (VStr (ua_region a))
    ∧ ("region" ∉ dict_keys (ua_service_ref a) →
       dict_get "region" endpoint = Some (VStr (ua_region a)))
    ∧ ("enabled" ∉ dict_keys (ua_service_ref a) →
       dict_get "enabled" endpoint = Some (VBool true))
    ∧ ("service_id" ∉ dict_keys (ua_service_ref a) →
       dict_get "service_id" endpoint
       = Some (VStr (uuid5_hex (ua_service a)))).

(** ** The services of [get_v3_catalog] *)

(** The fields that [get_v3_catalog] deletes from an endpoint. *)
Definition deleted_fields : list string :=
  ["service_id"; "enabled"; "legacy_endpoint_id"; "region_id"; "id"].

(** [substitutions] of [get_v3_catalog]. *)
Definition v3_substitutions (CONF : config) (user_id project_id : string)
  : dict string pyval :=
  dict_set "user_id" (VStr user_id)
    (dict_set "tenant_id" (VStr project_id) (dict_of_items (conf_items CONF))).

(** What an endpoint of the v3 catalog holds of the endpoint [original] it
    was made from: the fields that are not deleted, with the formatted
    url. *)
Definition catalog_endpoint (formatted : pyval) (original endpoint : record)
  : Prop :=
  dict_wf endpoint
  ∧ (∀ f, f ∈ dict_keys endpoint ↔
          f ∈ dict_keys original ∧ f ∉ deleted_fields)
  ∧ dict_get "url" endpoint = Some formatted
  ∧ ∀ f, f ≠ "url" → f ∉ deleted_fields →
         dict_get f endpoint = dict_get f original.

(** What an entry of [services] holds under [service_id]: the record that
    [get_service] returns for it and, once it has endpoints, enabled
    endpoints of the listing that name this service, each with its url
    formatted. *)
Definition service_entry_ok (uuid5_hex : string → string)
    (format_url : pyval → dict string pyval → list string → result pyval)
    (self_templates : templates) (substitutions : dict string pyval)
    (service_id : pyval) (entry : service_entry) : Prop :=
  get_service uuid5_hex self_templates service_id = Ok entry.1
  ∧ ∀ endpoints, entry.2 = Some endpoints →
      endpoints ≠ []
      ∧ ∀ endpoint, endpoint ∈ endpoints →
          ∃ all original enabled url formatted,
            list_endpoints uuid5_hex self_templates = Ok all
            ∧ original ∈ all
            ∧ dict_get "service_id" original = Some service_id
            ∧ dict_get "enabled" original = Some enabled
            ∧ truthy enabled = true
            ∧ dict_get "url" original = Some url
            ∧ format_url url substitutions [] = Ok formatted
            ∧ catalog_endpoint formatted original endpoint.

(** ** Descriptions that follow the words of the specification *)

(** Spec 4.4, v2 mode: an attribute whose substitution fails is skipped,
    and the service is emitted with the attributes that succeeded. *)
Definition format_service_spec
    (format_url : pyval → dict string pyval → list string → result pyval)
    (substitutions : dict string pyval) (silent_keyerror_failures : list string)
    (service_ref : service_template) : record :=
  foldl (λ service_data kv,
           match format_url (VStr kv.2) substitutions silent_keyerror_failures with
           | Ok formatted_value =>
               if truthy formatted_value
               then dict_set kv.1 formatted_value service_data
               else service_data
           | Raise _ => service_data
           end)
        [] service_ref.

(** The catalog of spec 4.4: every service of every region is emitted, with
    the attributes whose substitution succeeded. *)
Definition get_catalog_spec
    (format_url : pyval → dict string pyval → list string → result pyval)
    (CONF : config) (self_templates : templates) (user_id tenant_id : pyval)
  : dict string (dict string record) :=
  let '(substitutions, silent_keyerror_failures) :=
    get_catalog_substitutions CONF user_id tenant_id in
  (λ rr : string * region_template,
     (rr.1, (λ sr : string * service_template,
               (sr.1, format_service_spec format_url substitutions
                        silent_keyerror_failures sr.2)) <$> rr.2))
    <$> self_templates.

(** Spec 4.5, [matches(endpoint, filters)]: for every filter key the value
    of the endpoint at that key is in the accepted set; a key that the
    endpoint lacks is "no match". *)
Definition matches (endpoint : record) (filters : dict string filter_value)
  : bool :=
  forallb (λ kv, match dict_get kv.1 endpoint with
                 | Some x => bool_decide (x ∈ accepted kv.2)
                 | None => false
                 end)
          filters.

(** * Properties *)

(** Membership in a list that is written out. *)
Ltac elem_of_list :=
  cbv [dict_keys fmap list_fmap fst snd];
  repeat first [apply list_elem_of_here | apply list_elem_of_further].

(** ** Dictionaries *)

Section dict_facts.
Context {K V : Type} `{EqDecision K}.
Implicit Types (d : dict K V) (k : K) (v : V).

Lemma dict_get_set_eq k v d : dict_get k (dict_set k v d) = Some v.
Proof.
  induction d as [|[k' v'] d IH]; simpl; [by rewrite decide_True|].
  case_decide; simpl; [by rewrite decide_True|by rewrite decide_False].
Qed.

Lemma dict_get_set_ne k k' v d :
  k ≠ k' → dict_get k (dict_set k' v d) = dict_get k d.
Proof.
  intros Hne. induction d as [|[k1 v1] d IH]; simpl; [by rewrite decide_False|].
  destruct (decide (k' = k1)) as [->|]; simpl.
  - by rewrite !decide_False.
  - by destruct (decide (k = k1)).
Qed.

Lemma dict_get_None k d : dict_get k d = None ↔ k ∉ dict_keys d.
Proof.
  unfold dict_keys. induction d as [|[k' v'] d IH]; simpl.
  - split; [intros _; apply not_elem_of_nil | done].
  - rewrite not_elem_of_cons. case_decide; simpl; [|tauto].
    split; [done|by intros [? _]].
Qed.

Lemma dict_get_Some_elem k v d : dict_get k d = Some v → (k, v) ∈ d.
Proof.
  induction d as [|[k' v'] d IH]; simpl; [done|].
  case_decide; [intros [= ->]; subst; left | right; auto].
Qed.

Lemma dict_get_elem k v d : dict_wf d → (k, v) ∈ d → dict_get k d = Some v.
Proof.
  unfold dict_wf, dict_keys. induction d as [|[k' v'] d IH]; simpl.
  - intros _ Hin. by apply elem_of_nil in Hin.
  - rewrite NoDup_cons. intros [Hk Hd] Hin.
    apply elem_of_cons in Hin as [[= -> ->]|Hin].
    + by rewrite decide_True.
    + rewrite decide_False; [auto|].
      intros ->. apply Hk. apply list_elem_of_fmap. by exists (k', v).
Qed.

Lemma dict_set_fresh k v d : dict_get k d = None → dict_set k v d = d ++ [(k, v)].
Proof.
  induction d as [|[k' v'] d IH]; simpl; [done|].
  case_decide; [done|]. intros Hd. by rewrite IH.
Qed.

Lemma dict_keys_set k v d :
  dict_keys (dict_set k v d)
  = if dict_mem k d then dict_keys d else dict_keys d ++ [k].
Proof.
  unfold dict_mem, dict_keys. induction d as [|[k' v'] d IH]; csimpl; [done|].
  case_decide; csimpl; [by subst|].
  rewrite IH. by destruct (dict_get k d).
Qed.

Lemma dict_wf_set k v d : dict_wf d → dict_wf (dict_set k v d).
Proof.
  unfold dict_wf. rewrite dict_keys_set. unfold dict_mem.
  destruct (dict_get k d) eqn:Hk; [done|].
  intros Hd. apply NoDup_app. split_and!; [done| |apply NoDup_singleton].
  intros x Hx ->%list_elem_of_singleton. by apply dict_get_None in Hk.
Qed.

Lemma dict_mem_true k d : dict_mem k d = true ↔ k ∈ dict_keys d.
Proof.
  unfold dict_mem. destruct (dict_get k d) eqn:Hk.
  - split; [intros _|done]. destruct (decide (k ∈ dict_keys d)) as [|Hn]; [done|].
    apply dict_get_None in Hn. congruence.
  - apply dict_get_None in Hk. split; [done|]. intros. by destruct Hk.
Qed.

(** The values are the values of the keys, one per key. *)
Lemma dict_values_keys (x : V) d :
  dict_wf d → dict_values d = (λ k, default x (dict_get k d)) <$> dict_keys d.
Proof.
  unfold dict_wf, dict_values, dict_keys.
  induction d as [|[k v] d IH]; csimpl; [done|].
  rewrite NoDup_cons. intros [Hk Hd]. rewrite decide_True by done. simpl.
  f_equal. rewrite IH by done. apply Forall_fmap_ext, Forall_forall.
  intros k' Hk'. rewrite decide_False; [done|]. by intros ->.
Qed.

End dict_facts.

(** ** The result monad *)

Lemma bind_Ok {A B} (m : result A) (f : A → result B) b :
  m ≫= f = Ok b ↔ ∃ a, m = Ok a ∧ f a = Ok b.
Proof.
  destruct m as [a|e]; simpl.
  - split; [by eauto|]. by intros (a' & [= <-] & Hf).
  - split; [done|]. by intros (? & ? & ?).
Qed.

Lemma foldM_app {A B} (f : B → A → result B) acc l1 l2 :
  foldM f acc (l1 ++ l2) = foldM f acc l1 ≫= λ acc', foldM f acc' l2.
Proof.
  revert acc. induction l1 as [|x l1 IH]; intros acc; simpl; [done|].
  destruct (f acc x); simpl; [apply IH | done].
Qed.

(** ** Matching an endpoint against the filters of a group *)

Lemma is_candidate_true endpoint filters :
  is_candidate endpoint filters = Ok true ↔
  ∀ key value, (key, value) ∈ filters →
    ∃ x, dict_get key endpoint = Some x ∧ x ∈ accepted value.
Proof.
  induction filters as [|[k v] filters IH]; simpl.
  - split; [|done]. intros _ ?? Hin. by apply elem_of_nil in Hin.
  - unfold dict_item. destruct (dict_get k endpoint) as [x|] eqn:Hk; simpl.
    + case_bool_decide as Hx.
      * rewrite IH. split.
        -- intros Hall key value [[= -> ->]|Hin]%elem_of_cons; eauto.
        -- intros Hall key value Hin. apply Hall. by right.
      * split; [done|]. intros Hall.
        destruct (Hall k v) as (x' & Hx' & Hacc); [left|]. congruence.
    + split; [done|]. intros Hall.
      destruct (Hall k v) as (x' & Hx' & Hacc); [left|]. congruence.
Qed.

Lemma is_candidate_matches endpoint filters :
  (∀ key value, (key, value) ∈ filters → is_Some (dict_get key endpoint)) →
  is_candidate endpoint filters = Ok (matches endpoint filters).
Proof.
  induction filters as [|[k v] filters IH]; simpl; [done|]. intros Hkeys.
  destruct (Hkeys k v) as [x Hx]; [left|].
  unfold dict_item. rewrite Hx. simpl.
  case_bool_decide; simpl; [|done]. apply IH. intros ???. eapply Hkeys. by right.
Qed.

Lemma is_candidate_missing endpoint filters1 key value filters2 :
  dict_get key endpoint = None →
  is_candidate endpoint filters1 = Ok true →
  is_candidate endpoint (filters1 ++ (key, value) :: filters2)
  = Raise (KeyError key).
Proof.
  intros Hkey. induction filters1 as [|[k v] filters1 IH]; simpl.
  - intros _. unfold dict_item. by rewrite Hkey.
  - destruct (dict_item k endpoint); simpl; [|done].
    case_bool_decide; [done|]. discriminate.
Qed.

(** C2, as the code has it: the loop answers [True] exactly when every
    filter key is held by the endpoint with a value among the accepted ones
    (a scalar counts as a one-element list; all keys must agree, any accepted
    value will do).  On an endpoint that holds every filter key the loop
    returns that boolean.  On an endpoint that lacks a filter key the lookup
    [endpoint[key]] raises [KeyError] as soon as the keys enumerated before
    it agree: the operation is not total. *)
Theorem is_candidate_charact (endpoint : record)
    (filters : dict string filter_value) :
  (is_candidate endpoint filters = Ok true ↔
     ∀ key value, (key, value) ∈ filters →
       ∃ x, dict_get key endpoint = Some x ∧ x ∈ accepted value)
  ∧ ((∀ key value, (key, value) ∈ filters → is_Some (dict_get key endpoint)) →
     is_candidate endpoint filters = Ok (matches endpoint filters))
  ∧ (∀ filters1 key value filters2,
       filters = filters1 ++ (key, value) :: filters2 →
       dict_get key endpoint = None →
       is_candidate endpoint filters1 = Ok true →
       is_candidate endpoint filters = Raise (KeyError key)).
Proof.
  split_and!.
  - apply is_candidate_true.
  - apply is_candidate_matches.
  - intros ???? ->. apply is_candidate_missing.
Qed.

(** C2 as stated fails: an endpoint without the filter key is not reported
    as "no match", the lookup raises. *)
Lemma is_candidate_not_total :
  is_candidate [("id", VStr "e1"); ("interface", VStr "public")]
               [("region_id", FScalar (VStr "RegionOne"))]
  = Raise (KeyError "region_id")
  ∧ matches [("id", VStr "e1"); ("interface", VStr "public")]
            [("region_id", FScalar (VStr "RegionOne"))] = false.
Proof. split; reflexivity. Qed.

(** C8: adding a key to the filters can only remove matches. *)
Theorem is_candidate_monotone (endpoint : record)
    (filters : dict string filter_value) (k : string) (v : filter_value) :
  dict_get k filters = None →
  is_candidate endpoint (dict_set k v filters) = Ok true →
  is_candidate endpoint filters = Ok true.
Proof.
  intros Hk. rewrite (dict_set_fresh _ _ _ Hk), !is_candidate_true.
  intros Hall key value Hin. apply Hall, elem_of_app. by left.
Qed.

Lemma is_candidate_monotone_witness :
  is_candidate [("interface", VStr "public"); ("region_id", VStr "RegionOne")]
               [("interface", FList [VStr "public"; VStr "admin"])]
  = Ok true.
Proof.
  apply (is_candidate_monotone _ _ "region_id" (FScalar (VStr "RegionOne")));
    reflexivity.
Defined.

(** ** Loops *)

(** An invariant of the accumulator is kept by a loop that ends normally. *)
Lemma foldM_invariant {A B} (I : B → Prop) (f : B → A → result B) l :
  (∀ acc x acc', x ∈ l → I acc → f acc x = Ok acc' → I acc') →
  ∀ acc r, I acc → foldM f acc l = Ok r → I r.
Proof.
  induction l as [|x l IH]; simpl; intros Hstep acc r Hacc.
  - by intros [= <-].
  - intros (acc' & Hx & Hl)%bind_Ok.
    apply (IH (λ a y a' Hin, Hstep a y a' (list_elem_of_further _ _ _ Hin)) acc');
      [|done].
    eapply Hstep; [left|done..].
Qed.

(** A loop whose body can only raise [e] can only raise [e]. *)
Lemma foldM_only_raises {A B} (e : exn) (f : B → A → result B) l :
  (∀ acc x, x ∈ l → f acc x = Raise e ∨ ∃ acc', f acc x = Ok acc') →
  ∀ acc, foldM f acc l = Raise e ∨ ∃ r, foldM f acc l = Ok r.
Proof.
  induction l as [|x l IH]; simpl; intros Hstep acc; [eauto|].
  destruct (Hstep acc x) as [->|[acc' ->]]; [left|by left|]; simpl.
  apply IH. intros ?? Hin. apply Hstep. by right.
Qed.

(** Such a loop raises [e] when its body raises on one of the elements. *)
Lemma foldM_raises {A B} (e : exn) (f : B → A → result B) l x :
  (∀ acc y, y ∈ l → f acc y = Raise e ∨ ∃ acc', f acc y = Ok acc') →
  x ∈ l → (∀ acc, f acc x = Raise e) →
  ∀ acc, foldM f acc l = Raise e.
Proof.
  induction l as [|y l IH]; simpl; intros Hstep Hin Hx acc.
  - by apply elem_of_nil in Hin.
  - destruct (Hstep acc y) as [->|[acc' Hy]]; [left|done|].
    rewrite Hy. simpl. apply elem_of_cons in Hin as [->|Hin].
    + rewrite Hx in Hy. discriminate.
    + apply IH; [|done..]. intros ?? Hin'. apply Hstep. by right.
Qed.

(** ** [list_endpoints] *)

Lemma extract_interface_Some k :
  is_Some (extract_interface_from_string k) ↔ PyStr.contains "URL" k = true.
Proof.
  unfold extract_interface_from_string.
  destruct (PyStr.contains "URL" k); (split; [intros [??]|intros ?]);
    try done; eauto.
Qed.

Lemma endpoint_properties_no_URL k :
  k ∈ endpoint_properties → PyStr.contains "URL" k = false.
Proof.
  unfold endpoint_properties. rewrite !elem_of_cons, elem_of_nil.
  intros [->|[->|[->|[->|[->|[->|[]]]]]]]; reflexivity.
Qed.

(** The keys kept as interfaces are the keys of the service that contain
    ["URL"]. *)
Lemma classify_keys_interfaces dict0 (service_ref : service_template) k :
  k ∈ dict_keys (classify_keys dict0 service_ref).2 ↔
  k ∈ dict_keys service_ref ∧ PyStr.contains "URL" k = true.
Proof.
  unfold classify_keys.
  enough (∀ d0 (i0 : dict string string),
    k ∈ dict_keys (foldl (λ acc kv,
             let '(dict, interfaces) := acc in
             if bool_decide (kv.1 ∈ endpoint_properties)
             then (dict_set kv.1 (VStr kv.2) dict, interfaces)
             else match extract_interface_from_string kv.1 with
                  | Some _ => (dict, dict_set kv.1 kv.2 interfaces)
                  | None => (dict, interfaces)
                  end) (d0, i0) service_ref).2 ↔
    k ∈ dict_keys i0 ∨ k ∈ dict_keys service_ref ∧ PyStr.contains "URL" k = true)
    as Hgen.
  { rewrite Hgen. unfold dict_keys at 1. simpl. rewrite elem_of_nil. tauto. }
  induction service_ref as [|[k1 v1] l IH]; intros d0 i0; simpl.
  - unfold dict_keys at 2. simpl. rewrite elem_of_nil. tauto.
  - unfold dict_keys at 2. csimpl. fold (dict_keys l). rewrite elem_of_cons.
    case_bool_decide as Hp.
    + rewrite IH. apply endpoint_properties_no_URL in Hp.
      split; [tauto|]. intros [?|[[->|?] ?]]; [tauto|congruence|tauto].
    + destruct (extract_interface_from_string k1) as [i|] eqn:Hi.
      * rewrite IH, dict_keys_set.
        assert (PyStr.contains "URL" k1 = true) as Hk1
          by (apply extract_interface_Some; eauto).
        destruct (dict_mem k1 i0) eqn:Hm.
        -- apply dict_mem_true in Hm. split; [tauto|].
           intros [?|[[->|?] ?]]; tauto.
        -- rewrite elem_of_app, list_elem_of_singleton. split; [|tauto].
           intros [[?| ->]|?]; tauto.
      * rewrite IH.
        assert (PyStr.contains "URL" k1 = false) as Hk1.
        { destruct (PyStr.contains "URL" k1) eqn:Hc; [|done].
          apply extract_interface_Some in Hc as [??]. congruence. }
        split; [tauto|]. intros [?|[[->|?] ?]]; [tauto|congruence|tauto].
Qed.

Section list_endpoints_facts.
Variable uuid5_hex : string → string.

(** On a service without a name, the second loop raises as soon as there is
    an interface. *)
Lemma emit_endpoints_no_name region service service_ref dict0 interfaces l :
  dict_get "name" service_ref = None → interfaces ≠ [] →
  emit_endpoints uuid5_hex region service service_ref dict0 interfaces l
  = Raise (KeyError "name").
Proof.
  intros Hname Hne. destruct interfaces as [|[k v] interfaces]; [done|].
  unfold emit_endpoints, dict_item. simpl. by rewrite Hname.
Qed.

(** The second loop ends normally or fails on the lookup of the name. *)
Lemma emit_endpoints_cases region service service_ref dict0 interfaces l :
  (∀ k, k ∈ dict_keys interfaces → PyStr.contains "URL" k = true) →
  emit_endpoints uuid5_hex region service service_ref dict0 interfaces l
  = Raise (KeyError "name")
  ∨ ∃ r, emit_endpoints uuid5_hex region service service_ref dict0 interfaces l
         = Ok r.
Proof.
  intros Hurl. unfold emit_endpoints.
  apply foldM_only_raises. intros [d el] [k v] Hin. unfold dict_item.
  destruct (dict_get "name" service_ref); simpl; [|by left].
  destruct (extract_interface_from_string k) eqn:Hk; simpl; [eauto|].
  assert (is_Some (extract_interface_from_string k)) as [??]; [|congruence].
  apply extract_interface_Some, Hurl. unfold dict_keys.
  apply list_elem_of_fmap. by exists (k, v).
Qed.

End list_endpoints_facts.

Section list_endpoints_errors.
Variable uuid5_hex : string → string.

Lemma add_service_endpoints_cases region l sr :
  add_service_endpoints uuid5_hex region l sr = Raise (KeyError "name")
  ∨ ∃ r, add_service_endpoints uuid5_hex region l sr = Ok r.
Proof.
  destruct sr as [service service_ref]. unfold add_service_endpoints.
  match goal with |- context [classify_keys ?d ?s] =>
    pose proof (classify_keys_interfaces d s) as Hi;
    destruct (classify_keys d s) as [d' ifs] end.
  destruct (emit_endpoints_cases uuid5_hex region service service_ref d' ifs l)
    as [->|[r ->]]; simpl; eauto.
  intros k Hk. by apply Hi in Hk as [_ ?].
Qed.

Lemma add_service_endpoints_no_name region l service service_ref k :
  k ∈ dict_keys service_ref → PyStr.contains "URL" k = true →
  dict_get "name" service_ref = None →
  add_service_endpoints uuid5_hex region l (service, service_ref)
  = Raise (KeyError "name").
Proof.
  intros Hk Hurl Hname. unfold add_service_endpoints.
  match goal with |- context [classify_keys ?d ?s] =>
    pose proof (classify_keys_interfaces d s k) as Hi;
    destruct (classify_keys d s) as [d' ifs] end.
  rewrite emit_endpoints_no_name; [done..|].
  intros ->. simpl in Hi. apply proj2 in Hi.
  specialize (Hi (conj Hk Hurl)). by apply elem_of_nil in Hi.
Qed.

(** C9: a service that declares an interface URL and has no ['name'] makes
    [list_endpoints] fail with the [KeyError] of the lookup
    [service_ref['name']]; nothing is skipped. *)
Theorem list_endpoints_missing_name (self_templates : templates)
    (region : string) (region_ref : region_template)
    (service : string) (service_ref : service_template) (k : string) :
  (region, region_ref) ∈ self_templates →
  (service, service_ref) ∈ region_ref →
  k ∈ dict_keys service_ref → PyStr.contains "URL" k = true →
  dict_get "name" service_ref = None →
  list_endpoints uuid5_hex self_templates = Raise (KeyError "name").
Proof.
  intros Hr Hs Hk Hurl Hname. unfold list_endpoints.
  apply (foldM_raises _ _ _ (region, region_ref)); [|done|].
  - intros acc rr _. apply foldM_only_raises.
    intros ???. apply add_service_endpoints_cases.
  - intros acc. simpl.
    apply (foldM_raises _ _ _ (service, service_ref)); [|done|].
    + intros ???. apply add_service_endpoints_cases.
    + intros acc'. by eapply add_service_endpoints_no_name.
Qed.

End list_endpoints_errors.

Lemma list_endpoints_missing_name_witness :
  list_endpoints (λ s, s)
    [("RegionOne", [("identity", [("name", "Identity")]);
                    ("compute", [("publicURL", "http://c/")])])]
  = Raise (KeyError "name").
Proof.
  apply (list_endpoints_missing_name _ _ "RegionOne"
           [("identity", [("name", "Identity")]);
            ("compute", [("publicURL", "http://c/")])]
           "compute" [("publicURL", "http://c/")] "publicURL").
  - elem_of_list.
  - elem_of_list.
  - elem_of_list.
  - reflexivity.
  - reflexivity.
Defined.

(** ** [list_services] *)

(** In a loop that stores one value per element the keys stay distinct, a
    key holds the value of its last element, and other keys are untouched. *)
Section store_loop.
Context {A V : Type} (key : A → string) (val : A → V).
Implicit Types (d : dict string V) (l : list A).

Lemma store_loop_cons d x l :
  store_loop key val d (x :: l)
  = store_loop key val (dict_set (key x) (val x) d) l.
Proof. done. Qed.

Lemma store_loop_wf d l : dict_wf d → dict_wf (store_loop key val d l).
Proof.
  revert d. induction l as [|x l IH]; intros d Hd; [done|].
  rewrite store_loop_cons. by apply IH, dict_wf_set.
Qed.

Lemma store_loop_keys d l k :
  k ∈ dict_keys (store_loop key val d l) ↔ k ∈ dict_keys d ∨ k ∈ key <$> l.
Proof.
  revert d. induction l as [|x l IH]; intros d.
  - simpl. rewrite elem_of_nil. tauto.
  - rewrite store_loop_cons, IH, dict_keys_set, fmap_cons, elem_of_cons.
    destruct (dict_mem (key x) d) eqn:Hm.
    + apply dict_mem_true in Hm. split; [tauto|]. intros [?|[->|?]]; tauto.
    + rewrite elem_of_app, list_elem_of_singleton. tauto.
Qed.

Lemma store_loop_untouched d l k :
  k ∉ key <$> l → dict_get k (store_loop key val d l) = dict_get k d.
Proof.
  revert d. induction l as [|x l IH]; intros d; [done|].
  rewrite fmap_cons, not_elem_of_cons. intros [Hk Hl].
  by rewrite store_loop_cons, IH, dict_get_set_ne.
Qed.

Lemma store_loop_last d l1 x l2 :
  key x ∉ key <$> l2 →
  dict_get (key x) (store_loop key val d (l1 ++ x :: l2)) = Some (val x).
Proof.
  intros Hl2. unfold store_loop. rewrite foldl_app. simpl.
  fold (store_loop key val (dict_set (key x) (val x)
                              (foldl (λ d x, dict_set (key x) (val x) d) d l1)) l2).
  by rewrite store_loop_untouched, dict_get_set_eq.
Qed.

End store_loop.

Section list_services_facts.
Variable uuid5_hex : string → string.

Lemma service_dict_store_loop (t : templates) :
  service_dict uuid5_hex t
  = store_loop fst (λ sr, service_record uuid5_hex sr.1 sr.2) [] (service_entries t).
Proof.
  unfold service_dict, service_entries, store_loop.
  generalize (@nil (string * record)).
  induction t as [|[r rr] t IH]; intros d; csimpl; [done|].
  by rewrite foldl_app, IH.
Qed.

Lemma elem_of_service_entries (t : templates) sr :
  sr ∈ service_entries t ↔ ∃ region region_ref,
    (region, region_ref) ∈ t ∧ sr ∈ region_ref.
Proof.
  unfold service_entries. rewrite list_elem_of_join. split.
  - intros (rr & Hsr & Hrr). apply list_elem_of_fmap in Hrr as ([r rr'] & -> & Hin).
    eauto.
  - intros (r & rr & Hin & Hsr). exists rr. split; [done|].
    apply list_elem_of_fmap. by exists (r, rr).
Qed.

(** C7: [list_services] returns one record per key of [service_dict]; the
    keys are distinct and are the service types that the regions declare,
    however many regions declare them; and the record of a service type is
    built from its entry in the last region that declares it. *)
Theorem list_services_last_region_wins (self_templates : templates) :
  list_services uuid5_hex self_templates
    = (λ service,
         default [] (dict_get service (service_dict uuid5_hex self_templates)))
      <$> dict_keys (service_dict uuid5_hex self_templates)
  ∧ NoDup (dict_keys (service_dict uuid5_hex self_templates))
  ∧ (∀ service,
       service ∈ dict_keys (service_dict uuid5_hex self_templates) ↔
       ∃ region region_ref,
         (region, region_ref) ∈ self_templates ∧ service ∈ dict_keys region_ref)
  ∧ (∀ before region region_ref after service service_ref,
       self_templates = before ++ (region, region_ref) :: after →
       dict_wf region_ref →
       (service, service_ref) ∈ region_ref →
       (∀ r rr, (r, rr) ∈ after → service ∉ dict_keys rr) →
       dict_get service (service_dict uuid5_hex self_templates)
       = Some (service_record uuid5_hex service service_ref)).
Proof.
  split_and!.
  - unfold list_services. apply dict_values_keys. rewrite service_dict_store_loop.
    apply store_loop_wf, NoDup_nil_2.
  - rewrite service_dict_store_loop. apply store_loop_wf, NoDup_nil_2.
  - intros service. rewrite service_dict_store_loop, store_loop_keys.
    unfold dict_keys at 1. simpl. rewrite elem_of_nil.
    split.
    + intros [[]|Hin]. apply list_elem_of_fmap in Hin as ([s sr] & -> & Hin).
      apply elem_of_service_entries in Hin as (r & rr & Hr & Hs).
      exists r, rr. split; [done|]. unfold dict_keys.
      apply list_elem_of_fmap. by exists (s, sr).
    + intros (r & rr & Hr & Hs). right.
      apply list_elem_of_fmap in Hs as ([s sr] & -> & Hs).
      apply list_elem_of_fmap. exists (s, sr). split; [done|].
      apply elem_of_service_entries. eauto.
  - intros before region region_ref after service service_ref -> Hwf Hin Hafter.
    rewrite service_dict_store_loop. unfold service_entries.
    rewrite fmap_app, fmap_cons, join_app. simpl.
    apply list_elem_of_split in Hin as (l1 & l2 & ->).
    rewrite <- !(assoc_L (++)). simpl. rewrite (assoc_L (++)).
    apply (store_loop_last fst (λ sr, service_record uuid5_hex sr.1 sr.2)
             _ _ (service, service_ref)).
    simpl. rewrite fmap_app, elem_of_app. intros [Hl2|Hafter'].
    + unfold dict_wf, dict_keys in Hwf. rewrite fmap_app, fmap_cons in Hwf.
      apply NoDup_app in Hwf as (_ & _ & Hwf). apply NoDup_cons in Hwf as [Hwf _].
      done.
    + apply list_elem_of_fmap in Hafter' as ([s sr] & -> & Hsr).
      fold (service_entries after) in Hsr.
      apply elem_of_service_entries in Hsr as (r & rr & Hr & Hs).
      apply (Hafter r rr Hr). unfold dict_keys. apply list_elem_of_fmap.
      by exists (s, sr).
Qed.

End list_services_facts.

(** ** Derived identifiers *)

Lemma store_loop_get {A V} (key : A → string) (val : A → V) d l k r :
  dict_get k (store_loop key val d l) = Some r →
  dict_get k d = Some r ∨ ∃ x, x ∈ l ∧ key x = k ∧ r = val x.
Proof.
  revert d. induction l as [|x l IH]; intros d; [by left|].
  rewrite store_loop_cons. intros [Hd|(y & Hy & Hk & Hr)]%IH.
  - destruct (decide (k = key x)) as [->|Hne].
    + rewrite dict_get_set_eq in Hd. injection Hd as <-.
      right. exists x. split; [left|done].
    + rewrite dict_get_set_ne in Hd by done. by left.
  - right. exists y. split; [by right|done].
Qed.

Section derived_ids.
Variable uuid5_hex : string → string.

(** An attribute that the service entry does not carry keeps the value that
    [list_services] gave it at the start. *)
Lemma service_record_default service (service_ref : service_template) k :
  k ∉ dict_keys service_ref →
  dict_get k (service_record uuid5_hex service service_ref)
  = dict_get k [("id", VStr (uuid5_hex service)); ("type", VStr service);
                ("enabled", VBool true); ("description", VStr "")].
Proof.
  unfold service_record. generalize
    [("id", VStr (uuid5_hex service)); ("type", VStr service);
     ("enabled", VBool true); ("description", VStr "")].
  induction service_ref as [|[k1 v1] l IH]; intros d; [done|].
  unfold dict_keys. rewrite fmap_cons, not_elem_of_cons. intros [Hk Hl].
  simpl. rewrite IH by done. case_bool_decide; [|done].
  by rewrite dict_get_set_ne.
Qed.

(** A whitelisted attribute of the service entry is copied to the record. *)
Lemma service_record_override service (service_ref : service_template) k v :
  dict_wf service_ref → (k, v) ∈ service_ref → k ∈ service_properties →
  dict_get k (service_record uuid5_hex service service_ref) = Some (VStr v).
Proof.
  intros Hwf (l1 & l2 & ->)%list_elem_of_split Hk.
  unfold dict_wf, dict_keys in Hwf. rewrite fmap_app, fmap_cons in Hwf.
  apply NoDup_app in Hwf as (_ & _ & [Hl2 _]%NoDup_cons).
  unfold service_record. rewrite foldl_app. simpl.
  rewrite bool_decide_true by done.
  match goal with |- context [dict_set k (VStr v) ?d0] =>
    pose proof (dict_get_set_eq k (VStr v) d0) as Hd;
    revert Hd; generalize (dict_set k (VStr v) d0) end.
  induction l2 as [|[k2 v2] l2 IH]; intros d Hd; simpl; [done|].
  rewrite fmap_cons, not_elem_of_cons in Hl2. destruct Hl2 as [Hne Hl2].
  apply IH; [done|]. case_bool_decide; [|done]. by rewrite dict_get_set_ne.
Qed.

(** The identifiers of the endpoints that the second loop appends. *)
Lemma emit_endpoints_ids region service service_ref dict0 interfaces l r
    (P : record → Prop) :
  (∀ k endpoint name interface,
     k ∈ dict_keys interfaces →
     dict_get "name" service_ref = Some name →
     extract_interface_from_string k = Some interface →
     dict_get "id" endpoint
       = Some (VStr (uuid5_hex (region +:+ service +:+ name +:+ interface))) →
     dict_get "legacy_endpoint_id" endpoint = dict_get "id" endpoint →
     P endpoint) →
  Forall P l →
  emit_endpoints uuid5_hex region service service_ref dict0 interfaces l = Ok r →
  Forall P r.2.
Proof.
  intros HP Hl. unfold emit_endpoints.
  apply (foldM_invariant (λ acc, Forall P acc.2)); [|exact Hl].
  intros [d el] [k v] acc' Hin Hel. simpl in Hel.
  intros (name & Hname & (interface & Hi & [= <-])%bind_Ok)%bind_Ok.
  simpl in Hi. simpl. unfold dict_item in Hname. destruct (dict_get "name" service_ref) eqn:Hn; [|done].
  injection Hname as ->.
  destruct (extract_interface_from_string k) eqn:Hk; [|done].
  injection Hi as ->.
  apply Forall_app. split; [done|]. apply Forall_singleton.
  apply (HP k _ name interface); [|done..| |].
  - unfold dict_keys. apply list_elem_of_fmap. by exists (k, v).
  - do 3 (rewrite dict_get_set_ne by done). apply dict_get_set_eq.
  - do 2 (rewrite (dict_get_set_ne "legacy_endpoint_id") by done).
    rewrite dict_get_set_eq. do 3 (rewrite dict_get_set_ne by done).
    by rewrite dict_get_set_eq.
Qed.

(** The identifiers of the endpoints of [list_endpoints]. *)
Lemma list_endpoints_ids (self_templates : templates) endpoints endpoint :
  list_endpoints uuid5_hex self_templates = Ok endpoints →
  endpoint ∈ endpoints →
  ∃ region region_ref service service_ref k name interface,
    (region, region_ref) ∈ self_templates ∧
    (service, service_ref) ∈ region_ref ∧
    k ∈ dict_keys service_ref ∧
    dict_get "name" service_ref = Some name ∧
    extract_interface_from_string k = Some interface ∧
    dict_get "id" endpoint
      = Some (VStr (uuid5_hex (region +:+ service +:+ name +:+ interface))) ∧
    dict_get "legacy_endpoint_id" endpoint = dict_get "id" endpoint.
Proof.
  intros Hlist Hin. revert endpoint Hin.
  apply Forall_forall. revert Hlist. unfold list_endpoints.
  apply foldM_invariant; [|apply Forall_nil_2].
  intros acc [region region_ref] acc' Hr Hacc. simpl.
  apply foldM_invariant; [|done].
  intros el [service service_ref] el' Hs Hel. unfold add_service_endpoints.
  match goal with |- context [classify_keys ?d ?s] =>
    pose proof (classify_keys_interfaces d s) as Hi;
    destruct (classify_keys d s) as [d' ifs] end.
  intros (r & Hemit & [= <-])%bind_Ok.
  eapply emit_endpoints_ids; [|done..].
  intros k endpoint name interface Hk Hname Hif Hid Hleg.
  apply Hi in Hk as [Hk _].
  exists region, region_ref, service, service_ref, k, name, interface. done.
Qed.

End derived_ids.

(** C6 as stated fails for services: a template line may set the ['id'] of
    a service, and the record then carries that value, not the hash of the
    service type. *)
Lemma service_id_not_always_derived :
  ¬ (∀ (uuid5_hex : string → string) (lines : list string) (t : templates)
       (service : string) (record : record),
       parse_templates lines = Ok t →
       dict_get service (service_dict uuid5_hex t) = Some record →
       dict_get "id" record = Some (VStr (uuid5_hex service))).
Proof.
  intros H.
  specialize (H (λ _, "b2ef4572ae0f5cae9e2d8c7ea4df4a3c")
                ["catalog.RegionOne.identity.id = abc"] _ "identity" _
                eq_refl eq_refl).
  discriminate H.
Qed.

(** ** [get_catalog] *)

Lemma foldM_never_raises {A B} (e : exn) (f : B → A → result B) l :
  (∀ acc x, f acc x ≠ Raise e) → ∀ acc, foldM f acc l ≠ Raise e.
Proof.
  intros Hf. induction l as [|x l IH]; intros acc; simpl; [done|].
  destruct (f acc x) eqn:Hx; simpl; [apply IH|]. rewrite <- Hx. apply Hf.
Qed.

Lemma dict_get_snoc {V} (d : dict string V) k v :
  k ∉ dict_keys d → dict_get k (d ++ [(k, v)]) = Some v.
Proof.
  intros Hk%dict_get_None.
  rewrite <- (dict_set_fresh k v d Hk). apply dict_get_set_eq.
Qed.

Lemma dict_set_snoc {V} (d : dict string V) k v v' :
  k ∉ dict_keys d → dict_set k v' (d ++ [(k, v)]) = d ++ [(k, v')].
Proof.
  unfold dict_keys. induction d as [|[k1 v1] d IH]; csimpl.
  - intros _. by rewrite decide_True.
  - rewrite not_elem_of_cons. intros [Hne Hd].
    rewrite decide_False by done. by rewrite IH.
Qed.

Section get_catalog_facts.
Variable format_url : pyval → dict string pyval → list string → result pyval.
Variable substitutions : dict string pyval.
Variable silent : list string.

Abbreviation emitted := (emitted_services format_url substitutions silent).

(** The formatted attributes are those of the service, in order, whose
    value is not empty. *)
Lemma format_service_spec_agrees (service_ref : service_template) :
  (∀ kv, kv ∈ service_ref →
         ∃ v, format_url (VStr kv.2) substitutions silent = Ok v) →
  format_service format_url substitutions silent service_ref
  = Ok (format_service_spec format_url substitutions silent service_ref).
Proof.
  unfold format_service, format_service_spec. generalize (@nil (string * pyval)).
  induction service_ref as [|kv l IH]; intros d Hall; simpl; [done|].
  destruct (Hall kv) as [v Hv]; [left|]. rewrite Hv. simpl.
  destruct (truthy v); simpl; apply IH; intros ??; apply Hall; by right.
Qed.

(** One failing attribute makes the whole [try] block fail. *)
Lemma format_service_fails (service_ref : service_template) kv :
  (∀ url e, format_url url substitutions silent = Raise e →
            e = MalformedEndpoint) →
  kv ∈ service_ref →
  format_url (VStr kv.2) substitutions silent = Raise MalformedEndpoint →
  format_service format_url substitutions silent service_ref
  = Raise MalformedEndpoint.
Proof.
  intros Honly Hin Hkv. unfold format_service.
  apply (foldM_raises _ _ _ kv); [|done|].
  - intros acc y _. destruct (format_url (VStr y.2) substitutions silent) eqn:Hy.
    + right. simpl. destruct (truthy a); eauto.
    + left. simpl. by rewrite (Honly _ _ Hy).
  - intros acc. by rewrite Hkv.
Qed.

Lemma emitted_keys (l : region_template) s :
  s ∈ dict_keys (emitted l) → s ∈ dict_keys l.
Proof.
  unfold dict_keys, emitted_services. rewrite !list_elem_of_fmap.
  intros ([s' data] & -> & Hin). apply list_elem_of_omap in Hin as ([s1 sr] & Hin & Hf).
  simpl in Hf. destruct (format_service _ _ _ sr); [|done]. injection Hf as -> _.
  by exists (s', sr).
Qed.

Lemma emitted_app (l1 l2 : region_template) :
  emitted (l1 ++ l2) = emitted l1 ++ emitted l2.
Proof. apply omap_app. Qed.

(** The loop over the services of one region. *)
Lemma add_service_data_loop region (c0 : dict string (dict string record))
    (done_ todo : region_template) :
  (∀ sr, sr ∈ todo →
     format_service format_url substitutions silent sr.2 = Raise MalformedEndpoint
     ∨ ∃ data, format_service format_url substitutions silent sr.2 = Ok data) →
  region ∉ dict_keys c0 → dict_wf (done_ ++ todo) →
  foldM (add_service_data format_url substitutions silent region)
        (c0 ++ [(region, emitted done_)]) todo
  = Ok (c0 ++ [(region, emitted (done_ ++ todo))]).
Proof.
  intros Hcases Hregion. revert done_.
  induction todo as [|[s sr] todo IH]; intros done_ Hwf; simpl.
  - by rewrite app_nil_r.
  - assert (emitted (done_ ++ (s, sr) :: todo)
            = emitted ((done_ ++ [(s, sr)]) ++ todo)) as ->
      by (by rewrite <- (assoc_L (++))).
    assert (dict_wf ((done_ ++ [(s, sr)]) ++ todo)) as Hwf'
      by (by rewrite <- (assoc_L (++))).
    unfold add_service_data at 2. simpl.
    destruct (Hcases (s, sr)) as [Hf|[data Hf]]; [left|..]; simpl in Hf.
    + rewrite Hf. simpl.
      rewrite <- IH; [|by intros ??; apply Hcases; right|done].
      do 3 f_equal. rewrite emitted_app. unfold emitted_services at 2. simpl.
      rewrite Hf. by rewrite app_nil_r.
    + rewrite Hf. unfold dict_item. rewrite dict_get_snoc by done. simpl.
      rewrite dict_set_snoc by done.
      rewrite <- IH; [|by intros ??; apply Hcases; right|done].
      do 4 f_equal. rewrite emitted_app. unfold emitted_services at 3. simpl.
      rewrite Hf. simpl. apply dict_set_fresh, dict_get_None.
      intros Hs%emitted_keys. unfold dict_wf, dict_keys in Hwf, Hs.
      rewrite fmap_app, fmap_cons in Hwf.
      apply NoDup_app in Hwf as (_ & Hwf & _). apply (Hwf s Hs). left.
Qed.

End get_catalog_facts.

Section get_catalog_charact.
Variable format_url : pyval → dict string pyval → list string → result pyval.
Variable CONF : config.

Lemma format_service_cases substitutions silent (service_ref : service_template) :
  (∀ url e, format_url url substitutions silent = Raise e →
            e = MalformedEndpoint) →
  format_service format_url substitutions silent service_ref
    = Raise MalformedEndpoint
  ∨ ∃ data, format_service format_url substitutions silent service_ref = Ok data.
Proof.
  intros Honly. apply foldM_only_raises. intros acc kv _.
  destruct (format_url (VStr kv.2) substitutions silent) eqn:Hkv; simpl.
  - right. destruct (truthy a); eauto.
  - left. by rewrite (Honly _ _ Hkv).
Qed.

Lemma add_service_data_never_malformed substitutions silent region catalog sr :
  add_service_data format_url substitutions silent region catalog sr
  ≠ Raise MalformedEndpoint.
Proof.
  unfold add_service_data.
  destruct (format_service _ _ _ _) as [data|[]]; try done.
  unfold dict_item. by destruct (dict_get region catalog).
Qed.

(** The loop over the regions. *)
Lemma get_catalog_loop substitutions silent (done_ todo : templates) :
  (∀ url e, format_url url substitutions silent = Raise e →
            e = MalformedEndpoint) →
  dict_wf (done_ ++ todo) → (∀ r rr, (r, rr) ∈ todo → dict_wf rr) →
  foldM (λ catalog rr,
           let catalog := dict_set rr.1 [] catalog in
           foldM (add_service_data format_url substitutions silent rr.1)
                 catalog rr.2)
        ((λ rr, (rr.1, emitted_services format_url substitutions silent rr.2))
           <$> done_)
        todo
  = Ok ((λ rr, (rr.1, emitted_services format_url substitutions silent rr.2))
          <$> (done_ ++ todo)).
Proof.
  intros Honly. revert done_.
  induction todo as [|[r rr] todo IH]; intros done_ Hwf Hrr; simpl.
  - by rewrite app_nil_r.
  - assert (r ∉ dict_keys ((λ rr, (rr.1, emitted_services format_url
                                          substitutions silent rr.2)) <$> done_))
      as Hr.
    { unfold dict_keys. rewrite <- list_fmap_compose.
      unfold dict_wf, dict_keys in Hwf. rewrite fmap_app, fmap_cons in Hwf.
      apply NoDup_app in Hwf as (_ & Hwf & _). intros Hin.
      apply (Hwf r); [done|left]. }
    rewrite dict_set_fresh by (by apply dict_get_None).
    rewrite (add_service_data_loop _ _ _ r _ [] rr); simpl.
    + assert (done_ ++ (r, rr) :: todo = (done_ ++ [(r, rr)]) ++ todo) as Heq
        by (by rewrite <- (assoc_L (++))).
      rewrite Heq, <- IH.
      * by rewrite fmap_app.
      * by rewrite <- Heq.
      * intros ?? Hin. eapply Hrr. by right.
    + intros sr _. by apply format_service_cases.
    + done.
    + eapply Hrr. left.
Qed.

(** C1, as the code has it.  A failure of [format_url] with
    [MalformedEndpoint] never leaves [get_catalog].  The [try] block spans
    the loop over the attributes of a service, so one failing attribute
    leaves the whole service out: the catalog holds every region, and
    under a region the services whose attributes all interpolate, each
    with the attributes whose value is not empty. *)
Theorem get_catalog_skips_failing_service (self_templates : templates)
    (user_id tenant_id : pyval) (substitutions : dict string pyval)
    (silent : list string) :
  get_catalog_substitutions CONF user_id tenant_id = (substitutions, silent) →
  get_catalog format_url CONF self_templates user_id tenant_id
    ≠ Raise MalformedEndpoint
  ∧ ((∀ url e, format_url url substitutions silent = Raise e →
               e = MalformedEndpoint) →
     dict_wf self_templates →
     (∀ r rr, (r, rr) ∈ self_templates → dict_wf rr) →
     get_catalog format_url CONF self_templates user_id tenant_id
     = Ok ((λ rr, (rr.1, emitted_services format_url substitutions silent rr.2))
             <$> self_templates)
     ∧ (∀ service_ref : service_template,
          (∀ kv, kv ∈ service_ref →
             ∃ v, format_url (VStr kv.2) substitutions silent = Ok v) →
          format_service format_url substitutions silent service_ref
          = Ok (format_service_spec format_url substitutions silent service_ref))
     ∧ (∀ (service_ref : service_template) kv,
          kv ∈ service_ref →
          format_url (VStr kv.2) substitutions silent = Raise MalformedEndpoint →
          format_service format_url substitutions silent service_ref
          = Raise MalformedEndpoint)).
Proof.
  intros Hs. unfold get_catalog. rewrite Hs. split.
  - apply foldM_never_raises. intros acc rr.
    apply foldM_never_raises. intros ??. apply add_service_data_never_malformed.
  - intros Honly Hwf Hrr. split_and!.
    + by apply (get_catalog_loop substitutions silent []).
    + apply format_service_spec_agrees.
    + intros ???. by apply format_service_fails.
Qed.

End get_catalog_charact.

(** Decidable facts about lists that are written out. *)
Ltac by_compute :=
  unfold dict_wf, dict_keys;
  match goal with |- ?P => apply (bool_decide_unpack P); vm_compute; exact I end.

Lemma interpolate_only_malformed context tolerated name s e :
  interpolate context tolerated name s = Raise e → e = MalformedEndpoint.
Proof.
  revert name. induction s as [|c s IH]; intros name; simpl.
  - destruct name; [by intros [= <-]|done].
  - destruct name as [n|].
    + case_decide; [|apply IH].
      destruct (dict_get n context).
      * destruct (interpolate context tolerated None s) eqn:Hs; simpl; [done|].
        intros [= <-]. by apply (IH None).
      * case_bool_decide; [done|by intros [= <-]].
    + case_decide; [apply IH|].
      destruct (interpolate context tolerated None s) eqn:Hs; simpl; [done|].
      intros [= <-]. by apply (IH None).
Qed.

Lemma spec_format_url_only_malformed url substitutions silent e :
  spec_format_url url substitutions silent = Raise e → e = MalformedEndpoint.
Proof.
  destruct url as [s| |]; simpl; [|by intros [= <-]..].
  destruct (interpolate substitutions silent None s) eqn:Hs; simpl; [done|].
  intros [= <-]. by eapply interpolate_only_malformed.
Qed.

Lemma get_catalog_skips_failing_service_witness :
  get_catalog spec_format_url (ex_conf false) ex_templates (VStr "u") (VStr "p")
  = Ok [("RegionOne",
         [("compute", [("name", VStr "Compute");
                       ("publicURL", VStr "http://c/p")])])].
Proof.
  destruct (get_catalog_skips_failing_service spec_format_url (ex_conf false)
              ex_templates (VStr "u") (VStr "p") _ _ eq_refl) as [_ Hcat].
  destruct Hcat as (Hcat & _ & _).
  - intros ??. apply spec_format_url_only_malformed.
  - by_compute.
  - intros r rr [[= -> ->]|[]%elem_of_nil]%elem_of_cons. by_compute.
  - exact Hcat.
Defined.

(** C1 as stated fails: with [host] missing, the [publicURL] of the identity
    service does not interpolate, and the catalog has no identity entry at
    all, where the claim keeps the entry with its ['name']. *)
Lemma get_catalog_drops_whole_service :
  get_catalog spec_format_url (ex_conf false) ex_templates (VStr "u") (VStr "p")
  = Ok [("RegionOne",
         [("compute", [("name", VStr "Compute");
                       ("publicURL", VStr "http://c/p")])])]
  ∧ get_catalog_spec spec_format_url (ex_conf false) ex_templates
      (VStr "u") (VStr "p")
    = [("RegionOne",
        [("identity", [("name", VStr "Identity Service")]);
         ("compute", [("name", VStr "Compute");
                      ("publicURL", VStr "http://c/p")])])].
Proof. split; vm_compute; reflexivity. Qed.

(** ** [parse_templates] *)

Local Arguments PyStr.startswith : simpl never.
Local Arguments PyStr.contains : simpl never.
Local Arguments PyStr.split : simpl never.

Lemma parse_line_ok (o : templates) line :
  (∃ o', parse_line o line = Ok o') ↔ well_formed_line line = true.
Proof.
  unfold parse_line, well_formed_line.
  destruct (PyStr.contains " = " line); simpl; [|split; by eauto].
  destruct (PyStr.split " = " (PyStr.strip line)) as [|k [|v [|??]]];
    try (split; [by intros [??]|done]).
  destruct (PyStr.startswith "catalog." k); simpl; [|split; by eauto].
  unfold list_item.
  destruct (PyStr.split "." k) as [|p0 [|p1 [|p2 [|p3 ps]]]]; simpl;
    try (split; [by intros [??]|done]).
  split; [done|by eauto].
Qed.

Lemma parse_templates_ok_iff (o : templates) lines :
  (∃ t, foldM parse_line o lines = Ok t)
  ↔ Forall (λ line, well_formed_line line = true) lines.
Proof.
  revert o. induction lines as [|line lines IH]; intros o; simpl.
  - split; [by intros _|by eauto].
  - rewrite Forall_cons, <- (parse_line_ok o line). split.
    + intros [t (o' & Hline & Hrest)%bind_Ok]. split; [by eauto|].
      apply (IH o'). by eauto.
    + intros [[o' Hline] Hrest]. rewrite Hline. simpl. by apply IH.
Qed.

(** C5, as the code has it.  Lines without the separator and lines whose
    key does not start with ["catalog."] are ignored.  The other lines are
    not checked: a stripped line that does not split into exactly two parts
    raises [ValueError] at the unpacking, and a ["catalog."] key with fewer
    than four segments raises [IndexError].  The parse returns a mapping
    exactly when no line is of these two kinds. *)
Theorem parse_templates_partial (template_lines : list string) :
  (∀ before line after,
     PyStr.contains " = " line = false →
     parse_templates (before ++ line :: after) = parse_templates (before ++ after))
  ∧ (∀ before line after k v,
       PyStr.split " = " (PyStr.strip line) = [k; v] →
       PyStr.startswith "catalog." k = false →
       parse_templates (before ++ line :: after)
       = parse_templates (before ++ after))
  ∧ (∀ o line,
       PyStr.contains " = " line = true →
       length (PyStr.split " = " (PyStr.strip line)) ≠ 2 →
       parse_line o line = Raise ValueError)
  ∧ (∀ o line k v,
       PyStr.contains " = " line = true →
       PyStr.split " = " (PyStr.strip line) = [k; v] →
       PyStr.startswith "catalog." k = true →
       length (PyStr.split "." k) < 4 →
       parse_line o line = Raise IndexError)
  ∧ ((∃ t, parse_templates template_lines = Ok t)
     ↔ Forall (λ line, well_formed_line line = true) template_lines).
Proof.
  split_and!.
  - intros before line after Hsep. unfold parse_templates.
    rewrite !foldM_app. destruct (foldM parse_line [] before); simpl; [|done].
    unfold parse_line at 2. by rewrite Hsep.
  - intros before line after k v Hsplit Hk. unfold parse_templates.
    rewrite !foldM_app. destruct (foldM parse_line [] before); simpl; [|done].
    unfold parse_line at 2. rewrite Hsplit, Hk. simpl.
    by destruct (PyStr.contains " = " line).
  - intros o line Hsep Hlen. unfold parse_line. rewrite Hsep. simpl.
    by destruct (PyStr.split " = " (PyStr.strip line)) as [|k [|v [|??]]].
  - intros o line k v Hsep Hsplit Hk Hlen. unfold parse_line.
    rewrite Hsep, Hsplit, Hk. simpl. unfold list_item.
    destruct (PyStr.split "." k) as [|p0 [|p1 [|p2 [|p3 ps]]]]; simpl in *;
      try done; lia.
  - apply parse_templates_ok_iff.
Qed.

Example parse_templates_example :
  parse_templates
    ["# comment" +:+ nl;
     "catalog.RegionOne.identity.name = Identity Service" +:+ nl;
     "catalog.RegionOne.object_store.publicURL = http://h/" +:+ nl;
     nl;
     "other.key = 1" +:+ nl]
  = Ok [("RegionOne",
         [("identity", [("name", "Identity Service")]);
          ("object-store", [("publicURL", "http://h/")])])].
Proof. vm_compute. reflexivity. Qed.

(** C5 as stated fails: a ["catalog."] key with two segments and a line with
    two separators are not skipped, they make the parse fail. *)
Lemma parse_templates_not_total :
  parse_templates ["catalog.RegionOne = http://localhost/"] = Raise IndexError
  ∧ parse_templates ["catalog.RegionOne.identity.name = a = b"] = Raise ValueError.
Proof. split; vm_compute; reflexivity. Qed.

(** ** Computations of the manager *)

Lemma M_bind_run {S A B} (m : M S A) (f : A → M S B) w :
  (m ≫= f) w = match m w with
               | (Ok a, w') => f a w'
               | (Raise e, w') => (Raise e, w')
               end.
Proof. done. Qed.

Lemma foldM_M_cons {S A B} (f : B → A → M S B) acc x l w :
  foldM_M f acc (x :: l) w
  = match f acc x w with
    | (Ok acc', w') => foldM_M f acc' l w'
    | (Raise e, w') => (Raise e, w')
    end.
Proof. done. Qed.

(** An invariant of the accumulator is kept by a loop of the manager that
    ends normally. *)
Lemma foldM_M_invariant {S A B} (I : B → Prop) (f : B → A → M S B) l :
  (∀ acc x acc' w w', x ∈ l → I acc → f acc x w = (Ok acc', w') → I acc') →
  ∀ acc w r w', I acc → foldM_M f acc l w = (Ok r, w') → I r.
Proof.
  induction l as [|x l IH]; intros Hstep acc w r w' Hacc.
  - by intros [= <- _].
  - rewrite foldM_M_cons. destruct (f acc x w) as [[acc'|e] w1] eqn:Hx; [|done].
    apply (IH (λ a y a' u u' Hin, Hstep a y a' u u' (list_elem_of_further _ _ _ Hin))).
    eapply Hstep; [left|done..].
Qed.

(** A loop whose body does not touch the world does not touch it. *)
Lemma foldM_M_world {S A B} (f : B → A → M S B) l :
  (∀ acc x w, (f acc x w).2 = w) → ∀ acc w, (foldM_M f acc l w).2 = w.
Proof.
  intros Hf. induction l as [|x l IH]; intros acc w; [done|].
  rewrite foldM_M_cons. specialize (Hf acc x w).
  destruct (f acc x w) as [[acc'|e] w1]; simpl in Hf; subst; [apply IH|done].
Qed.

(** ** Adding the endpoints of a group *)

Section add_group_endpoints_facts.
Implicit Types (filtered m : dict pyval record) (endpoint_refs : list record).





End add_group_endpoints_facts.

(** ** The catalog as the manager sees it *)

Lemma first_with_id_found id not_found l endpoint :
  first_with_id id not_found l = Ok endpoint →
  endpoint ∈ l ∧ dict_get "id" endpoint = Some id.
Proof.
  induction l as [|r l IH]; simpl; [done|].
  intros (rid & Hrid & Hr)%bind_Ok. unfold dict_item in Hrid.
  destruct (dict_get "id" r) as [rid'|] eqn:Hid; [|done]. injection Hrid as ->.
  case_decide as Heq.
  - injection Hr as <-. subst. split; [left|done].
  - destruct (IH Hr). split; [by right|done].
Qed.



Section catalog_facts.
Variable uuid5_hex : string → string.
Variable self_templates : templates.

Lemma list_endpoints_cases :
  list_endpoints uuid5_hex self_templates = Raise (KeyError "name")
  ∨ ∃ endpoints, list_endpoints uuid5_hex self_templates = Ok endpoints.
Proof.
  unfold list_endpoints. apply foldM_only_raises. intros acc rr _.
  apply foldM_only_raises. intros ???. apply add_service_endpoints_cases.
Qed.

Lemma get_endpoint_found id endpoint :
  get_endpoint uuid5_hex self_templates id = Ok endpoint →
  ∃ endpoints, list_endpoints uuid5_hex self_templates = Ok endpoints
               ∧ endpoint ∈ endpoints ∧ dict_get "id" endpoint = Some id.
Proof.
  unfold get_endpoint. intros (endpoints & Hl & Hf)%bind_Ok.
  exists endpoints. split; [done|]. by eapply first_with_id_found.
Qed.



End catalog_facts.

(** The endpoints kept for a group are the candidates among the endpoints
    of the catalog. *)
Lemma filter_endpoints_spec filters endpoints filtered endpoint :
  filter_endpoints filters endpoints = Ok filtered →
  endpoint ∈ filtered ↔
  endpoint ∈ endpoints ∧ is_candidate endpoint filters = Ok true.
Proof.
  unfold filter_endpoints.
  enough (∀ acc, foldM (λ filtered_endpoints endpoint,
                          c ← is_candidate endpoint filters;
                          if c : bool then Ok (filtered_endpoints ++ [endpoint])
                          else Ok filtered_endpoints) acc endpoints = Ok filtered →
            endpoint ∈ filtered ↔
            endpoint ∈ acc
            ∨ endpoint ∈ endpoints ∧ is_candidate endpoint filters = Ok true)
    as Hgen.
  { intros Hf. rewrite (Hgen [] Hf), elem_of_nil. tauto. }
  induction endpoints as [|x l IH]; intros acc; simpl.
  - intros [= <-]. rewrite elem_of_nil. tauto.
  - intros (acc' & (c & Hc & Hx)%bind_Ok & Hl)%bind_Ok.
    rewrite (IH _ Hl), elem_of_cons. destruct c; injection Hx as <-.
    + rewrite elem_of_app, list_elem_of_singleton. split; [|tauto].
      intros [[?| ->]|?]; tauto.
    + split; [tauto|]. intros [?|[[->|?] ?]]; [tauto|congruence|tauto].
Qed.

(** ** [list_endpoints_for_project] *)

Section manager_facts.
Context {S : Type} `{!EndpointFilterDriver S}.
Variable uuid5_hex : string → string.
Variable self_templates : templates.
Variable get_project : string → result unit.

Implicit Types (w : world S) (filtered m : dict pyval record)
  (refs : list project_endpoint).

(** *** The groups are only read *)

Lemma get_endpoint_groups_world project_id w :
  (_get_endpoint_groups_for_project get_project project_id w).2 = w.
Proof.
  unfold _get_endpoint_groups_for_project. case_bool_decide; [done|].
  rewrite M_bind_run. unfold lift. by destruct (get_project project_id).
Qed.

Lemma get_endpoints_filtered_run endpoint_group_id w endpoint_refs w' :
  _get_endpoints_filtered_by_endpoint_group uuid5_hex self_templates
    endpoint_group_id w = (Ok endpoint_refs, w') →
  w' = w ∧ ∃ endpoints endpoint_group,
    list_endpoints uuid5_hex self_templates = Ok endpoints ∧
    driver_get_endpoint_group endpoint_group_id (store w) = Ok endpoint_group ∧
    filter_endpoints (eg_filters endpoint_group) endpoints = Ok endpoint_refs.
Proof.
  unfold _get_endpoints_filtered_by_endpoint_group.
  rewrite M_bind_run. unfold lift at 1.
  destruct (list_endpoints uuid5_hex self_templates) as [endpoints|]; [|done].
  rewrite M_bind_run. unfold reads.
  destruct (driver_get_endpoint_group endpoint_group_id (store w))
    as [endpoint_group|]; [|done].
  unfold lift. intros [= Hf <-]. split; [done|]. by exists endpoints, endpoint_group.
Qed.

Lemma get_endpoints_filtered_world endpoint_group_id w :
  (_get_endpoints_filtered_by_endpoint_group uuid5_hex self_templates
     endpoint_group_id w).2 = w.
Proof.
  unfold _get_endpoints_filtered_by_endpoint_group.
  rewrite M_bind_run. unfold lift at 1.
  destruct (list_endpoints uuid5_hex self_templates); [|done].
  rewrite M_bind_run. unfold reads.
  by destruct (driver_get_endpoint_group endpoint_group_id (store w)).
Qed.

(** One round of the loop over the groups. *)
Lemma add_groups_step filtered endpoint_group w m w' :
  (endpoint_refs ←
     _get_endpoints_filtered_by_endpoint_group uuid5_hex self_templates
       (eg_id endpoint_group);
   lift (add_group_endpoints filtered endpoint_refs)) w = (Ok m, w') →
  w' = w ∧ ∃ endpoint_refs,
    _get_endpoints_filtered_by_endpoint_group uuid5_hex self_templates
      (eg_id endpoint_group) w = (Ok endpoint_refs, w) ∧
    add_group_endpoints filtered endpoint_refs = Ok m.
Proof.
  rewrite M_bind_run.
  destruct (_get_endpoints_filtered_by_endpoint_group _ _ _ w)
    as [[endpoint_refs|] w1] eqn:Hrun; [|done].
  apply get_endpoints_filtered_run in Hrun as Hw. destruct Hw as [-> _].
  unfold lift. intros [= Hm <-]. split; [done|]. by exists endpoint_refs.
Qed.

Lemma add_groups_world filtered endpoint_groups w :
  (add_groups uuid5_hex self_templates filtered endpoint_groups w).2 = w.
Proof.
  unfold add_groups. apply foldM_M_world. intros acc g w0.
  rewrite M_bind_run.
  pose proof (get_endpoints_filtered_world (eg_id g) w0) as Hw.
  destruct (_get_endpoints_filtered_by_endpoint_group _ _ _ w0) as [[?|?] w1];
    simpl in Hw; by subst.
Qed.





End manager_facts.

Section direct_associations.
Context {S : Type} `{!EndpointFilterDriver S}.
Variable uuid5_hex : string → string.
Variable self_templates : templates.

Implicit Types (w : world S) (filtered m : dict pyval record)
  (refs : list project_endpoint).

Abbreviation catalog_get_endpoint := (get_endpoint uuid5_hex self_templates).
Abbreviation direct := (direct_endpoints uuid5_hex self_templates).
Abbreviation stale := (is_stale uuid5_hex self_templates).






(** One round of the loop over the associations. *)
Lemma add_direct_endpoint_run project_id filtered ref w :
  add_direct_endpoint uuid5_hex self_templates project_id filtered ref w
  = match catalog_get_endpoint (VStr (pe_endpoint_id ref)) with
    | Ok endpoint =>
        (Ok (dict_set (VStr (pe_endpoint_id ref)) endpoint filtered), w)
    | Raise (EndpointNotFound _) =>
        let calls :=
          removal_calls w ++ [(VStr (pe_endpoint_id ref), project_id)] in
        match driver_remove_endpoint_from_project
                (VStr (pe_endpoint_id ref)) project_id (store w) with
        | Ok s' => (Ok filtered, World s' calls)
        | Raise e => (Raise e, World (store w) calls)
        end
    | Raise e => (Raise e, w)
    end.
Proof.
  unfold add_direct_endpoint.
  destruct (catalog_get_endpoint _) as [|[]]; try done.
  rewrite M_bind_run. unfold remove_endpoint_from_project.
  by destruct (driver_remove_endpoint_from_project _ _ _).
Qed.

(** When the loop ends normally it has stored the known endpoints and has
    asked for the removal of exactly the stale associations, in order. *)
Lemma direct_loop_result project_id filtered refs w m w' :
  foldM_M (add_direct_endpoint uuid5_hex self_templates project_id)
          filtered refs w = (Ok m, w') →
  m = direct filtered refs
  ∧ removal_calls w' = removal_calls w ++ stale_calls uuid5_hex self_templates
                                            project_id refs.
Proof.
  revert filtered w. induction refs as [|ref refs IH]; intros filtered w.
  - intros [= <- <-]. by rewrite app_nil_r.
  - rewrite foldM_M_cons, add_direct_endpoint_run. simpl. unfold is_stale.
    destruct (catalog_get_endpoint (VStr (pe_endpoint_id ref))) as [e|[]];
      try done; [apply IH|].
    destruct (driver_remove_endpoint_from_project _ _ _) as [s'|]; [|done].
    intros [-> Hcalls]%IH. split; [done|].
    rewrite Hcalls. simpl. by rewrite <- (assoc_L (++)).
Qed.



End direct_associations.

Section resolution_facts.
Context {S : Type} `{!EndpointFilterDriver S}.
Variable uuid5_hex : string → string.
Variable self_templates : templates.
Variable get_project : string → result unit.

Implicit Types (w : world S) (m : dict pyval record).

Lemma list_endpoints_for_project_run project_id w :
  list_endpoints_for_project uuid5_hex self_templates get_project project_id w
  = match foldM_M (add_direct_endpoint uuid5_hex self_templates project_id) []
            (driver_list_endpoints_for_project project_id (store w)) w with
    | (Ok filtered_endpoints, w1) =>
        match _get_endpoint_groups_for_project get_project project_id w1 with
        | (Ok endpoint_groups, w2) =>
            add_groups uuid5_hex self_templates filtered_endpoints
                       endpoint_groups w2
        | (Raise e, w2) => (Raise e, w2)
        end
    | (Raise e, w1) => (Raise e, w1)
    end.
Proof. done. Qed.




End resolution_facts.




(** ** [get_v3_catalog] *)

Section get_v3_catalog_facts.
Context {S : Type} `{!EndpointFilterDriver S}.
Variable uuid5_hex : string → string.
Variable format_url : pyval → dict string pyval → list string → result pyval.
Variable CONF : config.
Variable self_templates : templates.
Variable get_project : string → result unit.
Variable super_get_v3_catalog : string → string → result (list v3_service).

(** C10: when the project has no endpoint at all, [get_v3_catalog] hands the
    request to [get_v3_catalog] of the parent class if
    [return_all_endpoints_if_no_filter] is set, and returns the empty
    catalog if it is not. *)
Theorem get_v3_catalog_no_filter (user_id project_id : string)
    (w w' : world S) :
  list_endpoints_for_project uuid5_hex self_templates get_project project_id w
    = (Ok [], w') →
  get_v3_catalog uuid5_hex format_url CONF self_templates get_project
    super_get_v3_catalog user_id project_id w
  = (if return_all_endpoints_if_no_filter CONF
     then super_get_v3_catalog user_id project_id
     else Ok [],
     w').
Proof.
  intros Hrun. unfold get_v3_catalog. rewrite M_bind_run, Hrun. simpl.
  by destruct (return_all_endpoints_if_no_filter CONF).
Qed.

End get_v3_catalog_facts.

Lemma get_v3_catalog_no_filter_witness :
  get_v3_catalog ex_uuid spec_format_url ex_conf_all ex_templates ex_get_project
    ex_super_get_v3_catalog "u" "p2" (World ex_store [])
  = (ex_super_get_v3_catalog "u" "p2", World ex_store [])
  ∧ get_v3_catalog ex_uuid spec_format_url (ex_conf true) ex_templates
      ex_get_project ex_super_get_v3_catalog "u" "p2" (World ex_store [])
    = (Ok [], World ex_store []).
Proof.
  split.
  - apply (get_v3_catalog_no_filter ex_uuid spec_format_url ex_conf_all
             ex_templates ex_get_project ex_super_get_v3_catalog "u" "p2").
    vm_compute. reflexivity.
  - apply (get_v3_catalog_no_filter ex_uuid spec_format_url (ex_conf true)
             ex_templates ex_get_project ex_super_get_v3_catalog "u" "p2").
    vm_compute. reflexivity.
Defined.

(** * Further properties of the catalog and of the endpoint filter *)

(** ** Regions *)

Lemma list_regions_fmap (t : templates) :
  list_regions t
  = (λ rr : string * region_template,
       [("id", VStr rr.1); ("description", VStr "");
        ("parent_region_id", VStr "")]) <$> t.
Proof.
  unfold list_regions.
  enough (∀ acc : list record,
    foldl (λ region_list (rr : string * region_template),
             region_list ++ [[("id", VStr rr.1); ("description", VStr "");
                              ("parent_region_id", VStr "")]]) acc t
    = acc ++ ((λ rr : string * region_template,
                 [("id", VStr rr.1); ("description", VStr "");
                  ("parent_region_id", VStr "")]) <$> t)) as Hgen
    by apply (Hgen []).
  induction t as [|rr t IH]; intros acc; csimpl.
  - by rewrite app_nil_r.
  - by rewrite IH, <- (assoc_L (++)).
Qed.

(** X1: [get_region] finds the record of every region of the template, with
    empty description and parent, and raises [RegionNotFound] for every
    other identifier. *)
Theorem get_region_round_trip (self_templates : templates) :
  (∀ region, region ∈ dict_keys self_templates →
     get_region self_templates (VStr region)
     = Ok [("id", VStr region); ("description", VStr "");
           ("parent_region_id", VStr "")])
  ∧ (∀ region_id,
       (∀ region, region ∈ dict_keys self_templates → region_id ≠ VStr region) →
       get_region self_templates region_id = Raise RegionNotFound).
Proof.
  unfold get_region. rewrite list_regions_fmap. unfold dict_keys. split.
  - intros region. induction self_templates as [|[r rr] t IH]; csimpl.
    + by intros ?%elem_of_nil.
    + intros [->|Hin]%elem_of_cons.
      * by rewrite decide_True.
      * destruct (decide (VStr r = VStr region)) as [[= ->]|]; [done|by apply IH].
  - intros region_id. induction self_templates as [|[r rr] t IH]; csimpl; [done|].
    intros Hnone. rewrite decide_False.
    + apply IH. intros region Hin. apply Hnone. by right.
    + intros Heq. apply (Hnone r); [left|done].
Qed.

(** ** The interface of a key *)

Lemma startswith_app p s :
  PyStr.startswith p s = true → ∃ rest, s = p +:+ rest.
Proof.
  revert s. induction p as [|a p IH]; intros s; [by eauto|].
  destruct s as [|b s]; [by intros [=]|].
  change (PyStr.startswith (String a p) (String b s))
    with (if decide (a = b) then PyStr.startswith p s else false).
  case_decide; [|done]. subst.
  intros [rest ->]%IH. by exists rest.
Qed.

Lemma split_head_prefix sep s :
  PyStr.contains sep s = true →
  ∃ rest, s = default "" (head (PyStr.split sep s)) +:+ sep +:+ rest.
Proof.
  unfold PyStr.split. induction s as [|c s IH].
  - change (PyStr.contains sep "") with (PyStr.startswith sep "" || false).
    rewrite orb_false_r. intros [rest Hrest]%startswith_app.
    destruct sep; [|done]. by exists "".
  - intros Hc. change (PyStr.contains sep (String c s))
      with (PyStr.startswith sep (String c s) || PyStr.contains sep s) in Hc.
    change (PyStr.split_go sep 0 (String c s))
      with (if PyStr.startswith sep (String c s)
            then EmptyString :: PyStr.split_go sep (String.length sep - 1) s
            else match PyStr.split_go sep 0 s with
                 | h :: t => String c h :: t
                 | [] => [String c EmptyString]
                 end).
    destruct (PyStr.startswith sep (String c s)) eqn:Hs.
    + apply startswith_app in Hs as [rest Hrest]. by exists rest.
    + destruct (IH Hc) as [rest Hrest]. exists rest.
      destruct (PyStr.split_go sep 0 s) as [|h t]; simpl in *; by rewrite Hrest at 1.
Qed.

(** X2: the interface that [extract_interface_from_string] returns is what
    stands before an occurrence of ["URL"] in the key, and a key has an
    interface exactly when it contains ["URL"]. *)
Theorem extract_interface_prefix (line : string) :
  (∀ interface, extract_interface_from_string line = Some interface →
                ∃ rest, line = interface +:+ "URL" +:+ rest)
  ∧ (extract_interface_from_string line = None
     ↔ PyStr.contains "URL" line = false).
Proof.
  unfold extract_interface_from_string. split.
  - intros interface. destruct (PyStr.contains "URL" line) eqn:Hc; [|done].
    intros [= <-]. by apply split_head_prefix.
  - by destruct (PyStr.contains "URL" line).
Qed.

(** ** The endpoints of a group *)

Lemma filter_endpoints_sublist_acc filters endpoints acc filtered :
  foldM (λ filtered_endpoints endpoint,
           c ← is_candidate endpoint filters;
           if c : bool then Ok (filtered_endpoints ++ [endpoint])
           else Ok filtered_endpoints) acc endpoints = Ok filtered →
  ∃ kept, filtered = acc ++ kept ∧ kept `sublist_of` endpoints.
Proof.
  revert acc. induction endpoints as [|x l IH]; intros acc; simpl.
  - intros [= <-]. exists []. by rewrite app_nil_r.
  - intros (acc' & (c & Hc & Hx)%bind_Ok & Hl)%bind_Ok.
    destruct (IH _ Hl) as (kept & -> & Hsub). destruct c; injection Hx as <-.
    + exists (x :: kept). rewrite <- (assoc_L (++)). split; [done|].
      by apply sublist_skip.
    + exists kept. split; [done|]. by apply sublist_cons.
Qed.

(** X3: the endpoints kept for a group are endpoints of the catalog, in the
    order of the catalog, and they are exactly the candidates. *)
Theorem filter_endpoints_sound (filters : dict string filter_value)
    (endpoints filtered : list record) :
  filter_endpoints filters endpoints = Ok filtered →
  filtered `sublist_of` endpoints
  ∧ ∀ endpoint, endpoint ∈ filtered ↔
      endpoint ∈ endpoints ∧ is_candidate endpoint filters = Ok true.
Proof.
  intros Hf. split.
  - destruct (filter_endpoints_sublist_acc _ _ _ _ Hf) as (kept & -> & Hsub).
    done.
  - intros endpoint. by apply filter_endpoints_spec.
Qed.

Lemma filter_endpoints_sound_witness :
  [[("interface", VStr "public")]]
    `sublist_of` [[("interface", VStr "admin")]; [("interface", VStr "public")]].
Proof.
  apply (filter_endpoints_sound [("interface", FScalar (VStr "public"))]).
  reflexivity.
Defined.

Lemma filter_endpoints_nil endpoints acc :
  foldM (λ filtered_endpoints endpoint,
           c ← is_candidate endpoint [];
           if c : bool then Ok (filtered_endpoints ++ [endpoint])
           else Ok filtered_endpoints) acc endpoints = Ok (acc ++ endpoints).
Proof.
  revert acc. induction endpoints as [|x l IH]; intros acc; simpl.
  - by rewrite app_nil_r.
  - by rewrite IH, <- (assoc_L (++)).
Qed.

Section group_without_filters.
Context {S : Type} `{!EndpointFilterDriver S}.
Variable uuid5_hex : string → string.
Variable self_templates : templates.

(** X4: a group whose filters are empty selects every endpoint of the
    catalog: [_get_endpoints_filtered_by_endpoint_group] returns what
    [list_endpoints] returns, and leaves the store as it is. *)
Theorem get_endpoints_filtered_no_filters (endpoint_group_id : string)
    (w : world S) (endpoint_group : endpoint_group) :
  driver_get_endpoint_group endpoint_group_id (store w) = Ok endpoint_group →
  eg_filters endpoint_group = [] →
  _get_endpoints_filtered_by_endpoint_group uuid5_hex self_templates
    endpoint_group_id w
  = (list_endpoints uuid5_hex self_templates, w).
Proof.
  intros Hg Hf. unfold _get_endpoints_filtered_by_endpoint_group.
  rewrite M_bind_run. unfold lift at 1.
  destruct (list_endpoints uuid5_hex self_templates) as [endpoints|]; [|done].
  rewrite M_bind_run. unfold reads. rewrite Hg, Hf. unfold lift, filter_endpoints.
  by rewrite (filter_endpoints_nil endpoints []).
Qed.

End group_without_filters.

Lemma get_endpoints_filtered_no_filters_witness :
  _get_endpoints_filtered_by_endpoint_group ex_uuid ex_templates "all"
    (World (MemStore [] [{| eg_id := "all"; eg_filters := [] |}] []) [])
  = (list_endpoints ex_uuid ex_templates,
     World (MemStore [] [{| eg_id := "all"; eg_filters := [] |}] []) []).
Proof.
  apply (get_endpoints_filtered_no_filters ex_uuid ex_templates "all"
           (World (MemStore [] [{| eg_id := "all"; eg_filters := [] |}] []) [])
           {| eg_id := "all"; eg_filters := [] |}); reflexivity.
Defined.

(** ** The endpoints of [list_endpoints], one per interface *)

Lemma dict_keys_set_iff {V} (d : dict string V) k v f :
  f ∈ dict_keys (dict_set k v d) ↔ f = k ∨ f ∈ dict_keys d.
Proof.
  rewrite dict_keys_set. destruct (dict_mem k d) eqn:Hm.
  - apply dict_mem_true in Hm. split; [tauto|]. by intros [->|?].
  - rewrite elem_of_app, list_elem_of_singleton. tauto.
Qed.

(** The four assignments of the loop over the interfaces. *)
Lemma interface_fields_written (d : record) (id interface url : pyval) :
  let d' := dict_set "url" url
              (dict_set "interface" interface
                 (dict_set "legacy_endpoint_id" id (dict_set "id" id d))) in
  dict_get "id" d' = Some id
  ∧ dict_get "legacy_endpoint_id" d' = Some id
  ∧ dict_get "interface" d' = Some interface
  ∧ dict_get "url" d' = Some url
  ∧ (∀ f, f ∉ interface_fields → dict_get f d' = dict_get f d)
  ∧ (∀ f, f ∈ dict_keys d' ↔ f ∈ interface_fields ∨ f ∈ dict_keys d)
  ∧ (dict_wf d → dict_wf d').
Proof.
  intros d'. subst d'. split_and!.
  - do 3 (rewrite dict_get_set_ne by done). apply dict_get_set_eq.
  - do 2 (rewrite dict_get_set_ne by done). apply dict_get_set_eq.
  - rewrite dict_get_set_ne by done. apply dict_get_set_eq.
  - apply dict_get_set_eq.
  - intros f Hf. unfold interface_fields in Hf.
    rewrite !not_elem_of_cons in Hf. destruct Hf as (? & ? & ? & ? & _).
    by rewrite !dict_get_set_ne.
  - intros f. rewrite !dict_keys_set_iff. unfold interface_fields.
    rewrite !elem_of_cons, elem_of_nil. tauto.
  - intros Hd. by do 4 apply dict_wf_set.
Qed.

Lemma foldM_Forall2_app {A B C} (f : list C → A → result (list C))
    (g : A → list B) (R : B → C → Prop) l :
  (∀ acc x acc', x ∈ l → f acc x = Ok acc' →
     ∃ new, acc' = acc ++ new ∧ Forall2 R (g x) new) →
  ∀ acc r, foldM f acc l = Ok r →
    ∃ new, r = acc ++ new ∧ Forall2 R (l ≫= g) new.
Proof.
  induction l as [|x l IH]; intros Hstep acc r; simpl.
  - intros [= <-]. exists []. by rewrite app_nil_r.
  - intros (acc' & Hx & Hl)%bind_Ok.
    destruct (Hstep acc x acc') as (new1 & -> & H1); [left|done|].
    destruct (IH (λ a y a' Hin, Hstep a y a' (list_elem_of_further _ _ _ Hin))
                 _ _ Hl) as (new2 & -> & H2).
    exists (new1 ++ new2). rewrite (assoc_L (++)). split; [done|].
    by apply Forall2_app.
Qed.

Section one_endpoint_per_interface.
Variable uuid5_hex : string → string.

Lemma emit_endpoints_cons region service service_ref dict0 k v interfaces l :
  emit_endpoints uuid5_hex region service service_ref dict0
    ((k, v) :: interfaces) l
  = (name ← dict_item "name" service_ref;
     interface ← match extract_interface_from_string k with
                 | Some i => Ok i
                 | None => Raise TypeError
                 end;
     let endpoint_id :=
       uuid5_hex (region +:+ service +:+ name +:+ interface) in
     let dict :=
       dict_set "url" (VStr v)
         (dict_set "interface" (VStr interface)
            (dict_set "legacy_endpoint_id" (VStr endpoint_id)
               (dict_set "id" (VStr endpoint_id) dict0))) in
     emit_endpoints uuid5_hex region service service_ref dict interfaces
       (l ++ [dict])).
Proof.
  unfold emit_endpoints. simpl.
  destruct (dict_item "name" service_ref); simpl; [|done].
  by destruct (extract_interface_from_string k).
Qed.

(** The second inner loop appends one endpoint per interface, in order. *)
Lemma emit_endpoints_spec region service service_ref interfaces :
  ∀ dict0 l r,
    emit_endpoints uuid5_hex region service service_ref dict0 interfaces l = Ok r →
    ∃ new, r.2 = l ++ new
      ∧ Forall2 (λ kv endpoint,
                   endpoint_of_interface uuid5_hex
                     {| ie_region := region; ie_service := service;
                        ie_service_ref := service_ref; ie_dict := dict0;
                        ie_key := kv.1; ie_url := kv.2 |} endpoint)
                interfaces new.
Proof.
  induction interfaces as [|[k v] interfaces IH]; intros dict0 l r.
  - intros [= <-]. exists []. simpl. by rewrite app_nil_r.
  - rewrite emit_endpoints_cons. unfold dict_item.
    destruct (dict_get "name" service_ref) as [name|] eqn:Hname; [|done]. simpl.
    destruct (extract_interface_from_string k) as [interface|] eqn:Hk; [|done].
    simpl.
    match goal with |- emit_endpoints _ _ _ _ ?d _ _ = _ → _ => set (d1 := d) end.
    intros Hrest.
    destruct (IH d1 (l ++ [d1]) r Hrest) as (new & Hr & Hnew).
    destruct (interface_fields_written dict0
                (VStr (uuid5_hex (region +:+ service +:+ name +:+ interface)))
                (VStr interface) (VStr v))
      as (Hid & Hleg & Hif & Hurl & Hother & Hkeys & Hwf).
    fold d1 in Hid, Hleg, Hif, Hurl, Hother, Hkeys, Hwf.
    exists (d1 :: new). rewrite Hr, <- (assoc_L (++)). split; [done|].
    constructor.
    + exists name, interface. simpl. split_and!; try done. congruence.
    + eapply Forall2_impl; [exact Hnew|].
      intros kv endpoint (n & i & Hn & Hi & Hid' & Hleg' & Hif' & Hurl' & Ho & Hks & Hw).
      simpl in *. exists n, i. simpl. split_and!; try done.
      * intros f Hf. by rewrite Ho, Hother.
      * intros f. rewrite Hks, Hkeys. tauto.
      * intros ?. by apply Hw, Hwf.
Qed.

Lemma add_service_endpoints_spec region l service service_ref l' :
  add_service_endpoints uuid5_hex region l (service, service_ref) = Ok l' →
  ∃ new, l' = l ++ new
    ∧ Forall2 (endpoint_of_interface uuid5_hex)
        (let c := classify_keys (initial_endpoint uuid5_hex region service)
                    service_ref in
         kv ← c.2;
         [{| ie_region := region; ie_service := service;
             ie_service_ref := service_ref; ie_dict := c.1;
             ie_key := kv.1; ie_url := kv.2 |}])
        new.
Proof.
  unfold add_service_endpoints. fold (initial_endpoint uuid5_hex region service).
  destruct (classify_keys (initial_endpoint uuid5_hex region service) service_ref)
    as [d ifs]. simpl.
  intros (r & Hemit & [= <-])%bind_Ok.
  destruct (emit_endpoints_spec _ _ _ _ _ _ _ Hemit) as (new & Hr & Hnew).
  exists new. split; [done|]. clear -Hnew.
  induction Hnew as [|kv ep ifs new Hkv _ IH]; csimpl; [constructor|].
  by constructor.
Qed.

(** The three loops together. *)
Lemma list_endpoints_entries (self_templates : templates)
    (endpoints : list record) :
  list_endpoints uuid5_hex self_templates = Ok endpoints →
  Forall2 (endpoint_of_interface uuid5_hex)
          (interface_entries uuid5_hex self_templates) endpoints.
Proof.
  unfold list_endpoints, interface_entries. intros Hl.
  eapply foldM_Forall2_app in Hl as (new & -> & Hnew); [exact Hnew|].
  intros acc [region region_ref] acc' _ Hregion. simpl in *.
  eapply foldM_Forall2_app in Hregion as (new & -> & Hnew);
    [by exists new|].
  intros acc1 [service service_ref] acc2 _ Hs.
  by apply add_service_endpoints_spec.
Qed.

End one_endpoint_per_interface.

(** ** The fields of an endpoint *)

Lemma classify_keys_from_nil (d0 : record) service_ref :
  classify_keys d0 service_ref = classify_keys_from (d0, []) service_ref.
Proof. done. Qed.

Lemma classify_keys_from_cons acc k v (service_ref : service_template) :
  classify_keys_from acc ((k, v) :: service_ref)
  = classify_keys_from
      (if bool_decide (k ∈ endpoint_properties)
       then (dict_set k (VStr v) acc.1, acc.2)
       else match extract_interface_from_string k with
            | Some _ => (acc.1, dict_set k v acc.2)
            | None => acc
            end)
      service_ref.
Proof.
  destruct acc as [d i]. unfold classify_keys_from. simpl.
  case_bool_decide; [done|]. by destruct (extract_interface_from_string k).
Qed.

(** The record after the first inner loop has the fields it started with
    and the endpoint properties that the service sets. *)
Lemma classify_keys_from_dict_keys acc (service_ref : service_template) f :
  f ∈ dict_keys (classify_keys_from acc service_ref).1 ↔
  f ∈ dict_keys acc.1 ∨ (f ∈ dict_keys service_ref ∧ f ∈ endpoint_properties).
Proof.
  revert acc. induction service_ref as [|[k v] l IH]; intros acc.
  - unfold dict_keys at 3. simpl. rewrite elem_of_nil. tauto.
  - rewrite classify_keys_from_cons, IH. unfold dict_keys at 4.
    rewrite fmap_cons, elem_of_cons. fold (dict_keys l). simpl.
    case_bool_decide as Hk.
    + simpl. rewrite dict_keys_set_iff. split.
      * intros [[->|?]|[? ?]]; tauto.
      * intros [?|[[->|?] ?]]; tauto.
    + assert (f ∈ dict_keys
                (match extract_interface_from_string k with
                 | Some _ => (acc.1, dict_set k v acc.2)
                 | None => acc
                 end).1 ↔ f ∈ dict_keys acc.1) as ->
        by (by destruct (extract_interface_from_string k)).
      split; [tauto|]. intros [?|[[->|?] ?]]; tauto.
Qed.

Lemma classify_keys_from_dict_wf acc (service_ref : service_template) :
  dict_wf acc.1 → dict_wf (classify_keys_from acc service_ref).1.
Proof.
  revert acc. induction service_ref as [|[k v] l IH]; intros acc Hwf; [done|].
  rewrite classify_keys_from_cons. apply IH.
  case_bool_decide; simpl; [by apply dict_wf_set|].
  by destruct (extract_interface_from_string k).
Qed.

(** A field that is not an endpoint property, or that the service does not
    set, keeps its value. *)
Lemma classify_keys_from_dict_other acc (service_ref : service_template) f :
  f ∉ endpoint_properties ∨ f ∉ dict_keys service_ref →
  dict_get f (classify_keys_from acc service_ref).1 = dict_get f acc.1.
Proof.
  revert acc. induction service_ref as [|[k v] l IH]; intros acc Hf; [done|].
  rewrite classify_keys_from_cons, IH.
  - case_bool_decide as Hk; simpl.
    + rewrite dict_get_set_ne; [done|]. intros ->.
      destruct Hf as [Hf|Hf]; [done|]. apply Hf. unfold dict_keys.
      rewrite fmap_cons. left.
    + by destruct (extract_interface_from_string k).
  - destruct Hf as [?|Hf]; [by left|right].
    intros Hin. apply Hf. unfold dict_keys. rewrite fmap_cons. by right.
Qed.

(** When the keys of the service are distinct, [interfaces] holds its
    entries whose key contains ["URL"], in order. *)
Lemma classify_keys_from_interfaces acc (service_ref : service_template) :
  dict_wf service_ref →
  (∀ k, k ∈ dict_keys service_ref → k ∉ dict_keys acc.2) →
  (classify_keys_from acc service_ref).2
  = acc.2 ++ List.filter (λ kv, PyStr.contains "URL" kv.1) service_ref.
Proof.
  revert acc. induction service_ref as [|[k v] l IH]; intros acc Hwf Hfresh.
  - simpl. by rewrite app_nil_r.
  - unfold dict_wf, dict_keys in Hwf. rewrite fmap_cons in Hwf.
    apply NoDup_cons in Hwf as [Hk Hl]. fold (dict_keys l) in Hk, Hl.
    assert (∀ k', k' ∈ dict_keys l → k' ∉ dict_keys acc.2) as Hfresh'.
    { intros k' Hk'. apply Hfresh. unfold dict_keys. rewrite fmap_cons. by right. }
    assert (k ∉ dict_keys acc.2) as Hkacc.
    { apply Hfresh. unfold dict_keys. rewrite fmap_cons. left. }
    rewrite classify_keys_from_cons. simpl.
    case_bool_decide as Hp.
    + rewrite IH by done. simpl.
      by rewrite (endpoint_properties_no_URL k Hp).
    + destruct (extract_interface_from_string k) as [i|] eqn:Hi.
      * assert (PyStr.contains "URL" k = true) as ->
          by (apply extract_interface_Some; eauto).
        rewrite IH; simpl; [|done|].
        -- rewrite dict_set_fresh by (by apply dict_get_None).
           by rewrite <- (assoc_L (++)).
        -- intros k' Hk'. rewrite dict_keys_set_iff. intros [->|?]; [done|].
           by apply (Hfresh' k').
      * assert (PyStr.contains "URL" k = false) as ->.
        { destruct (PyStr.contains "URL" k) eqn:Hc; [|done].
          apply extract_interface_Some in Hc as [??]. congruence. }
        by apply IH.
Qed.

Lemma Forall2_elem_of_r {A B} (R : A → B → Prop) l k y :
  Forall2 R l k → y ∈ k → ∃ x, x ∈ l ∧ R x y.
Proof.
  induction 1 as [|x y' l k Hxy _ IH]; [by intros ?%elem_of_nil|].
  intros [->|Hin]%elem_of_cons.
  - exists x. split; [left|done].
  - destruct (IH Hin) as (x' & Hx' & HR). exists x'. split; [by right|done].
Qed.

Lemma Forall2_elem_of_l {A B} (R : A → B → Prop) l k x :
  Forall2 R l k → x ∈ l → ∃ y, y ∈ k ∧ R x y.
Proof.
  induction 1 as [|x' y l k Hxy _ IH]; [by intros ?%elem_of_nil|].
  intros [->|Hin]%elem_of_cons.
  - exists y. split; [left|done].
  - destruct (IH Hin) as (y' & Hy' & HR). exists y'. split; [by right|done].
Qed.

Lemma elem_of_interface_entries uuid5_hex (t : templates) e :
  e ∈ interface_entries uuid5_hex t ↔
  ∃ region region_ref service service_ref k v,
    (region, region_ref) ∈ t ∧ (service, service_ref) ∈ region_ref
    ∧ (k, v) ∈ (classify_keys (initial_endpoint uuid5_hex region service)
                  service_ref).2
    ∧ e = {| ie_region := region; ie_service := service;
             ie_service_ref := service_ref;
             ie_dict := (classify_keys (initial_endpoint uuid5_hex region service)
                           service_ref).1;
             ie_key := k; ie_url := v |}.
Proof.
  unfold interface_entries. rewrite list_elem_of_bind. split.
  - intros ([region rr] & He & Hr). apply list_elem_of_bind in He as ([s sr] & He & Hs).
    simpl in *. apply list_elem_of_bind in He as ([k v] & He & Hk).
    apply list_elem_of_singleton in He. by exists region, rr, s, sr, k, v.
  - intros (region & rr & s & sr & k & v & Hr & Hs & Hk & ->).
    exists (region, rr). split; [|done]. apply list_elem_of_bind.
    exists (s, sr). split; [|done]. simpl. apply list_elem_of_bind.
    exists (k, v). split; [|done]. by apply list_elem_of_singleton.
Qed.

Section endpoint_fields.
Variable uuid5_hex : string → string.

(** The fields of an endpoint of the listing. *)
Lemma list_endpoints_field_names (self_templates : templates)
    (endpoints : list record) (endpoint : record) :
  list_endpoints uuid5_hex self_templates = Ok endpoints →
  endpoint ∈ endpoints →
  NoDup (dict_keys endpoint)
  ∧ (∀ f, f ∈ dict_keys endpoint ↔ f ∈ endpoint_fields).
Proof.
  intros Hl Hin.
  apply list_endpoints_entries in Hl.
  destruct (Forall2_elem_of_r _ _ _ _ Hl Hin) as (e & He & HR).
  apply elem_of_interface_entries in He
    as (region & rr & service & sr & k & v & Hr & Hs & Hk & ->).
  destruct HR as (name & interface & _ & _ & _ & _ & _ & _ & _ & Hkeys & Hwf).
  simpl in *. rewrite classify_keys_from_nil in Hkeys, Hwf. split.
  - apply Hwf, classify_keys_from_dict_wf. simpl. by_compute.
  - intros f. rewrite Hkeys, classify_keys_from_dict_keys. simpl.
    unfold interface_fields, endpoint_fields, endpoint_properties, dict_keys at 1.
    simpl. rewrite !elem_of_cons, !elem_of_nil. tauto.
Qed.


(** X7: when [list_endpoints] returns, every attribute of a service whose
    key contains ["URL"] has its endpoint in the listing: the interface is
    what stands before ["URL"], the url is the value of the attribute, and
    the id is the hash of region, service, name and interface. *)
Theorem list_endpoints_complete (self_templates : templates)
    (endpoints : list record) (region : string) (region_ref : region_template)
    (service : string) (service_ref : service_template) (k v : string) :
  list_endpoints uuid5_hex self_templates = Ok endpoints →
  (region, region_ref) ∈ self_templates →
  (service, service_ref) ∈ region_ref →
  dict_wf service_ref →
  (k, v) ∈ service_ref →
  PyStr.contains "URL" k = true →
  ∃ endpoint name interface,
    endpoint ∈ endpoints
    ∧ dict_get "name" service_ref = Some name
    ∧ extract_interface_from_string k = Some interface
    ∧ dict_get "id" endpoint
      = Some (VStr (uuid5_hex (region +:+ service +:+ name +:+ interface)))
    ∧ dict_get "interface" endpoint = Some (VStr interface)
    ∧ dict_get "url" endpoint = Some (VStr v)
    ∧ dict_get "region_id" endpoint = Some (VStr region).
Proof.
  intros Hl Hr Hs Hwf Hk Hurl.
  apply list_endpoints_entries in Hl.
  set (c := classify_keys (initial_endpoint uuid5_hex region service) service_ref).
  assert ((k, v) ∈ c.2) as Hkv.
  { subst c. rewrite classify_keys_from_nil, classify_keys_from_interfaces;
      [|done|by intros ?? ?%elem_of_nil].
    simpl. apply list_elem_of_In, filter_In. split; [by apply list_elem_of_In|done]. }
  assert ({| ie_region := region; ie_service := service;
             ie_service_ref := service_ref; ie_dict := c.1;
             ie_key := k; ie_url := v |}
          ∈ interface_entries uuid5_hex self_templates) as He.
  { apply elem_of_interface_entries.
    by exists region, region_ref, service, service_ref, k, v. }
  destruct (Forall2_elem_of_l _ _ _ _ Hl He)
    as (endpoint & Hin & name & interface & Hname & Hi & Hid & _ & Hif & Hu
        & Hother & _).
  simpl in *. exists endpoint, name, interface. split_and!; try done.
  rewrite Hother by (unfold interface_fields; by_compute).
  subst c. rewrite classify_keys_from_nil, classify_keys_from_dict_other; [done|].
  left. unfold endpoint_properties. by_compute.
Qed.

End endpoint_fields.


Lemma list_endpoints_complete_witness :
  ∃ endpoints endpoint,
    list_endpoints ex_uuid ex_templates = Ok endpoints
    ∧ endpoint ∈ endpoints
    ∧ dict_get "id" endpoint = Some (VStr "#RegionOnecomputeComputepublic")
    ∧ dict_get "interface" endpoint = Some (VStr "public")
    ∧ dict_get "url" endpoint = Some (VStr "http://c/{tenant_id}").
Proof.
  destruct (list_endpoints_complete ex_uuid ex_templates
              (default [] (match list_endpoints ex_uuid ex_templates with
                           | Ok l => Some l
                           | Raise _ => None
                           end))
              "RegionOne"
              [("identity", [("name", "Identity Service");
                             ("publicURL", "http://{host}:5000/v3")]);
               ("compute", [("name", "Compute");
                            ("publicURL", "http://c/{tenant_id}")])]
              "compute"
              [("name", "Compute"); ("publicURL", "http://c/{tenant_id}")]
              "publicURL" "http://c/{tenant_id}")
    as (endpoint & name & interface & Hin & Hname & Hi & Hid & Hif & Hu & _).
  - vm_compute. reflexivity.
  - unfold ex_templates. elem_of_list.
  - elem_of_list.
  - by_compute.
  - elem_of_list.
  - vm_compute. reflexivity.
  - injection Hname as <-. injection Hi as <-.
    eexists _, endpoint. split; [vm_compute; reflexivity|].
    split; [exact Hin|]. split; [exact Hid|]. split; [exact Hif|exact Hu].
Defined.

(** ** The endpoints of the attributes whose key contains ["URL"] *)

Lemma Forall2_bind_singleton {A B C D} (R : B → D → Prop) (R' : C → D → Prop)
    (F : A → B) (G : A → C) l k :
  (∀ x y, x ∈ l → R (F x) y → R' (G x) y) →
  Forall2 R (l ≫= λ x, [F x]) k → Forall2 R' (l ≫= λ x, [G x]) k.
Proof.
  revert k. induction l as [|x l IH]; intros k HR; csimpl.
  - by intros ->%Forall2_nil_inv_l.
  - intros (y & k' & Hy & Hk' & ->)%Forall2_cons_inv_l. constructor.
    + apply HR; [left|done].
    + apply IH; [|done]. intros ????. apply HR; [by right|done].
Qed.

Section url_attribute_facts.
Variable uuid5_hex : string → string.

(** What the loop over the interfaces says of an endpoint, in terms of the
    attribute alone. *)
Lemma endpoint_of_interface_attribute region service
    (service_ref : service_template) k v endpoint :
  endpoint_of_interface uuid5_hex
    {| ie_region := region; ie_service := service;
       ie_service_ref := service_ref;
       ie_dict := (classify_keys (initial_endpoint uuid5_hex region service)
                     service_ref).1;
       ie_key := k; ie_url := v |} endpoint →
  endpoint_of_attribute uuid5_hex
    {| ua_region := region; ua_service := service;
       ua_service_ref := service_ref; ua_key := k; ua_url := v |} endpoint.
Proof.
  intros (name & interface & Hname & Hi & Hid & Hleg & Hif & Hurl & Hother & _).
  simpl in *. rewrite classify_keys_from_nil in Hother.
  exists name, interface. simpl. split_and!; try done.
  - rewrite Hother by (unfold interface_fields; by_compute).
    rewrite classify_keys_from_dict_other; [done|].
    left. unfold endpoint_properties. by_compute.
  - intros Hf. rewrite Hother by (unfold interface_fields; by_compute).
    rewrite classify_keys_from_dict_other; [done|by right].
  - intros Hf. rewrite Hother by (unfold interface_fields; by_compute).
    rewrite classify_keys_from_dict_other; [done|by right].
  - intros Hf. rewrite Hother by (unfold interface_fields; by_compute).
    rewrite classify_keys_from_dict_other; [done|by right].
Qed.

(** The body of the loop over the services appends the endpoints of the
    attributes of the service whose key contains ["URL"]. *)
Lemma add_service_endpoints_attributes region l service
    (service_ref : service_template) l' :
  dict_wf service_ref →
  add_service_endpoints uuid5_hex region l (service, service_ref) = Ok l' →
  ∃ new, l' = l ++ new
    ∧ Forall2 (endpoint_of_attribute uuid5_hex)
        (kv ← List.filter (λ kv : string * string, PyStr.contains "URL" kv.1)
                service_ref;
         [{| ua_region := region; ua_service := service;
             ua_service_ref := service_ref; ua_key := kv.1; ua_url := kv.2 |}])
        new.
Proof.
  intros Hwf (new & -> & Hnew)%add_service_endpoints_spec.
  exists new. split; [done|]. simpl in Hnew.
  rewrite classify_keys_from_nil in Hnew at 1.
  rewrite classify_keys_from_interfaces in Hnew;
    [|done|by intros ?? ?%elem_of_nil].
  simpl in Hnew. revert Hnew. apply Forall2_bind_singleton.
  intros kv endpoint _. apply endpoint_of_interface_attribute.
Qed.

(** The three loops together, on a template whose services hold each key
    once. *)
Lemma list_endpoints_attributes (self_templates : templates)
    (endpoints : list record) :
  (∀ region region_ref service service_ref,
     (region, region_ref) ∈ self_templates →
     (service, service_ref) ∈ region_ref → dict_wf service_ref) →
  list_endpoints uuid5_hex self_templates = Ok endpoints →
  Forall2 (endpoint_of_attribute uuid5_hex) (url_attributes self_templates)
          endpoints.
Proof.
  unfold list_endpoints, url_attributes. intros Hwf Hl.
  eapply foldM_Forall2_app in Hl as (new & -> & Hnew); [exact Hnew|].
  intros acc [region region_ref] acc' Hr Hregion. simpl in *.
  eapply foldM_Forall2_app in Hregion as (new & -> & Hnew);
    [by exists new|].
  intros acc1 [service service_ref] acc2 Hs Hadd.
  apply add_service_endpoints_attributes; [|done]. by eapply Hwf.
Qed.

(** X5: on a template whose services hold each key once, when
    [list_endpoints] returns, it returns one endpoint per attribute whose
    key contains ["URL"], in the order of the template: as many endpoints as
    there are such attributes, and the endpoint of an attribute holds the
    hash of region, service, name and interface as id and legacy id, the
    interface of the key, the value as url and the region as region id. *)
Theorem list_endpoints_one_per_interface (self_templates : templates)
    (endpoints : list record) :
  (∀ region region_ref service service_ref,
     (region, region_ref) ∈ self_templates →
     (service, service_ref) ∈ region_ref → dict_wf service_ref) →
  list_endpoints uuid5_hex self_templates = Ok endpoints →
  length endpoints = length (url_attributes self_templates)
  ∧ Forall2 (endpoint_of_attribute uuid5_hex) (url_attributes self_templates)
            endpoints.
Proof.
  intros Hwf Hl. pose proof (list_endpoints_attributes _ _ Hwf Hl) as Hall.
  split; [|done]. symmetry. by eapply Forall2_length.
Qed.

(** An attribute whose key contains ["URL"] of a service that holds each
    key once has its endpoint in the listing. *)
Lemma list_endpoints_has_attribute (self_templates : templates) endpoints
    region region_ref service (service_ref : service_template) k v :
  list_endpoints uuid5_hex self_templates = Ok endpoints →
  (region, region_ref) ∈ self_templates →
  (service, service_ref) ∈ region_ref →
  dict_wf service_ref → (k, v) ∈ service_ref →
  PyStr.contains "URL" k = true →
  ∃ endpoint,
    endpoint ∈ endpoints
    ∧ endpoint_of_attribute uuid5_hex
        {| ua_region := region; ua_service := service;
           ua_service_ref := service_ref; ua_key := k; ua_url := v |} endpoint.
Proof.
  intros Hl Hr Hs Hwf Hk Hurl.
  apply list_endpoints_entries in Hl.
  set (c := classify_keys (initial_endpoint uuid5_hex region service) service_ref).
  assert ((k, v) ∈ c.2) as Hkv.
  { subst c. rewrite classify_keys_from_nil, classify_keys_from_interfaces;
      [|done|by intros ?? ?%elem_of_nil].
    simpl. apply list_elem_of_In, filter_In. split; [by apply list_elem_of_In|done]. }
  assert ({| ie_region := region; ie_service := service;
             ie_service_ref := service_ref; ie_dict := c.1;
             ie_key := k; ie_url := v |}
          ∈ interface_entries uuid5_hex self_templates) as He.
  { apply elem_of_interface_entries.
    by exists region, region_ref, service, service_ref, k, v. }
  destruct (Forall2_elem_of_l _ _ _ _ Hl He) as (endpoint & Hin & Hep).
  exists endpoint. split; [done|]. by apply endpoint_of_interface_attribute.
Qed.

(** Every endpoint of the listing is the endpoint of an attribute whose key
    contains ["URL"]. *)
Lemma list_endpoints_attribute_of (self_templates : templates) endpoints
    endpoint :
  list_endpoints uuid5_hex self_templates = Ok endpoints →
  endpoint ∈ endpoints →
  ∃ region region_ref service service_ref k v,
    (region, region_ref) ∈ self_templates
    ∧ (service, service_ref) ∈ region_ref
    ∧ k ∈ dict_keys service_ref
    ∧ PyStr.contains "URL" k = true
    ∧ endpoint_of_attribute uuid5_hex
        {| ua_region := region; ua_service := service;
           ua_service_ref := service_ref; ua_key := k; ua_url := v |} endpoint.
Proof.
  intros Hl Hin. apply list_endpoints_entries in Hl.
  destruct (Forall2_elem_of_r _ _ _ _ Hl Hin) as (e & He & HR).
  apply elem_of_interface_entries in He
    as (region & rr & service & sr & k & v & Hr & Hs & Hk & ->).
  assert (k ∈ dict_keys sr ∧ PyStr.contains "URL" k = true) as [Hkey Hurl].
  { apply (classify_keys_interfaces (initial_endpoint uuid5_hex region service)).
    unfold dict_keys. apply list_elem_of_fmap. by exists (k, v). }
  exists region, rr, service, sr, k, v. split_and!; try done.
  by apply endpoint_of_interface_attribute.
Qed.

(** C6, as the code has it.  The record of a service type is built from one
    of its entries; its ['id'] is the hash of the service type unless the
    entry carries an ['id'] attribute of its own, which is then taken as it
    is.  Every endpoint of [list_endpoints] is the endpoint of an attribute
    whose key contains ["URL"]: its ['region_id'] is the region and its
    ['interface'] the interface of the key, and its ['id'] is the hash of
    region + service + name + interface, without separators, with
    ['legacy_endpoint_id'] equal to it.  The id depends on these four
    strings only: two templates that hold such an attribute under the same
    region, service, name and key both list an endpoint for it, with the
    same id, whatever urls and other content they hold. *)
Theorem derived_identifiers (self_templates : templates) :
  (∀ service record,
     dict_get service (service_dict uuid5_hex self_templates) = Some record →
     ∃ region region_ref service_ref,
       (region, region_ref) ∈ self_templates ∧
       (service, service_ref) ∈ region_ref ∧
       record = service_record uuid5_hex service service_ref ∧
       ("id" ∉ dict_keys service_ref →
        dict_get "id" record = Some (VStr (uuid5_hex service))) ∧
       (∀ v, dict_wf service_ref → ("id", v) ∈ service_ref →
             dict_get "id" record = Some (VStr v)))
  ∧ (∀ endpoints endpoint,
       list_endpoints uuid5_hex self_templates = Ok endpoints →
       endpoint ∈ endpoints →
       ∃ region region_ref service service_ref k name interface,
         (region, region_ref) ∈ self_templates ∧
         (service, service_ref) ∈ region_ref ∧
         k ∈ dict_keys service_ref ∧
         PyStr.contains "URL" k = true ∧
         dict_get "name" service_ref = Some name ∧
         extract_interface_from_string k = Some interface ∧
         dict_get "region_id" endpoint = Some (VStr region) ∧
         dict_get "interface" endpoint = Some (VStr interface) ∧
         dict_get "id" endpoint
           = Some (VStr (uuid5_hex (region +:+ service +:+ name +:+ interface))) ∧
         dict_get "legacy_endpoint_id" endpoint = dict_get "id" endpoint)
  ∧ (∀ (other_templates : templates) endpoints endpoints'
       region region_ref region_ref' service
       (service_ref service_ref' : service_template) k v v' name,
       list_endpoints uuid5_hex self_templates = Ok endpoints →
       list_endpoints uuid5_hex other_templates = Ok endpoints' →
       (region, region_ref) ∈ self_templates →
       (service, service_ref) ∈ region_ref →
       dict_wf service_ref → (k, v) ∈ service_ref →
       dict_get "name" service_ref = Some name →
       (region, region_ref') ∈ other_templates →
       (service, service_ref') ∈ region_ref' →
       dict_wf service_ref' → (k, v') ∈ service_ref' →
       dict_get "name" service_ref' = Some name →
       PyStr.contains "URL" k = true →
       ∃ endpoint endpoint' interface,
         endpoint ∈ endpoints ∧ endpoint' ∈ endpoints'
         ∧ extract_interface_from_string k = Some interface
         ∧ dict_get "region_id" endpoint = Some (VStr region)
         ∧ dict_get "region_id" endpoint' = Some (VStr region)
         ∧ dict_get "interface" endpoint = Some (VStr interface)
         ∧ dict_get "interface" endpoint' = Some (VStr interface)
         ∧ dict_get "url" endpoint = Some (VStr v)
         ∧ dict_get "url" endpoint' = Some (VStr v')
         ∧ dict_get "id" endpoint
           = Some (VStr (uuid5_hex (region +:+ service +:+ name +:+ interface)))
         ∧ dict_get "id" endpoint' = dict_get "id" endpoint).
Proof.
  split_and!.
  - intros service record. rewrite service_dict_store_loop.
    intros [Hnil|([s sr] & Hin & <- & ->)]%store_loop_get; [done|].
    apply elem_of_service_entries in Hin as (region & region_ref & Hr & Hs).
    exists region, region_ref, sr. simpl. split_and!; [done..| |].
    + intros Hid. by rewrite service_record_default.
    + intros v Hwf Hv. apply service_record_override; [done..|].
      unfold service_properties. elem_of_list.
  - intros endpoints endpoint Hl Hin.
    destruct (list_endpoints_attribute_of _ _ _ Hl Hin)
      as (region & rr & service & sr & k & v & Hr & Hs & Hk & Hurl
          & name & interface & Hname & Hi & Hid & Hleg & Hif & _ & Hrid & _).
    simpl in *.
    by exists region, rr, service, sr, k, name, interface.
  - intros other_templates endpoints endpoints' region rr rr' service sr sr'
      k v v' name Hl Hl' Hr Hs Hwf Hk Hname Hr' Hs' Hwf' Hk' Hname' Hurl.
    destruct (list_endpoints_has_attribute _ _ _ _ _ _ _ _ Hl Hr Hs Hwf Hk Hurl)
      as (e & Hin & n & i & Hn & Hi & Hid & _ & Hif & Hu & Hrid & _).
    destruct (list_endpoints_has_attribute _ _ _ _ _ _ _ _ Hl' Hr' Hs' Hwf' Hk'
                Hurl)
      as (e' & Hin' & n' & i' & Hn' & Hi' & Hid' & _ & Hif' & Hu' & Hrid' & _).
    simpl in *.
    assert (n = name) as -> by congruence.
    assert (n' = name) as -> by congruence.
    assert (i' = i) as -> by congruence.
    exists e, e', i. split_and!; try done. by rewrite Hid, Hid'.
Qed.

End url_attribute_facts.

Lemma derived_identifiers_witness :
  ∃ endpoint endpoint',
    dict_get "url" endpoint = Some (VStr "http://c/{tenant_id}")
    ∧ dict_get "url" endpoint' = Some (VStr "https://compute.example/")
    ∧ dict_get "id" endpoint = Some (VStr "#RegionOnecomputeComputepublic")
    ∧ dict_get "id" endpoint' = dict_get "id" endpoint.
Proof.
  edestruct (λ endpoints endpoints',
               proj2 (proj2 (derived_identifiers ex_uuid ex_templates))
                 [("RegionTwo", [("compute", [("name", "Nova")])]);
                  ("RegionOne",
                   [("compute", [("publicURL", "https://compute.example/");
                                 ("adminURL", "https://admin.example/");
                                 ("name", "Compute")])])]
                 endpoints endpoints' "RegionOne"
                 [("identity", [("name", "Identity Service");
                                ("publicURL", "http://{host}:5000/v3")]);
                  ("compute", [("name", "Compute");
                               ("publicURL", "http://c/{tenant_id}")])]
                 [("compute", [("publicURL", "https://compute.example/");
                               ("adminURL", "https://admin.example/");
                               ("name", "Compute")])]
                 "compute"
                 [("name", "Compute"); ("publicURL", "http://c/{tenant_id}")]
                 [("publicURL", "https://compute.example/");
                  ("adminURL", "https://admin.example/"); ("name", "Compute")]
                 "publicURL" "http://c/{tenant_id}" "https://compute.example/"
                 "Compute")
    as (endpoint & endpoint' & interface & _ & _ & Hi & _ & _ & _ & _
        & Hurl & Hurl' & Hid & Hid').
  - vm_compute. reflexivity.
  - vm_compute. reflexivity.
  - unfold ex_templates. elem_of_list.
  - elem_of_list.
  - by_compute.
  - elem_of_list.
  - reflexivity.
  - elem_of_list.
  - elem_of_list.
  - by_compute.
  - elem_of_list.
  - reflexivity.
  - vm_compute. reflexivity.
  - injection Hi as <-. exists endpoint, endpoint'.
    split; [exact Hurl|]. split; [exact Hurl'|]. split; [exact Hid|exact Hid'].
Defined.

Lemma list_endpoints_one_per_interface_witness :
  ∃ endpoints,
    list_endpoints ex_uuid ex_templates = Ok endpoints
    ∧ length endpoints = 2%nat
    ∧ Forall2 (endpoint_of_attribute ex_uuid) (url_attributes ex_templates)
              endpoints.
Proof.
  eexists. split; [vm_compute; reflexivity|].
  apply (list_endpoints_one_per_interface ex_uuid ex_templates).
  - intros region region_ref service service_ref
      [[= -> ->]|[]%elem_of_nil]%elem_of_cons
      [[= -> ->]|[[= -> ->]|[]%elem_of_nil]%elem_of_cons]%elem_of_cons;
      by_compute.
  - vm_compute. reflexivity.
Defined.

(** ** When [list_endpoints] returns *)

Lemma foldM_returns {A B} (f : B → A → result B) l :
  (∀ acc x, x ∈ l → ∃ acc', f acc x = Ok acc') →
  ∀ acc, ∃ r, foldM f acc l = Ok r.
Proof.
  induction l as [|x l IH]; intros Hf acc; simpl; [by eauto|].
  destruct (Hf acc x) as [acc' ->]; [left|]. simpl.
  apply IH. intros ?? Hin. apply Hf. by right.
Qed.

Section list_endpoints_returns.
Variable uuid5_hex : string → string.

Lemma list_endpoints_raises_without_name (t : templates) region region_ref
    service (service_ref : service_template) k :
  (region, region_ref) ∈ t → (service, service_ref) ∈ region_ref →
  k ∈ dict_keys service_ref → PyStr.contains "URL" k = true →
  dict_get "name" service_ref = None →
  list_endpoints uuid5_hex t = Raise (KeyError "name").
Proof.
  intros Hr Hs Hk Hurl Hname. unfold list_endpoints.
  apply (foldM_raises _ _ _ (region, region_ref)); [|done|].
  - intros acc rr _. apply foldM_only_raises.
    intros ???. apply add_service_endpoints_cases.
  - intros acc. simpl.
    apply (foldM_raises _ _ _ (service, service_ref)); [|done|].
    + intros ???. apply add_service_endpoints_cases.
    + intros acc'. by eapply add_service_endpoints_no_name.
Qed.

Lemma emit_endpoints_returns region service (service_ref : service_template)
    name interfaces :
  dict_get "name" service_ref = Some name →
  (∀ k, k ∈ dict_keys interfaces → PyStr.contains "URL" k = true) →
  ∀ dict0 l, ∃ r,
    emit_endpoints uuid5_hex region service service_ref dict0 interfaces l = Ok r.
Proof.
  intros Hname Hurl dict0 l. unfold emit_endpoints.
  apply foldM_returns. intros [d el] [k v] Hin. unfold dict_item.
  rewrite Hname. simpl.
  destruct (extract_interface_from_string k) eqn:Hk; simpl; [by eauto|].
  assert (is_Some (extract_interface_from_string k)) as [??]; [|congruence].
  apply extract_interface_Some, Hurl. unfold dict_keys.
  apply list_elem_of_fmap. by exists (k, v).
Qed.

(** X8: [list_endpoints] returns exactly when every service that has an
    attribute whose key contains ["URL"] also has a ['name']; otherwise it
    raises [KeyError] for ['name']. *)
Theorem list_endpoints_returns_iff (self_templates : templates) :
  ((∃ endpoints, list_endpoints uuid5_hex self_templates = Ok endpoints) ↔
   ∀ region region_ref service service_ref k,
     (region, region_ref) ∈ self_templates →
     (service, service_ref) ∈ region_ref →
     k ∈ dict_keys service_ref → PyStr.contains "URL" k = true →
     is_Some (dict_get "name" service_ref))
  ∧ ((∃ endpoints, list_endpoints uuid5_hex self_templates = Ok endpoints)
     ∨ list_endpoints uuid5_hex self_templates = Raise (KeyError "name")).
Proof.
  split.
  - split.
    + intros [endpoints Hl] region region_ref service service_ref k Hr Hs Hk Hurl.
      destruct (dict_get "name" service_ref) as [name|] eqn:Hname; [by eauto|].
      rewrite (list_endpoints_raises_without_name _ _ _ _ _ _ Hr Hs Hk Hurl Hname)
        in Hl. done.
    + intros Hnames. unfold list_endpoints. apply foldM_returns.
      intros acc [region region_ref] Hr. simpl. apply foldM_returns.
      intros acc' [service service_ref] Hs. unfold add_service_endpoints.
      match goal with |- context [classify_keys ?d ?s] =>
        pose proof (classify_keys_interfaces d s) as Hi;
        destruct (classify_keys d s) as [d' ifs] eqn:Hc end.
      simpl in Hi. destruct ifs as [|[k v] ifs]; [by eauto|].
      assert (k ∈ dict_keys service_ref ∧ PyStr.contains "URL" k = true)
        as [Hk Hurl].
      { apply Hi. unfold dict_keys. rewrite fmap_cons. left. }
      destruct (Hnames _ _ _ _ _ Hr Hs Hk Hurl) as [name Hname].
      destruct (emit_endpoints_returns region service service_ref name
                  ((k, v) :: ifs) Hname) with (dict0 := d') (l := acc')
        as [r ->]; [|by eauto].
      intros k' Hk'. by apply Hi in Hk' as [_ ?].
  - destruct (list_endpoints_cases uuid5_hex self_templates); [by right|by left].
Qed.

End list_endpoints_returns.

(** ** Lookups by id *)

(** On records that all have an ['id'], the search returns the first
    record with the identifier, or raises [not_found] when there is none. *)
Lemma first_with_id_outcome id not_found l :
  (∀ r, r ∈ l → is_Some (dict_get "id" r)) →
  (∃ r, first_with_id id not_found l = Ok r ∧ r ∈ l ∧ dict_get "id" r = Some id)
  ∨ (first_with_id id not_found l = Raise not_found
     ∧ ∀ r, r ∈ l → dict_get "id" r ≠ Some id).
Proof.
  induction l as [|x l IH]; intros Hids; simpl.
  - right. split; [done|]. by intros ? ?%elem_of_nil.
  - destruct (Hids x) as [xid Hx]; [left|]. unfold dict_item. rewrite Hx. simpl.
    case_decide as Heq.
    + left. exists x. subst. split_and!; [done|left|done].
    + destruct IH as [(r & Hr & Hin & Hid)|[Hr Hnone]].
      * intros ??. apply Hids. by right.
      * left. exists r. split_and!; [done|by right|done].
      * right. split; [done|]. intros r [->|Hin]%elem_of_cons; [congruence|auto].
Qed.

Section lookups.
Variable uuid5_hex : string → string.
Variable self_templates : templates.

(** X9: [get_endpoint] re-raises a failure of the listing; otherwise it
    returns an endpoint of the listing that has the identifier when there
    is one, and raises [EndpointNotFound] when there is none. *)
Theorem get_endpoint_outcomes (endpoint_id : pyval) :
  (∀ e, list_endpoints uuid5_hex self_templates = Raise e →
        get_endpoint uuid5_hex self_templates endpoint_id = Raise e)
  ∧ (∀ endpoints,
       list_endpoints uuid5_hex self_templates = Ok endpoints →
       (∃ endpoint,
          get_endpoint uuid5_hex self_templates endpoint_id = Ok endpoint
          ∧ endpoint ∈ endpoints ∧ dict_get "id" endpoint = Some endpoint_id)
       ∨ (get_endpoint uuid5_hex self_templates endpoint_id
            = Raise (EndpointNotFound endpoint_id)
          ∧ ∀ endpoint, endpoint ∈ endpoints →
              dict_get "id" endpoint ≠ Some endpoint_id)).
Proof.
  unfold get_endpoint. split.
  - by intros e ->.
  - intros endpoints Hl. rewrite Hl. simpl. apply first_with_id_outcome.
    intros endpoint Hin.
    destruct (list_endpoints_ids uuid5_hex _ _ _ Hl Hin)
      as (? & ? & ? & ? & ? & ? & ? & _ & _ & _ & _ & _ & Hid & _).
    by rewrite Hid.
Qed.

(** The attributes that the record of a service starts with and the
    whitelisted attributes of the service are its fields. *)
Lemma service_record_keys service (service_ref : service_template) f :
  f ∈ dict_keys (service_record uuid5_hex service service_ref) ↔
  f ∈ ["id"; "type"; "enabled"; "description"]
  ∨ (f ∈ dict_keys service_ref ∧ f ∈ service_properties).
Proof.
  unfold service_record.
  change ["id"; "type"; "enabled"; "description"]
    with (dict_keys [("id", VStr (uuid5_hex service)); ("type", VStr service);
                     ("enabled", VBool true); ("description", VStr "")]).
  generalize [("id", VStr (uuid5_hex service)); ("type", VStr service);
              ("enabled", VBool true); ("description", VStr "")].
  induction service_ref as [|[k v] l IH]; intros d.
  - unfold dict_keys at 3. simpl. rewrite elem_of_nil. tauto.
  - cbn [foldl]. rewrite IH. unfold dict_keys at 4. rewrite fmap_cons, elem_of_cons.
    fold (dict_keys l). simpl. case_bool_decide as Hk.
    + rewrite dict_keys_set_iff. split.
      * intros [[->|?]|[? ?]]; tauto.
      * intros [?|[[->|?] ?]]; tauto.
    + split; [tauto|]. intros [?|[[->|?] ?]]; tauto.
Qed.

Lemma service_record_wf service (service_ref : service_template) :
  dict_wf (service_record uuid5_hex service service_ref).
Proof.
  unfold service_record.
  assert (dict_wf [("id", VStr (uuid5_hex service)); ("type", VStr service);
                   ("enabled", VBool true); ("description", VStr "")]) as Hd
    by by_compute.
  revert Hd.
  generalize [("id", VStr (uuid5_hex service)); ("type", VStr service);
              ("enabled", VBool true); ("description", VStr "")].
  induction service_ref as [|[k v] l IH]; intros d Hd; simpl; [done|].
  apply IH. case_bool_decide; [by apply dict_wf_set|done].
Qed.

(** The records of [list_services] are the records of the service
    entries. *)
Lemma elem_of_list_services record :
  record ∈ list_services uuid5_hex self_templates →
  ∃ region region_ref service service_ref,
    (region, region_ref) ∈ self_templates
    ∧ (service, service_ref) ∈ region_ref
    ∧ record = service_record uuid5_hex service service_ref.
Proof.
  unfold list_services, dict_values.
  intros ([s r] & -> & Hin)%list_elem_of_fmap. simpl.
  assert (dict_get s (service_dict uuid5_hex self_templates) = Some r) as Hget.
  { apply dict_get_elem; [|done]. rewrite service_dict_store_loop.
    apply store_loop_wf, NoDup_nil_2. }
  rewrite service_dict_store_loop in Hget.
  apply store_loop_get in Hget as [?|([s' sr] & Hsr & <- & ->)]; [done|].
  apply elem_of_service_entries in Hsr as (region & rr & Hr & Hs).
  by exists region, rr, s', sr.
Qed.

(** X10: every record of [list_services] has an ['id'], so [get_service]
    never fails on a record: it returns a record of the listing that has
    the identifier when there is one, and raises [ServiceNotFound] when
    there is none. *)
Theorem get_service_outcomes (service_id : pyval) :
  (∃ service,
     get_service uuid5_hex self_templates service_id = Ok service
     ∧ service ∈ list_services uuid5_hex self_templates
     ∧ dict_get "id" service = Some service_id)
  ∨ (get_service uuid5_hex self_templates service_id
       = Raise (ServiceNotFound service_id)
     ∧ ∀ service, service ∈ list_services uuid5_hex self_templates →
         dict_get "id" service ≠ Some service_id).
Proof.
  unfold get_service. apply first_with_id_outcome.
  intros record (region & rr & s & sr & _ & _ & ->)%elem_of_list_services.
  destruct (dict_get "id" (service_record uuid5_hex s sr)) eqn:Hid; [by eauto|].
  apply dict_get_None in Hid. destruct Hid. apply service_record_keys.
  left. by_compute.
Qed.

(** X11: the fields of a record of [list_services] are service properties,
    each once, among them ['id'], ['type'], ['enabled'] and
    ['description']; the record has a ['name'] exactly when its service
    entry has one; and ['type'], ['enabled'] and ['description'] are the
    service type, [True] and the empty string unless the entry sets them. *)
Theorem list_services_fields (record : record) :
  record ∈ list_services uuid5_hex self_templates →
  NoDup (dict_keys record)
  ∧ (∀ f, f ∈ dict_keys record → f ∈ service_properties)
  ∧ (∀ f, f ∈ ["id"; "type"; "enabled"; "description"] → f ∈ dict_keys record)
  ∧ ∃ region region_ref service service_ref,
      (region, region_ref) ∈ self_templates
      ∧ (service, service_ref) ∈ region_ref
      ∧ ("name" ∈ dict_keys record ↔ "name" ∈ dict_keys service_ref)
      ∧ ("type" ∉ dict_keys service_ref →
         dict_get "type" record = Some (VStr service))
      ∧ ("enabled" ∉ dict_keys service_ref →
         dict_get "enabled" record = Some (VBool true))
      ∧ ("description" ∉ dict_keys service_ref →
         dict_get "description" record = Some (VStr "")).
Proof.
  intros (region & rr & s & sr & Hr & Hs & ->)%elem_of_list_services.
  split_and!.
  - apply service_record_wf.
  - intros f [Hf|[_ Hf]]%service_record_keys; [|done].
    revert Hf. unfold service_properties. rewrite !elem_of_cons, !elem_of_nil.
    tauto.
  - intros f Hf. apply service_record_keys. by left.
  - exists region, rr, s, sr. split_and!; [done|done|..].
    + rewrite service_record_keys. unfold service_properties.
      rewrite !elem_of_cons, !elem_of_nil. split; [|tauto].
      intros [[[=]|[[=]|[[=]|[[=]|[]]]]]|[? _]]. done.
    + intros Hf. by rewrite service_record_default.
    + intros Hf. by rewrite service_record_default.
    + intros Hf. by rewrite service_record_default.
Qed.

End lookups.

Lemma list_services_fields_witness :
  ∃ record,
    record ∈ list_services ex_uuid ex_templates
    ∧ dict_get "type" record = Some (VStr "identity")
    ∧ NoDup (dict_keys record)
    ∧ ∀ f, f ∈ dict_keys record → f ∈ service_properties.
Proof.
  eexists. split; [vm_compute; apply list_elem_of_here|].
  split; [reflexivity|].
  match goal with |- NoDup (dict_keys ?r) ∧ _ =>
    destruct (list_services_fields ex_uuid ex_templates r) as (Hnd & Hp & _) end.
  - vm_compute. apply list_elem_of_here.
  - split; [exact Hnd|exact Hp].
Defined.

(** ** What [parse_templates] builds *)

Lemma elem_of_dict_set {K V} `{EqDecision K} (d : dict K V) k v k' v' :
  (k', v') ∈ dict_set k v d → (k', v') = (k, v) ∨ (k', v') ∈ d.
Proof.
  induction d as [|[k1 v1] d IH]; simpl.
  - intros ->%list_elem_of_singleton. by left.
  - case_decide.
    + intros [->|?]%elem_of_cons; [by left|right; by right].
    + intros [->|Hin]%elem_of_cons; [right; left|].
      destruct (IH Hin) as [?|?]; [by left|right; by right].
Qed.

Lemma dict_set_not_nil {K V} `{EqDecision K} (d : dict K V) k v :
  dict_set k v d ≠ [].
Proof. destruct d as [|[k1 v1] d]; simpl; [done|]. by case_decide. Qed.

Lemma default_dict_wf {K V} `{EqDecision K} (d : dict K (dict K V)) k :
  (∀ k' v', (k', v') ∈ d → dict_wf v') → dict_wf (default [] (dict_get k d)).
Proof.
  intros Hd. destruct (dict_get k d) as [v|] eqn:Hk; simpl.
  - eapply Hd. by apply dict_get_Some_elem.
  - apply NoDup_nil_2.
Qed.

Lemma parse_line_wf (o o' : templates) line :
  parse_line o line = Ok o' → templates_wf o → templates_wf o'.
Proof.
  unfold parse_line.
  destruct (PyStr.contains " = " line); simpl; [|by intros [= <-]].
  destruct (PyStr.split " = " (PyStr.strip line)) as [|k [|v [|??]]]; try done.
  destruct (PyStr.startswith "catalog." k); simpl; [|by intros [= <-]].
  intros (region & _ & (p2 & _ & (p3 & _ & [= <-])%bind_Ok)%bind_Ok)%bind_Ok.
  intros (Ho & Hregions).
  set (region_ref := default [] (dict_get region o)).
  set (service := PyStr.rstrip (PyStr.replace "_" "-" p2)).
  set (service_ref := default [] (dict_get service region_ref)).
  assert (dict_wf region_ref ∧
          ∀ s sr, (s, sr) ∈ region_ref → dict_wf sr ∧ sr ≠ []) as [Hrr Hservices].
  { subst region_ref. destruct (dict_get region o) as [rr|] eqn:Hr; simpl.
    - apply dict_get_Some_elem in Hr. by destruct (Hregions _ _ Hr) as (? & _ & ?).
    - split; [apply NoDup_nil_2|]. by intros ?? ?%elem_of_nil. }
  assert (dict_wf service_ref) as Hsr.
  { subst service_ref. apply default_dict_wf. intros ?? Hin.
    by destruct (Hservices _ _ Hin). }
  split; [by apply dict_wf_set|].
  intros r rr [[= -> ->]|Hin]%elem_of_dict_set; [|by apply (Hregions r)].
  split_and!; [by apply dict_wf_set|apply dict_set_not_nil|].
  intros s sr [[= -> ->]|Hin]%elem_of_dict_set; [|by apply (Hservices s)].
  split; [by apply dict_wf_set|apply dict_set_not_nil].
Qed.

(** X12: in the template that [parse_templates] returns every region,
    every service of a region and every attribute of a service occurs
    once, and no region and no service is empty. *)
Theorem parse_templates_wf (template_lines : list string) (t : templates) :
  parse_templates template_lines = Ok t → templates_wf t.
Proof.
  unfold parse_templates. apply foldM_invariant.
  - intros acc line acc' _ Hacc Hline. by eapply parse_line_wf.
  - split; [apply NoDup_nil_2|]. by intros ?? ?%elem_of_nil.
Qed.

Lemma parse_templates_wf_witness :
  templates_wf [("RegionOne", [("identity", [("name", "Identity Service")])])].
Proof.
  apply (parse_templates_wf
           ["catalog.RegionOne.identity.name = Identity Service" +:+ nl]).
  vm_compute. reflexivity.
Defined.

Lemma template_value_set (t : templates) region service key v r s a :
  template_value r s a
    (dict_set region
       (dict_set service
          (dict_set key v
             (default [] (dict_get service (default [] (dict_get region t)))))
          (default [] (dict_get region t)))
       t)
  = if decide ((r, s, a) = (region, service, key)) then Some v
    else template_value r s a t.
Proof.
  unfold template_value.
  destruct (decide (r = region)) as [->|Hr].
  - rewrite dict_get_set_eq. simpl.
    destruct (decide (s = service)) as [->|Hs].
    + rewrite dict_get_set_eq. simpl.
      destruct (decide (a = key)) as [->|Ha].
      * rewrite dict_get_set_eq. by rewrite decide_True.
      * rewrite dict_get_set_ne by done. rewrite decide_False by congruence.
        destruct (dict_get region t) as [rr|]; simpl; [|done].
        by destruct (dict_get service rr).
    + rewrite dict_get_set_ne by done. rewrite decide_False by congruence.
      by destruct (dict_get region t).
  - rewrite dict_get_set_ne by done. by rewrite decide_False by congruence.
Qed.

(** X13: a line [catalog.<region>.<service>.<key> = <value>] appended to
    lines that parse stores the value under region, service and key, the
    service with ['_'] replaced by ['-'] and service and key without
    trailing white space; it replaces what earlier lines stored there and
    leaves every other attribute as it was. *)
Theorem parse_templates_stores (template_lines : list string) (t : templates)
    (line k v region p2 p3 : string) :
  parse_templates template_lines = Ok t →
  PyStr.contains " = " line = true →
  PyStr.split " = " (PyStr.strip line) = [k; v] →
  PyStr.startswith "catalog." k = true →
  PyStr.split "." k !! 1 = Some region →
  PyStr.split "." k !! 2 = Some p2 →
  PyStr.split "." k !! 3 = Some p3 →
  ∃ t',
    parse_templates (template_lines ++ [line]) = Ok t'
    ∧ template_value region (PyStr.rstrip (PyStr.replace "_" "-" p2))
        (PyStr.rstrip p3) t' = Some v
    ∧ ∀ r s a,
        (r, s, a) ≠ (region, PyStr.rstrip (PyStr.replace "_" "-" p2),
                     PyStr.rstrip p3) →
        template_value r s a t' = template_value r s a t.
Proof.
  intros Ht Hsep Hsplit Hk H1 H2 H3. unfold parse_templates in *.
  rewrite foldM_app, Ht. simpl. unfold parse_line.
  rewrite Hsep, Hsplit, Hk. simpl. unfold list_item. rewrite H1, H2, H3. simpl.
  eexists. split; [done|]. split.
  - rewrite template_value_set. by rewrite decide_True.
  - intros r s a Hne. rewrite template_value_set. by rewrite decide_False.
Qed.

Lemma parse_templates_stores_witness :
  ∃ t',
    parse_templates
      ["catalog.RegionOne.object_store.name = Swift";
       "catalog.RegionOne.object_store.name  = Object Store"] = Ok t'
    ∧ template_value "RegionOne" "object-store" "name" t' = Some "Object Store".
Proof.
  destruct (parse_templates_stores
              ["catalog.RegionOne.object_store.name = Swift"]
              [("RegionOne", [("object-store", [("name", "Swift")])])]
              "catalog.RegionOne.object_store.name  = Object Store"
              "catalog.RegionOne.object_store.name " "Object Store"
              "RegionOne" "object_store" "name ")
    as (t' & Hparse & Hvalue & _); try (vm_compute; reflexivity).
  exists t'. split; [exact Hparse|exact Hvalue].
Defined.

(** ** The groups of a project *)

Lemma mapM_group_not_found {A B} (f : A → result B) l x id :
  (∀ y, y ∈ l → (∃ b, f y = Ok b) ∨ ∃ id', f y = Raise (EndpointGroupNotFound id')) →
  x ∈ l → f x = Raise (EndpointGroupNotFound id) →
  ∃ id', mapM f l = Raise (EndpointGroupNotFound id').
Proof.
  induction l as [|y l IH]; intros Hall Hin Hx; [by apply elem_of_nil in Hin|].
  simpl. destruct (Hall y) as [[b Hy]|[id' Hy]]; [left| |]; rewrite Hy; simpl;
    [|by eauto].
  apply elem_of_cons in Hin as [->|Hin]; [congruence|].
  destruct IH as [id' ->]; [|done..|by eauto].
  intros ??. apply Hall. by right.
Qed.

Section groups_of_project.
Context {S : Type} `{!EndpointFilterDriver S}.
Variable get_project : string → result unit.

(** X14: for a project id that is not empty,
    [_get_endpoint_groups_for_project] propagates the failure of
    [get_project]; and when the project exists and one of its groups is
    reported as not found, it returns no group at all, also when the
    other groups of the project exist. *)
Theorem get_endpoint_groups_all_or_nothing (project_id : string) (w : world S) :
  project_id ≠ "" →
  (∀ e, get_project project_id = Raise e →
        _get_endpoint_groups_for_project get_project project_id w = (Raise e, w))
  ∧ (∀ refs ref id,
       get_project project_id = Ok () →
       driver_list_endpoint_groups_for_project project_id (store w) = Ok refs →
       (∀ r, r ∈ refs →
          (∃ g, driver_get_endpoint_group (peg_endpoint_group_id r) (store w)
                = Ok g)
          ∨ ∃ id', driver_get_endpoint_group (peg_endpoint_group_id r) (store w)
                   = Raise (EndpointGroupNotFound id')) →
       ref ∈ refs →
       driver_get_endpoint_group (peg_endpoint_group_id ref) (store w)
         = Raise (EndpointGroupNotFound id) →
       _get_endpoint_groups_for_project get_project project_id w = (Ok [], w)).
Proof.
  intros Hne. unfold _get_endpoint_groups_for_project.
  rewrite bool_decide_false by done. split.
  - intros e He. rewrite M_bind_run. unfold lift. by rewrite He.
  - intros refs ref id Hp Hrefs Hall Hin Href.
    rewrite M_bind_run. unfold lift. rewrite Hp. unfold reads.
    rewrite Hrefs. simpl.
    destruct (mapM_group_not_found
                (λ r, driver_get_endpoint_group (peg_endpoint_group_id r) (store w))
                refs ref id Hall Hin Href) as [id' ->].
    done.
Qed.

End groups_of_project.

Lemma get_endpoint_groups_all_or_nothing_witness :
  _get_endpoint_groups_for_project ex_get_project "p1"
    (World (MemStore []
              [ex_public_group]
              [{| peg_endpoint_group_id := "g1"; peg_project_id := "p1" |};
               {| peg_endpoint_group_id := "g2"; peg_project_id := "p1" |}])
           [])
  = (Ok [],
     World (MemStore []
              [ex_public_group]
              [{| peg_endpoint_group_id := "g1"; peg_project_id := "p1" |};
               {| peg_endpoint_group_id := "g2"; peg_project_id := "p1" |}])
           []).
Proof.
  eapply (proj2 (get_endpoint_groups_all_or_nothing ex_get_project "p1" _ _)
            _ {| peg_endpoint_group_id := "g2"; peg_project_id := "p1" |} "g2").
  - reflexivity.
  - reflexivity.
  - intros r [->|[->|[]%elem_of_nil]%elem_of_cons]%elem_of_cons.
    + left. by eexists.
    + right. by eexists.
  - elem_of_list.
  - reflexivity.
  Unshelve. done.
Defined.

(** ** More on [list_endpoints_for_project] *)

Lemma foldM_M_app {S A B} (f : B → A → M S B) acc l1 l2 (w : world S) :
  foldM_M f acc (l1 ++ l2) w
  = match foldM_M f acc l1 w with
    | (Ok acc', w') => foldM_M f acc' l2 w'
    | (Raise e, w') => (Raise e, w')
    end.
Proof.
  revert acc w. induction l1 as [|x l1 IH]; intros acc w; [done|].
  rewrite <- app_comm_cons, !foldM_M_cons.
  destruct (f acc x w) as [[acc'|e] w1]; [apply IH|done].
Qed.

Section more_resolution.
Context {S : Type} `{!EndpointFilterDriver S}.
Variable uuid5_hex : string → string.
Variable self_templates : templates.
Variable get_project : string → result unit.

Implicit Types (w : world S) (m filtered : dict pyval record).

(** The loop over associations that are not stale leaves the world as it
    is. *)
Lemma direct_loop_world project_id filtered refs w :
  (∀ ref, ref ∈ refs → is_stale uuid5_hex self_templates ref = false) →
  (foldM_M (add_direct_endpoint uuid5_hex self_templates project_id)
           filtered refs w).2 = w.
Proof.
  revert filtered. induction refs as [|ref refs IH]; intros filtered Hns; [done|].
  rewrite foldM_M_cons, add_direct_endpoint_run.
  assert (is_stale uuid5_hex self_templates ref = false) as Href
    by (apply Hns; left).
  unfold is_stale in Href.
  destruct (get_endpoint uuid5_hex self_templates (VStr (pe_endpoint_id ref)))
    as [e|[]]; try done.
  apply IH. intros ??. apply Hns. by right.
Qed.

(** The loop over associations that the catalog knows stores their
    endpoints and leaves the world as it is. *)
Lemma direct_loop_found project_id filtered refs w :
  (∀ ref, ref ∈ refs →
     ∃ endpoint, get_endpoint uuid5_hex self_templates
                   (VStr (pe_endpoint_id ref)) = Ok endpoint) →
  foldM_M (add_direct_endpoint uuid5_hex self_templates project_id)
          filtered refs w
  = (Ok (direct_endpoints uuid5_hex self_templates filtered refs), w).
Proof.
  revert filtered. induction refs as [|ref refs IH]; intros filtered Hf; [done|].
  rewrite foldM_M_cons, add_direct_endpoint_run. simpl.
  destruct (Hf ref) as [e ->]; [left|].
  apply IH. intros ??. apply Hf. by right.
Qed.

(** An item stored by the loop over the associations was there before or
    is what the catalog returns for the key. *)
Lemma direct_endpoints_items filtered refs id endpoint :
  (id, endpoint) ∈ direct_endpoints uuid5_hex self_templates filtered refs →
  (id, endpoint) ∈ filtered
  ∨ get_endpoint uuid5_hex self_templates id = Ok endpoint.
Proof.
  revert filtered. induction refs as [|ref refs IH]; intros filtered; simpl;
    [by left|].
  destruct (get_endpoint uuid5_hex self_templates (VStr (pe_endpoint_id ref)))
    as [e|] eqn:Href; [|apply IH].
  intros [[[= -> ->]|?]%elem_of_dict_set|?]%IH; by eauto.
Qed.

(** Every item of the mapping is an endpoint of the catalog under its own
    id. *)
Lemma list_endpoints_for_project_items project_id w m w' id endpoint :
  list_endpoints_for_project uuid5_hex self_templates get_project project_id w
    = (Ok m, w') →
  (id, endpoint) ∈ m →
  ∃ endpoints,
    list_endpoints uuid5_hex self_templates = Ok endpoints
    ∧ endpoint ∈ endpoints ∧ dict_get "id" endpoint = Some id.
Proof.
  rewrite list_endpoints_for_project_run.
  destruct (foldM_M _ [] _ w) as [[m1|] w1] eqn:Hdirect; [|done].
  apply direct_loop_result in Hdirect as [-> _].
  destruct (_get_endpoint_groups_for_project get_project project_id w1)
    as [[groups|] w2]; [|done].
  intros Hadd. revert id endpoint. revert Hadd. unfold add_groups.
  apply (foldM_M_invariant
           (λ m : dict pyval record, ∀ id endpoint,
              (id, endpoint) ∈ m →
              ∃ endpoints,
                list_endpoints uuid5_hex self_templates = Ok endpoints
                ∧ endpoint ∈ endpoints ∧ dict_get "id" endpoint = Some id)).
  - intros acc g acc' w0 w3 _ Hacc (_ & eps & Hrun & Hadd)%add_groups_step.
    apply get_endpoints_filtered_run in Hrun as (_ & all & grp & Hall & _ & Hf).
    revert Hadd. unfold add_group_endpoints.
    apply (foldM_invariant
             (λ m : dict pyval record, ∀ id endpoint,
                (id, endpoint) ∈ m →
                ∃ endpoints,
                  list_endpoints uuid5_hex self_templates = Ok endpoints
                  ∧ endpoint ∈ endpoints ∧ dict_get "id" endpoint = Some id));
      [|done].
    intros acc1 ep acc2 Hep Hacc1 (epid & Hepid & Hset)%bind_Ok id endpoint.
    unfold dict_item in Hepid.
    destruct (dict_get "id" ep) as [epid'|] eqn:Hid; [|done]. injection Hepid as ->.
    destruct (dict_mem epid acc1); injection Hset as <-; [apply Hacc1|].
    intros [[= -> ->]|?]%elem_of_dict_set; [|by apply Hacc1].
    exists all. split_and!; [done| |done].
    by apply (filter_endpoints_spec _ _ _ _ Hf).
  - intros id endpoint [[]%elem_of_nil|Hget]%direct_endpoints_items.
    by apply get_endpoint_found.
Qed.

(** X15: when none of the direct associations of the project is stale,
    [list_endpoints_for_project] only reads: whatever it returns or
    raises, the store is as before and no removal was asked for. *)
Theorem list_endpoints_for_project_reads_only (project_id : string)
    (w : world S) :
  (∀ ref, ref ∈ driver_list_endpoints_for_project project_id (store w) →
          is_stale uuid5_hex self_templates ref = false) →
  (list_endpoints_for_project uuid5_hex self_templates get_project
     project_id w).2 = w.
Proof.
  intros Hns. rewrite list_endpoints_for_project_run.
  pose proof (direct_loop_world project_id [] _ w Hns) as Hw.
  destruct (foldM_M _ [] _ w) as [[m1|] w1]; simpl in Hw; subst w1; [|done].
  pose proof (get_endpoint_groups_world get_project project_id w) as Hw.
  destruct (_get_endpoint_groups_for_project get_project project_id w)
    as [[groups|] w2]; simpl in Hw; subst w2; [|done].
  apply add_groups_world.
Qed.

(** X16: a failure of the driver's removal is not caught.  When the
    associations before a stale one are known to the catalog and the
    removal of the stale one raises, [list_endpoints_for_project] raises
    the same exception, after that one removal call and with the store
    unchanged. *)
Theorem list_endpoints_for_project_removal_failure (project_id : string)
    (w : world S) (before after : list project_endpoint)
    (ref : project_endpoint) (e : exn) :
  driver_list_endpoints_for_project project_id (store w)
    = before ++ ref :: after →
  (∀ r, r ∈ before →
     ∃ endpoint, get_endpoint uuid5_hex self_templates
                   (VStr (pe_endpoint_id r)) = Ok endpoint) →
  is_stale uuid5_hex self_templates ref = true →
  driver_remove_endpoint_from_project (VStr (pe_endpoint_id ref)) project_id
    (store w) = Raise e →
  list_endpoints_for_project uuid5_hex self_templates get_project project_id w
  = (Raise e,
     World (store w)
           (removal_calls w ++ [(VStr (pe_endpoint_id ref), project_id)])).
Proof.
  intros Hrefs Hbefore Hstale Hremove.
  rewrite list_endpoints_for_project_run, Hrefs, foldM_M_app.
  rewrite (direct_loop_found project_id [] before w Hbefore).
  rewrite foldM_M_cons, add_direct_endpoint_run. unfold is_stale in Hstale.
  destruct (get_endpoint uuid5_hex self_templates (VStr (pe_endpoint_id ref)))
    as [|[]]; try done.
  by rewrite Hremove.
Qed.

(** X17: every value of the mapping that [list_endpoints_for_project]
    returns is an endpoint of the catalog, stored under its own id. *)
Theorem list_endpoints_for_project_values (project_id : string) (w : world S)
    (m : dict pyval record) (w' : world S) (id : pyval) (endpoint : record) :
  list_endpoints_for_project uuid5_hex self_templates get_project project_id w
    = (Ok m, w') →
  dict_get id m = Some endpoint →
  ∃ endpoints,
    list_endpoints uuid5_hex self_templates = Ok endpoints
    ∧ endpoint ∈ endpoints ∧ dict_get "id" endpoint = Some id.
Proof.
  intros Hrun Hget%dict_get_Some_elem.
  by apply (list_endpoints_for_project_items _ _ _ _ _ _ Hrun).
Qed.

End more_resolution.

Lemma list_endpoints_for_project_reads_only_witness :
  (list_endpoints_for_project ex_uuid ex_templates ex_get_project "p1"
     (World (MemStore
               [{| pe_endpoint_id := "#RegionOneidentityIdentity Servicepublic";
                   pe_project_id := "p1" |}]
               [ex_public_group]
               [{| peg_endpoint_group_id := "g1"; peg_project_id := "p1" |}])
            [])).2
  = World (MemStore
             [{| pe_endpoint_id := "#RegionOneidentityIdentity Servicepublic";
                 pe_project_id := "p1" |}]
             [ex_public_group]
             [{| peg_endpoint_group_id := "g1"; peg_project_id := "p1" |}])
          [].
Proof.
  apply (list_endpoints_for_project_reads_only ex_uuid ex_templates
           ex_get_project "p1").
  intros ref Hin. apply list_elem_of_singleton in Hin as ->. reflexivity.
Defined.

Lemma list_endpoints_for_project_removal_failure_witness :
  list_endpoints_for_project ex_uuid ex_templates ex_get_project "p1"
    (World ex_cached_store [])
  = (Raise NotFound, World ex_cached_store [(VStr "gone", "p1")]).
Proof.
  apply (list_endpoints_for_project_removal_failure ex_uuid ex_templates
           ex_get_project "p1" (World ex_cached_store [])
           [{| pe_endpoint_id := "#RegionOneidentityIdentity Servicepublic";
               pe_project_id := "p1" |}]
           []
           {| pe_endpoint_id := "gone"; pe_project_id := "p1" |} NotFound).
  - reflexivity.
  - intros r Hin. apply list_elem_of_singleton in Hin as ->.
    eexists. vm_compute. reflexivity.
  - reflexivity.
  - reflexivity.
Defined.

Lemma list_endpoints_for_project_values_witness :
  ∃ endpoints endpoint,
    list_endpoints ex_uuid ex_templates = Ok endpoints
    ∧ endpoint ∈ endpoints
    ∧ dict_get "id" endpoint = Some (VStr "#RegionOnecomputeComputepublic").
Proof.
  edestruct (λ m w' endpoint,
               list_endpoints_for_project_values ex_uuid ex_templates
                 ex_get_project "p1" (World ex_store []) m w'
                 (VStr "#RegionOnecomputeComputepublic") endpoint)
    as (endpoints & Hl & Hin & Hid).
  - vm_compute. reflexivity.
  - vm_compute. reflexivity.
  - eexists endpoints, _. split; [exact Hl|]. split; [exact Hin|exact Hid].
Defined.

(** ** Deleting from a dictionary *)

Section dict_del_facts.
Context {K V : Type} `{EqDecision K}.
Implicit Types (d : dict K V) (k : K).

Lemma dict_get_del_ne k k' d :
  k' ≠ k → dict_get k' (dict_del k d) = dict_get k' d.
Proof.
  intros Hne. induction d as [|[k1 v1] d IH]; simpl; [done|].
  destruct (decide (k = k1)) as [->|]; simpl.
  - by rewrite decide_False.
  - by rewrite IH.
Qed.

Lemma dict_keys_del k d f :
  dict_wf d → f ∈ dict_keys (dict_del k d) ↔ f ∈ dict_keys d ∧ f ≠ k.
Proof.
  unfold dict_wf, dict_keys. induction d as [|[k1 v1] d IH]; simpl.
  - rewrite elem_of_nil. tauto.
  - intros [Hk1 Hd]%NoDup_cons. destruct (decide (k = k1)) as [->|Hne].
    + rewrite elem_of_cons. split; [|tauto].
      intros Hf. split; [by right|]. by intros ->.
    + rewrite fmap_cons, !elem_of_cons, (IH Hd). simpl. split; [|tauto].
      intros [->|[? ?]]; [|tauto]. split; [by left|done].
Qed.

Lemma dict_wf_del k d : dict_wf d → dict_wf (dict_del k d).
Proof.
  induction d as [|[k1 v1] d IH]; simpl; [done|].
  unfold dict_wf, dict_keys in *. simpl.
  intros [Hk1 Hd]%NoDup_cons. destruct (decide (k = k1)) as [->|Hne]; [done|].
  rewrite fmap_cons. apply NoDup_cons. split; [|by apply IH].
  intros [? _]%(dict_keys_del k d k1 Hd). done.
Qed.

End dict_del_facts.

Lemma dict_delete_Ok {V} k (d d' : dict string V) :
  dict_delete k d = Ok d' → d' = dict_del k d.
Proof. unfold dict_delete. destruct (dict_mem k d); by intros [= <-]. Qed.

Lemma bind_Raise {A B} (m : result A) (f : A → result B) e :
  m ≫= f = Raise e → m = Raise e ∨ ∃ a, m = Ok a ∧ f a = Raise e.
Proof. destruct m as [a|e']; simpl; [by eauto|]. intros [= <-]. by left. Qed.

(** ** The services that [get_v3_catalog] builds *)

Section v3_services.
Context {S : Type} `{!EndpointFilterDriver S}.
Variable uuid5_hex : string → string.
Variable format_url : pyval → dict string pyval → list string → result pyval.
Variable CONF : config.
Variable self_templates : templates.
Variable get_project : string → result unit.
Variable super_get_v3_catalog : string → string → result (list v3_service).

Implicit Types (w : world S) (services : dict pyval service_entry).

Lemma lookup_service_Some services endpoint service_id services1 :
  lookup_service uuid5_hex self_templates services endpoint
    = Ok (Some (service_id, services1)) →
  ∃ enabled service,
    dict_get "enabled" endpoint = Some enabled ∧ truthy enabled = true
    ∧ dict_get "service_id" endpoint = Some service_id
    ∧ get_service uuid5_hex self_templates service_id = Ok service
    ∧ services1 = dict_setdefault service_id (service, None) services.
Proof.
  unfold lookup_service, dict_item.
  destruct (dict_get "enabled" endpoint) as [enabled|]; [|done]. simpl.
  destruct (truthy enabled) eqn:Henabled; [|done]. simpl.
  destruct (dict_get "service_id" endpoint) as [sid|]; [|done]. simpl.
  destruct (get_service uuid5_hex self_templates sid) as [service|] eqn:Hs;
    [|done].
  simpl. intros [= <- <-]. by exists enabled, service.
Qed.

(** The endpoint that the [try] block appends: the original without the
    deleted fields and with the formatted url. *)
Lemma attach_endpoint_Ok substitutions service_id services original services' :
  dict_wf original →
  attach_endpoint format_url substitutions service_id services original
    = Ok services' →
  ∃ entry url formatted endpoint,
    dict_get service_id services = Some entry
    ∧ dict_get "url" original = Some url
    ∧ format_url url substitutions [] = Ok formatted
    ∧ catalog_endpoint formatted original endpoint
    ∧ services'
      = dict_set service_id (entry.1, Some (default [] entry.2 ++ [endpoint]))
          services.
Proof.
  intros Hwf. unfold attach_endpoint.
  destruct (dict_get service_id services) as [entry|]; [|done]. simpl.
  intros (e1 & ->%dict_delete_Ok & (e2 & ->%dict_delete_Ok
          & (e3 & ->%dict_delete_Ok & (e4 & ->%dict_delete_Ok
          & (e5 & ->%dict_delete_Ok & (url & Hurl & (formatted & Hf & [= <-])
          %bind_Ok)%bind_Ok)%bind_Ok)%bind_Ok)%bind_Ok)%bind_Ok)%bind_Ok.
  unfold dict_item in Hurl.
  match type of Hurl with context [dict_get "url" ?e] => set (e5 := e) in * end.
  destruct (dict_get "url" e5) as [url'|] eqn:Hget; [|done].
  injection Hurl as ->.
  assert (dict_wf e5) as Hwf5 by (by do 5 apply dict_wf_del).
  assert (∀ f, f ∉ deleted_fields → dict_get f e5 = dict_get f original) as Hsame.
  { intros f Hf'. unfold deleted_fields in Hf'.
    rewrite !not_elem_of_cons in Hf'. destruct Hf' as (? & ? & ? & ? & ? & _).
    subst e5. by rewrite !dict_get_del_ne. }
  assert (∀ f, f ∈ dict_keys e5 ↔ f ∈ dict_keys original ∧ f ∉ deleted_fields)
    as Hkeys.
  { intros f. subst e5. unfold deleted_fields.
    rewrite !not_elem_of_cons.
    rewrite dict_keys_del by (by do 4 apply dict_wf_del).
    rewrite dict_keys_del by (by do 3 apply dict_wf_del).
    rewrite dict_keys_del by (by do 2 apply dict_wf_del).
    rewrite dict_keys_del by (by apply dict_wf_del).
    rewrite dict_keys_del by done.
    pose proof (not_elem_of_nil f). tauto. }
  exists entry, url, formatted, (dict_set "url" formatted e5).
  split_and!; try done.
  - rewrite <- Hget. symmetry. apply Hsame. unfold deleted_fields. by_compute.
  - split_and!.
    + by apply dict_wf_set.
    + intros f. rewrite dict_keys_set_iff, <- Hkeys. split; [|tauto].
      intros [->|?]; [|done].
      destruct (decide ("url" ∈ dict_keys e5)) as [|Hn%dict_get_None];
        [done|congruence].
    + apply dict_get_set_eq.
    + intros f Hne Hf'. rewrite dict_get_set_ne by done. by apply Hsame.
  - by destruct entry as [service [l|]].
Qed.

(** The outcomes of the loop body that let the loop go on. *)
Lemma add_endpoint_Ok substitutions project_id services item services' w w' :
  add_endpoint uuid5_hex format_url self_templates substitutions project_id
    services item w = (Ok services', w') →
  services' = services
  ∨ ∃ service_id services1,
      lookup_service uuid5_hex self_templates services item.2
        = Ok (Some (service_id, services1))
      ∧ (services' = services1
         ∨ attach_endpoint format_url substitutions service_id services1 item.2
           = Ok services').
Proof.
  unfold add_endpoint.
  destruct (lookup_service uuid5_hex self_templates services item.2)
    as [[[service_id services1]|]|e].
  - destruct (attach_endpoint format_url substitutions service_id services1
                item.2) as [services2|e] eqn:Hattach.
    + intros [= <- _]. right. exists service_id, services1. by eauto.
    + destruct e; try by intros [=].
      rewrite M_bind_run.
      destruct (remove_endpoint_from_project item.1 project_id w)
        as [[[]|] w1]; [|done].
      intros [= <- _]. right. exists service_id, services1. by eauto.
  - intros [= <- _]. by left.
  - destruct e; try by intros [=].
    rewrite M_bind_run.
    destruct (remove_endpoint_from_project item.1 project_id w)
      as [[[]|] w1]; [|done].
    intros [= <- _]. by left.
Qed.

(** The loop body keeps every entry of [services] as described. *)
Lemma add_endpoint_step substitutions project_id services item services' w w'
    all :
  list_endpoints uuid5_hex self_templates = Ok all →
  item.2 ∈ all →
  (∀ service_id entry, (service_id, entry) ∈ services →
     service_entry_ok uuid5_hex format_url self_templates substitutions
       service_id entry) →
  add_endpoint uuid5_hex format_url self_templates substitutions project_id
    services item w = (Ok services', w') →
  ∀ service_id entry, (service_id, entry) ∈ services' →
    service_entry_ok uuid5_hex format_url self_templates substitutions
      service_id entry.
Proof.
  intros Hall Hin Hok
    [->|(sid & services1 & Hlookup & Hcase)]%add_endpoint_Ok; [done|].
  apply lookup_service_Some in Hlookup
    as (enabled & service & Henabled & Htruthy & Hsid & Hservice & ->).
  assert (∀ service_id entry,
            (service_id, entry) ∈ dict_setdefault sid (service, None) services →
            service_entry_ok uuid5_hex format_url self_templates substitutions
              service_id entry) as Hok1.
  { intros service_id entry. unfold dict_setdefault.
    destruct (dict_mem sid services); [apply Hok|].
    intros [[= -> ->]|?]%elem_of_dict_set; [|by apply Hok].
    split; [done|]. by intros ? [=]. }
  destruct Hcase as [Heq|Hattach]; [by subst|].
  apply attach_endpoint_Ok in Hattach
      as (entry0 & url & formatted & endpoint & Hentry & Hurl & Hf & Hep & ->);
    [|by apply (list_endpoints_field_names uuid5_hex _ _ _ Hall Hin)].
  apply dict_get_Some_elem, Hok1 in Hentry as [Hget0 Hold].
  intros service_id entry [[= -> ->]|?]%elem_of_dict_set; [|by apply Hok1].
  split; [done|]. simpl. intros endpoints [= <-]. split.
  - by destruct (default [] entry0.2).
  - intros e [He| ->%list_elem_of_singleton]%elem_of_app.
    + destruct entry0 as [service0 [l|]]; simpl in He;
        [|by apply elem_of_nil in He].
      by apply (Hold l).
    + by exists all, item.2, enabled, url, formatted.
Qed.

(** The last loop emits, for an entry of [services], its type, name,
    description and endpoints. *)
Lemma format_services_elem services catalog service :
  format_services services = Ok catalog →
  service ∈ catalog →
  ∃ service_id record endpoints type name description,
    (service_id, (record, Some endpoints)) ∈ services
    ∧ dict_get "type" record = Some type
    ∧ dict_get "name" record = Some name
    ∧ dict_get "description" record = Some description
    ∧ service = [("type", V3Scalar type); ("name", V3Scalar name);
                 ("description", V3Scalar description);
                 ("endpoints", V3Endpoints endpoints)].
Proof.
  unfold format_services. intros Hf. revert service. revert Hf.
  apply (foldM_invariant
           (λ catalog : list v3_service, ∀ service, service ∈ catalog →
              ∃ service_id record endpoints type name description,
                (service_id, (record, Some endpoints)) ∈ services
                ∧ dict_get "type" record = Some type
                ∧ dict_get "name" record = Some name
                ∧ dict_get "description" record = Some description
                ∧ service = [("type", V3Scalar type); ("name", V3Scalar name);
                             ("description", V3Scalar description);
                             ("endpoints", V3Endpoints endpoints)]));
    [|by intros ? ?%elem_of_nil].
  intros acc [sid [record endpoints]] acc' Hin Hacc. unfold dict_item. simpl.
  destruct (dict_get "type" record) as [type|] eqn:Ht; [|done]. simpl.
  destruct (dict_get "name" record) as [name|] eqn:Hn; [|done]. simpl.
  destruct (dict_get "description" record) as [description|] eqn:Hd; [|done].
  simpl. destruct endpoints as [endpoints|]; [|done]. simpl.
  intros [= <-] service [?| ->%list_elem_of_singleton]%elem_of_app; [by apply Hacc|].
  by exists sid, record, endpoints, type, name, description.
Qed.

(** Every entry that the loop over the endpoints leaves in [services] is as
    described. *)
Lemma v3_loop_entries substitutions project_id w m w1 services w2 :
  list_endpoints_for_project uuid5_hex self_templates get_project project_id w
    = (Ok m, w1) →
  foldM_M (add_endpoint uuid5_hex format_url self_templates substitutions
             project_id) [] m w1 = (Ok services, w2) →
  ∀ service_id entry, (service_id, entry) ∈ services →
    service_entry_ok uuid5_hex format_url self_templates substitutions
      service_id entry.
Proof.
  intros Hrun.
  apply (foldM_M_invariant
           (λ services : dict pyval service_entry,
              ∀ service_id entry, (service_id, entry) ∈ services →
                service_entry_ok uuid5_hex format_url self_templates
                  substitutions service_id entry));
    [|by intros ?? ?%elem_of_nil].
  intros acc [id original] acc' w3 w4 Hitem Hacc Hstep.
  destruct (list_endpoints_for_project_items _ _ _ _ _ _ _ _ _ Hrun Hitem)
    as (all & Hall & Horiginal & _).
  by apply (add_endpoint_step _ _ _ (id, original) _ _ _ all Hall Horiginal
              Hacc Hstep).
Qed.

(** X18: unless the catalog of the parent class is asked for, a service of
    the catalog that [get_v3_catalog] returns holds the type, name and
    description of the record that [get_service] returns for a service id,
    and at least one endpoint.  Each of its endpoints is made from an
    enabled endpoint of the listing that names this service id: it has the
    fields ['region'], ['interface'] and ['url'] and no other, the url
    formatted with the configuration, the tenant id and the user id, and
    region and interface as listed. *)
Theorem get_v3_catalog_services (user_id project_id : string) (w w' : world S)
    (catalog : list v3_service) (service : v3_service) :
  return_all_endpoints_if_no_filter CONF = false →
  get_v3_catalog uuid5_hex format_url CONF self_templates get_project
    super_get_v3_catalog user_id project_id w = (Ok catalog, w') →
  service ∈ catalog →
  ∃ service_id record endpoints type name description,
    service_entry_ok uuid5_hex format_url self_templates
      (v3_substitutions CONF user_id project_id) service_id
      (record, Some endpoints)
    ∧ dict_get "type" record = Some type
    ∧ dict_get "name" record = Some name
    ∧ dict_get "description" record = Some description
    ∧ service = [("type", V3Scalar type); ("name", V3Scalar name);
                 ("description", V3Scalar description);
                 ("endpoints", V3Endpoints endpoints)]
    ∧ ∀ endpoint, endpoint ∈ endpoints →
        NoDup (dict_keys endpoint)
        ∧ ∀ f, f ∈ dict_keys endpoint ↔ f ∈ ["region"; "interface"; "url"].
Proof.
  intros Hflag. unfold get_v3_catalog. rewrite M_bind_run, Hflag.
  destruct (list_endpoints_for_project uuid5_hex self_templates get_project
              project_id w) as [[m|] w1] eqn:Hrun; [|done].
  rewrite andb_false_r, M_bind_run.
  fold (v3_substitutions CONF user_id project_id).
  destruct (foldM_M _ [] m w1) as [[services|] w2] eqn:Hloop; [|done].
  unfold lift. intros [= Hformat _] Hin.
  destruct (format_services_elem _ _ _ Hformat Hin)
    as (sid & record & endpoints & type & name & description
        & Hentry & Ht & Hn & Hd & ->).
  pose proof (v3_loop_entries _ _ _ _ _ _ _ Hrun Hloop _ _ Hentry) as Hok.
  exists sid, record, endpoints, type, name, description.
  split_and!; try done.
  intros endpoint Hep. destruct Hok as [_ Hlist].
  destruct (Hlist endpoints eq_refl) as [_ Heps].
  destruct (Heps endpoint Hep)
    as (all & original & _ & _ & _ & Hall & Horiginal & _ & _ & _ & _ & _
        & Hwf & Hkeys & _).
  split; [done|]. intros f. rewrite Hkeys.
  destruct (list_endpoints_field_names uuid5_hex _ _ _ Hall Horiginal)
    as [_ Hfields].
  rewrite Hfields. unfold endpoint_fields, deleted_fields.
  rewrite !not_elem_of_cons, !elem_of_cons, !elem_of_nil.
  split.
  - intros [[->|[->|[->|[->|[->|[->|[->|[->|[]]]]]]]]] Hno]; tauto.
  - intros [->|[->|[->|[]]]]; split_and!; try done; tauto.
Qed.

(** The search loop raises [not_found], or [KeyError] for a record without
    ['id']. *)
Lemma first_with_id_raises id not_found l e :
  first_with_id id not_found l = Raise e → e = not_found ∨ e = KeyError "id".
Proof.
  induction l as [|r l IH]; simpl; [intros [= <-]; by left|].
  unfold dict_item. destruct (dict_get "id" r) as [rid|]; simpl;
    [|intros [= <-]; by right].
  by case_decide.
Qed.

Lemma dict_delete_raises {V} k (d : dict string V) e :
  dict_delete k d = Raise e → e = KeyError k.
Proof. unfold dict_delete. destruct (dict_mem k d); by intros [= <-]. Qed.

Lemma dict_item_raises {V} k (d : dict string V) e :
  dict_item k d = Raise e → e = KeyError k.
Proof. unfold dict_item. destruct (dict_get k d); by intros [= <-]. Qed.

(** The part of the [try] block before the deletions raises [KeyError]
    or what [get_service] raises, never [EndpointNotFound]. *)
Lemma lookup_service_raises services endpoint e id :
  lookup_service uuid5_hex self_templates services endpoint = Raise e →
  e ≠ EndpointNotFound id.
Proof.
  unfold lookup_service.
  intros [H|(enabled & _ & H)]%bind_Raise;
    [by apply dict_item_raises in H as ->|].
  destruct (negb (truthy enabled)); [done|].
  apply bind_Raise in H as [H|(sid & _ & H)];
    [by apply dict_item_raises in H as ->|].
  apply bind_Raise in H as [H|(? & _ & H)]; [|done].
  unfold get_service in H. by apply first_with_id_raises in H as [->| ->].
Qed.

Lemma lookup_service_None services endpoint :
  lookup_service uuid5_hex self_templates services endpoint = Ok None →
  ∃ enabled, dict_get "enabled" endpoint = Some enabled
             ∧ truthy enabled = false.
Proof.
  unfold lookup_service, dict_item.
  destruct (dict_get "enabled" endpoint) as [enabled|]; [|done]. simpl.
  destruct (truthy enabled) eqn:Henabled; simpl; [|by eauto].
  destruct (dict_get "service_id" endpoint) as [sid|]; [|done]. simpl.
  by destruct (get_service uuid5_hex self_templates sid).
Qed.

(** The rest of the [try] block raises [EndpointNotFound] only when
    [format_url] does, on the url of the endpoint. *)
Lemma attach_endpoint_raises substitutions service_id services original id :
  attach_endpoint format_url substitutions service_id services original
    = Raise (EndpointNotFound id) →
  ∃ url, dict_get "url" original = Some url
         ∧ format_url url substitutions [] = Raise (EndpointNotFound id).
Proof.
  unfold attach_endpoint.
  destruct (dict_get service_id services) as [entry|]; [|done]. simpl.
  intros [H|(e1 & ->%dict_delete_Ok & H)]%bind_Raise;
    [by apply dict_delete_raises in H|].
  apply bind_Raise in H as [H|(e2 & ->%dict_delete_Ok & H)];
    [by apply dict_delete_raises in H|].
  apply bind_Raise in H as [H|(e3 & ->%dict_delete_Ok & H)];
    [by apply dict_delete_raises in H|].
  apply bind_Raise in H as [H|(e4 & ->%dict_delete_Ok & H)];
    [by apply dict_delete_raises in H|].
  apply bind_Raise in H as [H|(e5 & ->%dict_delete_Ok & H)];
    [by apply dict_delete_raises in H|].
  apply bind_Raise in H as [H|(url & Hurl & H)];
    [by apply dict_item_raises in H|].
  apply bind_Raise in H as [H|(? & _ & H)]; [|done].
  exists url. split; [|done]. unfold dict_item in Hurl.
  rewrite !dict_get_del_ne in Hurl by done.
  by destruct (dict_get "url" original) as [?|]; [injection Hurl as ->|].
Qed.

(** X19: the handler of [EndpointNotFound] in [get_v3_catalog] is reached
    through [format_url] only: when [format_url] does not raise
    [EndpointNotFound], the loop over the endpoints removes no association
    and leaves the store as [list_endpoints_for_project] left it, whatever
    [get_v3_catalog] returns or raises. *)
Theorem get_v3_catalog_removes_nothing (user_id project_id : string)
    (w : world S) :
  (∀ url substitutions silent id,
     format_url url substitutions silent ≠ Raise (EndpointNotFound id)) →
  (get_v3_catalog uuid5_hex format_url CONF self_templates get_project
     super_get_v3_catalog user_id project_id w).2
  = (list_endpoints_for_project uuid5_hex self_templates get_project
       project_id w).2.
Proof.
  intros Hformat. unfold get_v3_catalog. rewrite M_bind_run.
  destruct (list_endpoints_for_project uuid5_hex self_templates get_project
              project_id w) as [[m|] w1]; [|done].
  simpl. destruct (_ && _); [done|]. rewrite M_bind_run.
  match goal with |- context [foldM_M ?f [] m w1] =>
    pose proof (foldM_M_world f m) as Hworld end.
  match type of Hworld with _ → ?C =>
    assert C as Hw; [apply Hworld|specialize (Hw [] w1)] end.
  - clear Hworld. intros services item w0. unfold add_endpoint.
    destruct (lookup_service uuid5_hex self_templates services item.2)
      as [[[service_id services1]|]|e] eqn:Hlookup; [|done|].
    + destruct (attach_endpoint format_url _ service_id services1 item.2)
        as [services2|e] eqn:Hattach; [done|].
      destruct e; try done.
      apply attach_endpoint_raises in Hattach as (url & _ & Hurl).
      by apply Hformat in Hurl.
    + destruct e; try done. by eapply lookup_service_raises in Hlookup.
  - destruct (foldM_M _ [] m w1) as [[services|] w2]; by simpl in *.
Qed.

(** The outcomes of the loop body that let the loop go on, by what the
    endpoint holds. *)
Lemma add_endpoint_Ok_cases substitutions project_id services item services'
    w w' :
  dict_wf item.2 →
  add_endpoint uuid5_hex format_url self_templates substitutions project_id
    services item w = (Ok services', w') →
  (∃ enabled, dict_get "enabled" item.2 = Some enabled
              ∧ truthy enabled = false ∧ services' = services)
  ∨ ∃ enabled service_id record url,
      dict_get "enabled" item.2 = Some enabled ∧ truthy enabled = true
      ∧ dict_get "service_id" item.2 = Some service_id
      ∧ get_service uuid5_hex self_templates service_id = Ok record
      ∧ dict_get "url" item.2 = Some url
      ∧ ((∃ id, format_url url substitutions [] = Raise (EndpointNotFound id))
           ∧ services' = dict_setdefault service_id (record, None) services
         ∨ ∃ formatted entry endpoint,
             format_url url substitutions [] = Ok formatted
             ∧ dict_get service_id
                 (dict_setdefault service_id (record, None) services)
               = Some entry
             ∧ catalog_endpoint formatted item.2 endpoint
             ∧ services'
               = dict_set service_id
                   (entry.1, Some (default [] entry.2 ++ [endpoint]))
                   (dict_setdefault service_id (record, None) services)).
Proof.
  intros Hwf. unfold add_endpoint.
  destruct (lookup_service uuid5_hex self_templates services item.2)
    as [[[service_id services1]|]|e] eqn:Hlookup.
  - apply lookup_service_Some in Hlookup
      as (enabled & record & Henabled & Htruthy & Hsid & Hservice & ->).
    destruct (attach_endpoint format_url substitutions service_id _ item.2)
      as [services2|e] eqn:Hattach.
    + intros [= <- _]. right.
      apply attach_endpoint_Ok in Hattach
          as (entry & url & formatted & endpoint & Hentry & Hurl & Hf & Hep & ->);
        [|done].
      exists enabled, service_id, record, url. split_and!; try done.
      right. by exists formatted, entry, endpoint.
    + destruct e; try by intros [=].
      apply attach_endpoint_raises in Hattach as (url & Hurl & Hf).
      rewrite M_bind_run.
      destruct (remove_endpoint_from_project item.1 project_id w)
        as [[[]|] w1]; [|done].
      intros [= <- _]. right.
      exists enabled, service_id, record, url. split_and!; try done.
      left. by eauto.
  - apply lookup_service_None in Hlookup as (enabled & Henabled & Htruthy).
    intros [= <- _]. left. by exists enabled.
  - destruct e; try by intros [=]. by eapply lookup_service_raises in Hlookup.
Qed.

(** The loop body keeps the endpoints that [services] holds. *)
Lemma add_endpoint_keeps substitutions project_id services item services'
    w w' service_id service endpoints :
  dict_wf item.2 →
  add_endpoint uuid5_hex format_url self_templates substitutions project_id
    services item w = (Ok services', w') →
  dict_get service_id services = Some (service, Some endpoints) →
  ∃ endpoints',
    dict_get service_id services' = Some (service, Some endpoints')
    ∧ ∀ endpoint, endpoint ∈ endpoints → endpoint ∈ endpoints'.
Proof.
  intros Hwf Hstep Hget.
  assert (∀ sid (r : record),
            dict_get service_id (dict_setdefault sid (r, None) services)
            = Some (service, Some endpoints)) as Hdefault.
  { intros sid r. unfold dict_setdefault.
    destruct (dict_mem sid services) eqn:Hmem; [done|].
    rewrite dict_get_set_ne; [done|]. intros ->.
    unfold dict_mem in Hmem. by rewrite Hget in Hmem. }
  apply add_endpoint_Ok_cases in Hstep
      as [(_ & _ & _ & ->)
         |(_ & sid & r & _ & _ & _ & _ & _ & _
           & [[_ ->]|(_ & entry & endpoint & _ & Hentry & _ & ->)])];
    [by eauto|by eauto| |done].
  destruct (decide (service_id = sid)) as [->|Hne].
  - rewrite Hdefault in Hentry. injection Hentry as <-.
    rewrite dict_get_set_eq. simpl. eexists. split; [done|].
    intros e He. apply elem_of_app. by left.
  - rewrite dict_get_set_ne by done. by eauto.
Qed.

(** A loop of the manager, with the elements that it has gone through. *)
Lemma foldM_M_prefix_invariant {A B} (I : list A → B → Prop)
    (f : B → A → M S B) l :
  (∀ pre x acc acc' w w', x ∈ l → I pre acc → f acc x w = (Ok acc', w') →
     I (pre ++ [x]) acc') →
  ∀ pre acc w r w', I pre acc → foldM_M f acc l w = (Ok r, w') →
    I (pre ++ l) r.
Proof.
  induction l as [|x l IH]; intros Hstep pre acc w r w' Hacc.
  - rewrite app_nil_r. by intros [= <- _].
  - rewrite foldM_M_cons. destruct (f acc x w) as [[acc'|e] w1] eqn:Hx; [|done].
    rewrite cons_middle, (assoc_L (++)).
    apply (IH (λ p y a a' u u' Hin,
                 Hstep p y a a' u u' (list_elem_of_further _ _ _ Hin))).
    eapply Hstep; [left|done..].
Qed.

(** The last loop emits every entry of [services]. *)
Lemma format_services_complete services catalog service_id record endpoints :
  format_services services = Ok catalog →
  (service_id, (record, Some endpoints)) ∈ services →
  ∃ type name description,
    dict_get "type" record = Some type
    ∧ dict_get "name" record = Some name
    ∧ dict_get "description" record = Some description
    ∧ [("type", V3Scalar type); ("name", V3Scalar name);
       ("description", V3Scalar description);
       ("endpoints", V3Endpoints endpoints)] ∈ catalog.
Proof.
  unfold format_services.
  match goal with |- foldM ?f [] services = _ → _ => set (body := f) end.
  assert (∀ acc entry acc', body acc entry = Ok acc' →
            ∃ type name description eps,
              dict_get "type" entry.2.1 = Some type
              ∧ dict_get "name" entry.2.1 = Some name
              ∧ dict_get "description" entry.2.1 = Some description
              ∧ entry.2.2 = Some eps
              ∧ acc' = acc ++ [[("type", V3Scalar type); ("name", V3Scalar name);
                                ("description", V3Scalar description);
                                ("endpoints", V3Endpoints eps)]]) as Hbody.
  { intros acc [sid [r eps]] acc'. unfold body, dict_item. simpl.
    destruct (dict_get "type" r) as [type|]; [|done]. simpl.
    destruct (dict_get "name" r) as [name|]; [|done]. simpl.
    destruct (dict_get "description" r) as [description|]; [|done]. simpl.
    destruct eps as [eps|]; [|done]. simpl.
    intros [= <-]. by exists type, name, description, eps. }
  clearbody body. generalize (@nil v3_service).
  induction services as [|entry services IH]; intros acc;
    [by intros _ ?%elem_of_nil|].
  cbn [foldM]. intros (acc' & Hentry & Hrest)%bind_Ok Hin.
  apply elem_of_cons in Hin as [<-|Hin]; [|by eapply IH].
  apply Hbody in Hentry
    as (type & name & description & eps & Ht & Hn & Hd & [= <-] & ->).
  exists type, name, description. split_and!; try done.
  revert Hrest.
  apply (foldM_invariant
           (λ catalog : list v3_service,
              [("type", V3Scalar type); ("name", V3Scalar name);
               ("description", V3Scalar description);
               ("endpoints", V3Endpoints endpoints)] ∈ catalog)).
  - intros a e a' _ Ha
      (? & ? & ? & ? & _ & _ & _ & _ & ->)%Hbody.
    apply elem_of_app. by left.
  - apply elem_of_app. right. left.
Qed.

(** X21: when [get_v3_catalog] returns its own catalog, no enabled endpoint
    of the project was dropped in silence.  Every endpoint of the project
    whose ['enabled'] is true names a service id for which [get_service]
    returned a record; and unless [format_url] raised [EndpointNotFound]
    on its url, the catalog has a service with the type of that record
    that holds the endpoint, without the deleted fields and with the url
    formatted. *)
Theorem get_v3_catalog_complete (user_id project_id : string) (w w1 w' : world S)
    (m : dict pyval record) (catalog : list v3_service) (id : pyval)
    (original : record) (enabled : pyval) :
  return_all_endpoints_if_no_filter CONF = false →
  list_endpoints_for_project uuid5_hex self_templates get_project project_id w
    = (Ok m, w1) →
  get_v3_catalog uuid5_hex format_url CONF self_templates get_project
    super_get_v3_catalog user_id project_id w = (Ok catalog, w') →
  (id, original) ∈ m →
  dict_get "enabled" original = Some enabled → truthy enabled = true →
  ∃ service_id record url,
    dict_get "service_id" original = Some service_id
    ∧ get_service uuid5_hex self_templates service_id = Ok record
    ∧ dict_get "url" original = Some url
    ∧ ((∃ id', format_url url (v3_substitutions CONF user_id project_id) []
               = Raise (EndpointNotFound id'))
       ∨ ∃ formatted service type endpoints endpoint,
           format_url url (v3_substitutions CONF user_id project_id) []
             = Ok formatted
           ∧ service ∈ catalog
           ∧ dict_get "type" record = Some type
           ∧ dict_get "type" service = Some (V3Scalar type)
           ∧ dict_get "endpoints" service = Some (V3Endpoints endpoints)
           ∧ endpoint ∈ endpoints
           ∧ catalog_endpoint formatted original endpoint).
Proof.
  intros Hflag Hrun. unfold get_v3_catalog. rewrite M_bind_run, Hrun, Hflag.
  rewrite andb_false_r, M_bind_run.
  fold (v3_substitutions CONF user_id project_id).
  destruct (foldM_M _ [] m w1) as [[services|] w2] eqn:Hloop; [|done].
  unfold lift. intros [= Hformat _] Hin Henabled Htruthy.
  pose proof (v3_loop_entries _ _ _ _ _ _ _ Hrun Hloop) as Hentries.
  assert (∀ item, item ∈ m → dict_wf item.2) as Hwf.
  { intros [id0 ep0] Hitem.
    destruct (list_endpoints_for_project_items _ _ _ _ _ _ _ _ _ Hrun Hitem)
      as (all & Hall & Hep0 & _).
    by apply (list_endpoints_field_names uuid5_hex _ _ _ Hall Hep0). }
  assert (∃ service_id record url,
            dict_get "service_id" original = Some service_id
            ∧ get_service uuid5_hex self_templates service_id = Ok record
            ∧ dict_get "url" original = Some url
            ∧ ((∃ id', format_url url (v3_substitutions CONF user_id project_id)
                         [] = Raise (EndpointNotFound id'))
               ∨ ∃ formatted old endpoints endpoint,
                   format_url url (v3_substitutions CONF user_id project_id) []
                     = Ok formatted
                   ∧ dict_get service_id services = Some (old, Some endpoints)
                   ∧ endpoint ∈ endpoints
                   ∧ catalog_endpoint formatted original endpoint))
    as (sid & record & url & Hsid & Hrecord & Hurl & Hcase).
  { revert id original enabled Hin Henabled Htruthy.
    change m with ([] ++ m) at 1. revert Hloop.
    apply (foldM_M_prefix_invariant
             (λ (pre : list (pyval * record)) (services : dict pyval service_entry),
                ∀ id original enabled,
                  (id, original) ∈ pre →
                  dict_get "enabled" original = Some enabled →
                  truthy enabled = true →
                  ∃ service_id record url,
                    dict_get "service_id" original = Some service_id
                    ∧ get_service uuid5_hex self_templates service_id = Ok record
                    ∧ dict_get "url" original = Some url
                    ∧ ((∃ id', format_url url
                                 (v3_substitutions CONF user_id project_id) []
                               = Raise (EndpointNotFound id'))
                       ∨ ∃ formatted old endpoints endpoint,
                           format_url url
                             (v3_substitutions CONF user_id project_id) []
                             = Ok formatted
                           ∧ dict_get service_id services
                             = Some (old, Some endpoints)
                           ∧ endpoint ∈ endpoints
                           ∧ catalog_endpoint formatted original endpoint)));
      [|by intros ??? ?%elem_of_nil].
    intros pre item acc acc' w3 w4 Hitem Hpre Hstep id original enabled
      [Hin| <-%list_elem_of_singleton]%elem_of_app Henabled Htruthy.
    - destruct (Hpre _ _ _ Hin Henabled Htruthy)
        as (sid & record & url & Hsid & Hrecord & Hurl & Hcase).
      exists sid, record, url. split_and!; try done.
      destruct Hcase as [?|(formatted & old & eps & ep & Hf & Hget & Hep & Hc)];
        [by left|right].
      destruct (add_endpoint_keeps _ _ _ _ _ _ _ _ _ _ (Hwf _ Hitem) Hstep Hget)
        as (eps' & Hget' & Hsub).
      exists formatted, old, eps', ep. by eauto.
    - apply add_endpoint_Ok_cases in Hstep
          as [(enabled' & Henabled' & Hfalse & _)
             |(_ & sid & record & url & _ & _ & Hsid & Hrecord & Hurl & Hcase)];
        [simpl in *; congruence| |by apply (Hwf _ Hitem)].
      simpl in *. exists sid, record, url. split_and!; try done.
      destruct Hcase as [[? _]|(formatted & entry & ep & Hf & _ & Hc & ->)];
        [by left|right].
      exists formatted, entry.1, (default [] entry.2 ++ [ep]), ep.
      split_and!; try done.
      + apply dict_get_set_eq.
      + apply elem_of_app. right. left. }
  exists sid, record, url. split_and!; try done.
  destruct Hcase as [?|(formatted & old & eps & ep & Hf & Hget & Hep & Hc)];
    [by left|right].
  apply dict_get_Some_elem in Hget.
  destruct (Hentries _ _ Hget) as [Hold _]. simpl in Hold.
  rewrite Hrecord in Hold. injection Hold as <-.
  destruct (format_services_complete _ _ _ _ _ Hformat Hget)
    as (type & name & description & Ht & _ & _ & Hservice).
  eexists formatted, _, type, eps, ep. split_and!; try done.
Qed.

End v3_services.

Lemma get_v3_catalog_services_witness :
  ∃ catalog w' service endpoints,
    get_v3_catalog ex_uuid spec_format_url (ex_conf true) ex_templates
      ex_get_project ex_super_get_v3_catalog "u" "p1" (World ex_store [])
    = (Ok catalog, w')
    ∧ catalog !! 1%nat = Some service
    ∧ dict_get "endpoints" service = Some (V3Endpoints endpoints)
    ∧ ∀ endpoint, endpoint ∈ endpoints →
        ∀ f, f ∈ dict_keys endpoint ↔ f ∈ ["region"; "interface"; "url"].
Proof.
  do 4 eexists. split; [vm_compute; reflexivity|]. split; [reflexivity|].
  split; [reflexivity|].
  edestruct (λ w' catalog,
               get_v3_catalog_services ex_uuid spec_format_url (ex_conf true)
                 ex_templates ex_get_project ex_super_get_v3_catalog "u" "p1"
                 (World ex_store []) w' catalog
                 [("type", V3Scalar (VStr "compute"));
                  ("name", V3Scalar (VStr "Compute"));
                  ("description", V3Scalar (VStr ""));
                  ("endpoints",
                   V3Endpoints [[("region", VStr "RegionOne");
                                 ("interface", VStr "public");
                                 ("url", VStr "http://c/p1")]])])
    as (sid & record & endpoints & type & name & description
        & _ & _ & _ & _ & Heq & Heps).
  - reflexivity.
  - vm_compute. reflexivity.
  - elem_of_list.
  - injection Heq as _ _ _ <-. intros endpoint Hin. by apply Heps.
Defined.

Lemma get_v3_catalog_removes_nothing_witness :
  (get_v3_catalog ex_uuid spec_format_url (ex_conf true) ex_templates
     ex_get_project ex_super_get_v3_catalog "u" "p1" (World ex_store [])).2
  = (list_endpoints_for_project ex_uuid ex_templates ex_get_project "p1"
       (World ex_store [])).2.
Proof.
  apply (get_v3_catalog_removes_nothing ex_uuid spec_format_url (ex_conf true)
           ex_templates ex_get_project ex_super_get_v3_catalog "u" "p1").
  intros url substitutions silent id Hraise.
  by apply spec_format_url_only_malformed in Hraise.
Defined.

(** ** The substitutions of [get_catalog] *)

(** Assignments in a row: the last value assigned to a key is found. *)
Lemma dict_get_foldl_set {V} (k : string) (d b : dict string V) :
  dict_wf b →
  dict_get k (foldl (λ d kv, dict_set kv.1 kv.2 d) d b)
  = match dict_get k b with
    | Some v => Some v
    | None => dict_get k d
    end.
Proof.
  revert d. induction b as [|[k1 v1] b IH]; intros d; [done|].
  unfold dict_wf, dict_keys. rewrite fmap_cons. intros [Hk1 Hb]%NoDup_cons.
  cbn [foldl]. rewrite (IH _ Hb). simpl in *.
  destruct (decide (k = k1)) as [->|Hne].
  - apply (dict_get_None k1 b) in Hk1. rewrite Hk1. apply dict_get_set_eq.
  - by rewrite dict_get_set_ne.
Qed.

(** X20: the substitutions of [get_catalog].  ['user_id'] is the user id;
    ['tenant_id'] is the tenant id when that is not empty, and then no
    missing key is tolerated, while otherwise a missing ['tenant_id'] is;
    every other key, and ['tenant_id'] without a tenant id, has the value
    of the [eventlet_server] group when the group has the key, and the
    value of [CONF] when it does not. *)
Theorem get_catalog_substitutions_precedence (CONF : config)
    (user_id tenant_id : pyval) (substitutions : dict string pyval)
    (silent : list string) :
  dict_wf (conf_items CONF) → dict_wf (eventlet_server_items CONF) →
  get_catalog_substitutions CONF user_id tenant_id = (substitutions, silent) →
  silent = (if truthy tenant_id then [] else ["tenant_id"])
  ∧ dict_get "user_id" substitutions = Some user_id
  ∧ (truthy tenant_id = true →
     dict_get "tenant_id" substitutions = Some tenant_id)
  ∧ ∀ k, k ≠ "user_id" → (k = "tenant_id" → truthy tenant_id = false) →
      dict_get k substitutions
      = match dict_get k (eventlet_server_items CONF) with
        | Some v => Some v
        | None => dict_get k (conf_items CONF)
        end.
Proof.
  intros Hconf Heventlet. unfold get_catalog_substitutions.
  assert (∀ k, dict_get k (dict_of_items (conf_items CONF
                                          ++ eventlet_server_items CONF))
               = match dict_get k (eventlet_server_items CONF) with
                 | Some v => Some v
                 | None => dict_get k (conf_items CONF)
                 end) as Hitems.
  { intros k. unfold dict_of_items. rewrite foldl_app.
    rewrite (dict_get_foldl_set k _ _ Heventlet).
    destruct (dict_get k (eventlet_server_items CONF)); [done|].
    rewrite (dict_get_foldl_set k [] _ Hconf).
    by destruct (dict_get k (conf_items CONF)). }
  destruct (truthy tenant_id); intros [= <- <-]; split_and!; try done.
  - rewrite dict_get_set_ne by done. apply dict_get_set_eq.
  - intros _. apply dict_get_set_eq.
  - intros k Hu Ht. rewrite !dict_get_set_ne; [apply Hitems|done|].
    intros ->. by specialize (Ht eq_refl).
  - apply dict_get_set_eq.
  - intros k Hu _. by rewrite dict_get_set_ne.
Qed.

Lemma get_catalog_substitutions_precedence_witness :
  dict_get "host"
    (get_catalog_substitutions
       {| conf_items := [("host", VStr "10.0.0.1"); ("port", VStr "5000")];
          eventlet_server_items := [("host", VStr "0.0.0.0")];
          return_all_endpoints_if_no_filter := false |}
       (VStr "u") VNone).1
  = Some (VStr "0.0.0.0").
Proof.
  destruct (get_catalog_substitutions_precedence
              {| conf_items := [("host", VStr "10.0.0.1"); ("port", VStr "5000")];
                 eventlet_server_items := [("host", VStr "0.0.0.0")];
                 return_all_endpoints_if_no_filter := false |}
              (VStr "u") VNone _ _ ltac:(by_compute) ltac:(by_compute) eq_refl)
    as (_ & _ & _ & Hother).
  by rewrite Hother.
Defined.

Lemma get_v3_catalog_complete_witness :
  ∃ service endpoints,
    dict_get "type" service = Some (V3Scalar (VStr "compute"))
    ∧ dict_get "endpoints" service = Some (V3Endpoints endpoints)
    ∧ endpoints ≠ [].
Proof.
  edestruct (λ w1 w' m catalog,
               get_v3_catalog_complete ex_uuid spec_format_url (ex_conf true)
                 ex_templates ex_get_project ex_super_get_v3_catalog "u" "p1"
                 (World ex_store []) w1 w' m catalog
                 (VStr "#RegionOnecomputeComputepublic")
                 [("id", VStr "#RegionOnecomputeComputepublic");
                  ("region", VStr "RegionOne"); ("region_id", VStr "RegionOne");
                  ("enabled", VBool true);
                  ("legacy_endpoint_id", VStr "#RegionOnecomputeComputepublic");
                  ("service_id", VStr "#compute"); ("interface", VStr "public");
                  ("url", VStr "http://c/{tenant_id}")]
                 (VBool true))
    as (sid & record & url & Hsid & Hrecord & Hurl & Hcase).
  - reflexivity.
  - vm_compute. reflexivity.
  - vm_compute. reflexivity.
  - elem_of_list.
  - reflexivity.
  - reflexivity.
  - injection Hsid as <-. injection Hurl as <-.
    vm_compute in Hrecord. injection Hrecord as <-.
    destruct Hcase as [[id' Hraise]|(formatted & service & type & endpoints
                                     & endpoint & _ & _ & Ht & Htype & Heps
                                     & Hep & _)].
    + apply spec_format_url_only_malformed in Hraise. discriminate Hraise.
    + injection Ht as <-. exists service, endpoints. split; [exact Htype|].
      split; [exact Heps|]. intros ->. by apply elem_of_nil in Hep.
Defined.
